(** * EcoMind: agent orchestrator, shared memory and the agents

    A shallow embedding of [core/base_agent.py], [core/agent_orchestrator.py],
    of the message and alert handlers of the monitoring and predictive
    agents, of the monitoring cycle, of the decisions and the models of the
    predictive agent and of the campaigns of the community agent, followed
    by the properties of the scheduling and coordination core and of the
    agents.

    Python objects are records; dictionaries that are used as maps (the
    shared memory, the memory and the attributes of an agent) are [gmap]s;
    dictionaries whose order is visible ([self.agents], message and result
    payloads) are association lists in insertion order.  A coroutine runs
    from one suspension point to the next as one atomic step, which is how
    the single-threaded event loop runs it, and a call into an agent is one
    such step.  Payloads are values: the entry of the shared memory is the
    result object that was written, and a later change of that object in
    place by the agent that built it is not followed.  Floats are rational
    numbers; what the clock, the random sensors and [str] give is an input
    of the function that uses it. *)

From Stdlib Require Import ZArith QArith.
From stdpp Require Import base option list strings gmap pretty.

Close Scope Q_scope.

(** ** Python values *)

(** [datetime.now().isoformat()] is an input of the model: the caller of a
    step supplies the string the clock would give. *)
Definition timestamp := string.

#[local] Unset Elimination Schemes.
Inductive pyval : Type :=
| VNone
| VBool (b : bool)
| VInt (z : Z)
| VFloat (q : Q)          (* finite floats, as rationals *)
| VStr (s : string)
| VList (l : list pyval)
| VDict (d : list (string * pyval))
| VOpaque (cls : string). (* any other object: a session, a datetime *)
#[local] Set Elimination Schemes.

Abbreviation pydict := (list (string * pyval)).

(** [d.get(k)] and [d[k] = v] on a dictionary kept in insertion order. *)
Fixpoint dict_get {A} (d : list (string * A)) (k : string) : option A :=
  match d with
  | [] => None
  | (k', v) :: d' => if decide (k' = k) then Some v else dict_get d' k
  end.

Fixpoint dict_set {A} (d : list (string * A)) (k : string) (v : A)
  : list (string * A) :=
  match d with
  | [] => [(k, v)]
  | (k', v') :: d' =>
      if decide (k' = k) then (k, v) :: d' else (k', v') :: dict_set d' k v
  end.

Definition dict_keys {A} (d : list (string * A)) : list string := d.*1.
Definition dict_values {A} (d : list (string * A)) : list A := d.*2.

(** Truth value of an object, as [if result:] tests it. *)
Definition truthy (v : pyval) : bool :=
  match v with
  | VNone => false
  | VBool b => b
  | VInt z => negb (z =? 0)%Z
  | VFloat q => negb (Qeq_bool q 0)
  | VStr s => negb (bool_decide (s = ""))
  | VList l => match l with [] => false | _ => true end
  | VDict d => match d with [] => false | _ => true end
  | VOpaque _ => true
  end.

Definition type_name (v : pyval) : string :=
  match v with
  | VNone => "NoneType"
  | VBool _ => "bool"
  | VInt _ => "int"
  | VFloat _ => "float"
  | VStr _ => "str"
  | VList _ => "list"
  | VDict _ => "dict"
  | VOpaque c => c
  end.

(** [v == "s"] for a string literal. *)
Definition py_eq_str (v : pyval) (s : string) : bool :=
  match v with
  | VStr s' => bool_decide (s' = s)
  | _ => false
  end.

(** ** Exceptions and outcomes *)

(** An instance of a subclass of [Exception]; [exn_msg] is [str(e)]. *)
Record exn := Exception { exn_class : string; exn_msg : string }.

Inductive outcome (A : Type) : Type :=
| Returned (a : A)
| Raised (e : exn).
Arguments Returned {A} a.
Arguments Raised {A} e.

Definition is_returned {A} (r : outcome A) : bool :=
  match r with Returned _ => true | Raised _ => false end.

Definition AttributeError (v : pyval) (attr : string) : exn :=
  Exception "AttributeError"
    ("'" +:+ type_name v +:+ "' object has no attribute '" +:+ attr +:+ "'").

Definition TypeError_le (a b : pyval) : exn :=
  Exception "TypeError"
    ("'<=' not supported between instances of '" +:+ type_name a
       +:+ "' and '" +:+ type_name b +:+ "'").

(** [v.get(k, default)]: only a dictionary has the method. *)
Definition py_get (v : pyval) (k : string) (dflt : pyval) : outcome pyval :=
  match v with
  | VDict d => Returned (default dflt (dict_get d k))
  | _ => Raised (AttributeError v "get")
  end.

(** Numbers compare across [bool], [int] and [float]. *)
Definition py_num (v : pyval) : option Q :=
  match v with
  | VBool b => Some (if b then 1 else 0)%Q
  | VInt z => Some (inject_Z z)
  | VFloat q => Some q
  | _ => None
  end.

(** [a <= b] where at least one side is a number literal of the program. *)
Definition py_le (a b : pyval) : outcome bool :=
  match py_num a, py_num b with
  | Some x, Some y => Returned (Qle_bool x y)
  | _, _ => Raised (TypeError_le a b)
  end.

(** ** The agent contract ([core/base_agent.py]) *)

(** What a subclass can reach through [self] besides the two attributes
    that only [BaseAgent] assigns ([name] and [is_active], see [Agent]).
    [attrs] holds the attributes a subclass adds, and with them whatever its
    hooks depend on (random draws, replies of remote services). *)
Record AgentData := mkAgentData {
  cycle_interval : Z;
  action_count : Z;
  last_action_time : option timestamp;
  memory : gmap string pyval;
  attrs : gmap string pyval
}.

Definition hook (A R : Type) : Type := A → AgentData → outcome R * AgentData.

(** The abstract methods, and the two direct-call extension points that
    some subclasses define.  [execute_cycle] receives the shared memory and
    reads it: no [execute_cycle] of the repository assigns into it. *)
Record AgentClass := mkAgentClass {
  class_name : string;
  _setup : hook unit unit;
  _cleanup : hook unit unit;
  execute_cycle : hook (gmap string pyval) pyval;
  _process_message : hook pydict pyval;
  handle_pollution_alert : option (hook pyval pyval);
  coordinate_pollution_response : option (hook pyval pyval)
}.

Record Agent := mkAgent {
  agent_class : AgentClass;
  name : string;
  is_active : bool;
  data : AgentData
}.

Definition set_is_active (b : bool) (a : Agent) : Agent :=
  mkAgent (agent_class a) (name a) b (data a).

Definition set_data (d : AgentData) (a : Agent) : Agent :=
  mkAgent (agent_class a) (name a) (is_active a) d.

(** [BaseAgent.__init__(name, cycle_interval)] *)
Definition BaseAgent (c : AgentClass) (nm : string) (interval : Z) : Agent :=
  mkAgent c nm false (mkAgentData interval 0 None ∅ ∅).

(** Run a hook of the agent's class on the agent. *)
Definition call {A R} (h : hook A R) (x : A) (a : Agent) : outcome R * Agent :=
  let '(r, d) := h x (data a) in (r, set_data d a).

Definition initialize (a : Agent) : outcome unit * Agent :=
  let a := set_is_active true a in
  call (_setup (agent_class a)) () a.

Definition shutdown (a : Agent) : outcome unit * Agent :=
  let a := set_is_active false a in
  call (_cleanup (agent_class a)) () a.

Definition handle_message (message : pydict) (a : Agent)
  : outcome pyval * Agent :=
  call (_process_message (agent_class a)) message a.

Definition _record_action (now : timestamp) (d : AgentData) : AgentData :=
  mkAgentData (cycle_interval d) (action_count d + 1) (Some now)
    (memory d) (attrs d).

Definition _store_memory (key : string) (value : pyval) (now : timestamp)
    (d : AgentData) : AgentData :=
  mkAgentData (cycle_interval d) (action_count d) (last_action_time d)
    (<[key := VDict [("value", value); ("timestamp", VStr now)]]> (memory d))
    (attrs d).

(** [self.memory.get(key, {}).get('value')] *)
Definition _get_memory (key : string) (d : AgentData) : outcome pyval :=
  py_get (default (VDict []) (memory d !! key)) "value" VNone.

(** ** The orchestrator ([core/agent_orchestrator.py]) *)

(** The coroutines [start] schedules with [asyncio.create_task]: the cycle
    loop of one agent, and the coordination loop. *)
Inductive task_id : Type :=
| RunAgent (n : string)
| Coordinate.

#[global] Instance task_id_eq_dec : EqDecision task_id.
Proof. solve_decision. Defined.

Inductive task_state : Type :=
| Scheduled   (* suspended at the head of its loop or in a sleep *)
| Cancelled   (* ended by [task.cancel()] *)
| Finished.   (* returned because [self.running] was false *)

(** What the orchestrator does that a test double would count: calls into
    agents, task scheduling, writes to the shared memory, sleeps and log
    lines.  The list of events is ghost state: no operation reads it. *)
Inductive event : Type :=
| EvInitialize (n : string)
| EvShutdown (n : string)
| EvSpawn (t : task_id)
| EvCancel (t : task_id)
| EvExit (t : task_id)
| EvExecuteCycle (n : string) (r : outcome pyval)
| EvWrite (writer : task_id) (key : string) (v : pyval)
| EvSleep (t : task_id) (seconds : Z)
| EvExtension (n : string) (method : string) (arg : pyval)
| EvHandleMessage (n : string) (message : pydict)
| EvLog (level : string) (msg : string).

Record Orchestrator := mkOrchestrator {
  agents : list (string * Agent);        (* dict, in insertion order *)
  running : bool;
  tasks : list (task_id * task_state);
  shared_memory : gmap string pyval;
  trace : list event
}.

Definition set_agents (ags : list (string * Agent)) (o : Orchestrator) :=
  mkOrchestrator ags (running o) (tasks o) (shared_memory o) (trace o).

Definition set_running (b : bool) (o : Orchestrator) :=
  mkOrchestrator (agents o) b (tasks o) (shared_memory o) (trace o).

Definition set_tasks (ts : list (task_id * task_state)) (o : Orchestrator) :=
  mkOrchestrator (agents o) (running o) ts (shared_memory o) (trace o).

Definition set_shared_memory (sm : gmap string pyval) (o : Orchestrator) :=
  mkOrchestrator (agents o) (running o) (tasks o) sm (trace o).

Definition emit (evs : list event) (o : Orchestrator) :=
  mkOrchestrator (agents o) (running o) (tasks o) (shared_memory o)
    (trace o ++ evs).

(** [self.shared_memory[key] = v], done by task [w]. *)
Definition write (w : task_id) (key : string) (v : pyval) (o : Orchestrator) :=
  emit [EvWrite w key v] (set_shared_memory (<[key := v]> (shared_memory o)) o).

(** [{agent.name: agent for agent in agents}] *)
Definition __init__ (ags : list Agent) : Orchestrator :=
  mkOrchestrator (foldl (λ d a, dict_set d (name a) a) [] ags) false [] ∅ [].

(** [for agent in self.agents.values(): await method(agent)], the agents
    being updated in place; the first exception ends the loop. *)
Fixpoint for_each_agent (method : Agent → outcome unit * Agent)
    (ev : string → event) (ags : list (string * Agent))
  : outcome unit * list (string * Agent) * list event :=
  match ags with
  | [] => (Returned (), [], [])
  | (k, a) :: rest =>
      match method a with
      | (Returned _, a') =>
          let '(r, rest', evs) := for_each_agent method ev rest in
          (r, (k, a') :: rest', ev (name a) :: evs)
      | (Raised e, a') => (Raised e, (k, a') :: rest, [ev (name a)])
      end
  end.

Definition spawn (ts : list task_id) (o : Orchestrator) : Orchestrator :=
  emit (EvSpawn <$> ts) (set_tasks (tasks o ++ ((λ t, (t, Scheduled)) <$> ts)) o).

Definition start (o : Orchestrator) : outcome unit * Orchestrator :=
  let o := set_running true o in
  let '(r, ags, evs) := for_each_agent initialize EvInitialize (agents o) in
  let o := emit evs (set_agents ags o) in
  match r with
  | Raised e => (Raised e, o)
  | Returned _ =>
      let o := spawn ((λ a, RunAgent (name a)) <$> dict_values (agents o)) o in
      let o := spawn [Coordinate] o in
      (Returned (), emit [EvLog "INFO" "All agents started successfully"] o)
  end.

(** [task.cancel()]: a task that is still scheduled ends at the point where
    it is suspended, [CancelledError] not being an [Exception]; a task that
    is done stays as it is. *)
Definition cancel (t : task_id * task_state) : task_id * task_state :=
  match t.2 with
  | Scheduled => (t.1, Cancelled)
  | _ => t
  end.

Definition stop (o : Orchestrator) : outcome unit * Orchestrator :=
  let o := set_running false o in
  let o := emit (EvCancel <$> (tasks o).*1) (set_tasks (cancel <$> tasks o) o) in
  let '(r, ags, evs) := for_each_agent shutdown EvShutdown (agents o) in
  let o := emit evs (set_agents ags o) in
  match r with
  | Raised e => (Raised e, o)
  | Returned _ => (Returned (), emit [EvLog "INFO" "All agents stopped"] o)
  end.

Definition is_running (o : Orchestrator) : bool := running o.

Definition envelope (now : timestamp) (result : pyval) : pyval :=
  VDict [("last_update", VStr now); ("data", result)].

(** The coroutine of task [t] returns: its first scheduled instance is done. *)
Fixpoint finish (t : task_id) (ts : list (task_id * task_state))
  : list (task_id * task_state) :=
  match ts with
  | [] => []
  | (t', s) :: ts' =>
      match s with
      | Scheduled =>
          if bool_decide (t' = t) then (t', Finished) :: ts'
          else (t', s) :: finish t ts'
      | _ => (t', s) :: finish t ts'
      end
  end.

Definition exit_task (t : task_id) (o : Orchestrator) : Orchestrator :=
  emit [EvExit t] (set_tasks (finish t (tasks o)) o).

(** *** The cycle loop of one agent *)

(** One pass of [while self.running:] in [_run_agent], for the task of the
    agent registered as [n], from the test of the flag to the sleep.  The
    task holds the agent object; [self.agents] never changes after
    [__init__], so the object is the entry [n] of the dictionary. *)
Definition _run_agent_iteration (n : string) (now : timestamp)
    (o : Orchestrator) : Orchestrator :=
  if running o then
    match dict_get (agents o) n with
    | None => o
    | Some agent =>
        let '(r, agent) :=
          call (execute_cycle (agent_class agent)) (shared_memory o) agent in
        let o :=
          emit [EvExecuteCycle n r] (set_agents (dict_set (agents o) n agent) o) in
        match r with
        | Returned result =>
            let o :=
              if truthy result
              then write (RunAgent n) (name agent) (envelope now result) o
              else o in
            emit [EvSleep (RunAgent n) (cycle_interval (data agent))] o
        | Raised e =>
            emit [EvLog "ERROR"
                    ("Error in agent " +:+ name agent +:+ ": " +:+ exn_msg e);
                  EvSleep (RunAgent n) 5] o
        end
    end
  else exit_task (RunAgent n) o.

(** *** Methods that run inside a [try] or whose exception goes to the caller *)

Definition M (A : Type) : Type := Orchestrator → outcome A * Orchestrator.

Definition ret {A} (x : A) : M A := λ o, (Returned x, o).

Definition bind {A B} (m : M A) (k : A → M B) : M B :=
  λ o, match m o with
       | (Returned x, o') => k x o'
       | (Raised e, o') => (Raised e, o')
       end.

Definition lift {A} (r : outcome A) : M A := λ o, (r, o).

Definition gets {A} (f : Orchestrator → A) : M A := λ o, (Returned (f o), o).

Definition modify (f : Orchestrator → Orchestrator) : M unit :=
  λ o, (Returned (), f o).

Notation "'let*' x := m 'in' k" := (bind m (λ x, k))
  (at level 10, x name, m at level 100, k at level 200).
Notation "m ;;; k" := (bind m (λ _, k))
  (at level 100, k at level 200, right associativity).

Definition KeyError (k : string) : exn := Exception "KeyError" ("'" +:+ k +:+ "'").

(** [await self.agents[n].method(arg)] for one of the extension points;
    [sel] picks the method in the class.  The event records that the method
    was entered. *)
Definition call_extension (n method : string)
    (sel : AgentClass → option (hook pyval pyval)) (arg : pyval) : M pyval :=
  λ o,
    match dict_get (agents o) n with
    | None => (Raised (KeyError n), o)
    | Some agent =>
        match sel (agent_class agent) with
        | None =>
            (Raised (AttributeError (VOpaque (class_name (agent_class agent))) method), o)
        | Some h =>
            let '(r, agent) := call h arg agent in
            (r, set_agents (dict_set (agents o) n agent)
                  (emit [EvExtension n method arg] o))
        end
    end.

(** [name in self.agents] *)
Definition registered (n : string) (o : Orchestrator) : bool :=
  bool_decide (is_Some (dict_get (agents o) n)).

Definition _check_cross_agent_actions : M unit :=
  let* sm := gets shared_memory in
  let* monitoring_data :=
    lift (py_get (default (VDict []) (sm !! "EnvironmentalMonitoringAgent"))
            "data" (VDict [])) in
  let* alert := lift (py_get monitoring_data "pollution_alert" VNone) in
  if truthy alert then
    (let* has_predictive := gets (registered "PredictiveActionAgent") in
     if has_predictive
     then call_extension "PredictiveActionAgent" "handle_pollution_alert"
            handle_pollution_alert monitoring_data ;;; ret ()
     else ret ()) ;;;
    (let* has_community := gets (registered "CommunityCoordinationAgent") in
     if has_community
     then call_extension "CommunityCoordinationAgent"
            "coordinate_pollution_response"
            coordinate_pollution_response monitoring_data ;;; ret ()
     else ret ())
  else ret ().

Definition agents_running (o : Orchestrator) : Z :=
  Z.of_nat (length (filter (λ a, is_active a = true) (dict_values (agents o)))).

Definition total_actions (o : Orchestrator) : Z :=
  foldr Z.add 0%Z ((λ a, action_count (data a)) <$> dict_values (agents o)).

(** The clock is read twice, for ['timestamp'] and for ['uptime']. *)
Definition _update_global_state (now up : timestamp) : M unit :=
  let* running_count := gets agents_running in
  let* actions := gets total_actions in
  modify (write Coordinate "system"
            (VDict [("timestamp", VStr now);
                    ("agents_running", VInt running_count);
                    ("total_actions", VInt actions);
                    ("uptime", VStr up)])).

(** One pass of [while self.running:] in [_coordinate_agents]. *)
Definition _coordinate_agents_iteration (now up : timestamp)
    (o : Orchestrator) : Orchestrator :=
  if running o then
    match (_check_cross_agent_actions ;;; _update_global_state now up) o with
    | (Returned _, o) => emit [EvSleep Coordinate 30] o
    | (Raised e, o) =>
        emit [EvLog "ERROR" ("Error in coordination: " +:+ exn_msg e);
              EvSleep Coordinate 10] o
    end
  else exit_task Coordinate o.

(** *** Message dispatch *)

Definition send_message_to_agent (agent_name : string) (message : pydict)
  : M pyval :=
  λ o,
    match dict_get (agents o) agent_name with
    | Some agent =>
        let '(r, agent) := handle_message message agent in
        (r, set_agents (dict_set (agents o) agent_name agent)
              (emit [EvHandleMessage agent_name message] o))
    | None =>
        (Raised (Exception "ValueError" ("Agent " +:+ agent_name +:+ " not found")), o)
    end.

(** The loop of [broadcast_message] over [self.agents.items()]. *)
Fixpoint broadcast_loop (message : pydict) (ags : list (string * Agent))
    (results : pydict) : list (string * Agent) * pydict * list event :=
  match ags with
  | [] => ([], results, [])
  | (nm, agent) :: rest =>
      let '(r, agent) := handle_message message agent in
      let results :=
        dict_set results nm
          match r with
          | Returned response => response
          | Raised e => VStr ("Error: " +:+ exn_msg e)
          end in
      let '(rest, results, evs) := broadcast_loop message rest results in
      ((nm, agent) :: rest, results, EvHandleMessage nm message :: evs)
  end.

Definition broadcast_message (message : pydict) : M pydict :=
  λ o,
    let '(ags, results, evs) := broadcast_loop message (agents o) [] in
    (Returned results, emit evs (set_agents ags o)).

(** ** Runs of the orchestrator *)

(** The operations of the orchestrator object, and the passes of the tasks
    it has scheduled, in any interleaving.  A pass of a loop needs a
    scheduled task; the caller-facing methods can be called at any time. *)
Inductive op : Type :=
| OpStart
| OpStop
| OpCycle (n : string) (now : timestamp)
| OpTick (now up : timestamp)
| OpSend (agent_name : string) (message : pydict)
| OpBroadcast (message : pydict).

Definition scheduled (t : task_id) (o : Orchestrator) : Prop :=
  (t, Scheduled) ∈ tasks o.

Inductive step : Orchestrator → op → Orchestrator → Prop :=
| step_start o : step o OpStart (start o).2
| step_stop o : step o OpStop (stop o).2
| step_cycle o n now :
    scheduled (RunAgent n) o →
    step o (OpCycle n now) (_run_agent_iteration n now o)
| step_tick o now up :
    scheduled Coordinate o →
    step o (OpTick now up) (_coordinate_agents_iteration now up o)
| step_send o n message :
    step o (OpSend n message) (send_message_to_agent n message o).2
| step_broadcast o message :
    step o (OpBroadcast message) (broadcast_message message o).2.

(** The states an orchestrator built from [ags] can be in. *)
Inductive reachable (ags : list Agent) : Orchestrator → Prop :=
| reachable_init : reachable ags (__init__ ags)
| reachable_step o l o' : reachable ags o → step o l o' → reachable ags o'.

(** ** Message handlers of the concrete agents *)

(** [x == y] on payload values.  Numbers compare by value across [bool],
    [int] and [float]; dictionaries compare as maps.  An opaque object is
    equal to itself only, and the model has no object identity: [False]. *)
Fixpoint py_eq (x y : pyval) {struct x} : bool :=
  match x, y with
  | VNone, VNone => true
  | VStr s, VStr s' => bool_decide (s = s')
  | VList l, VList l' =>
      (fix go (l l' : list pyval) {struct l} : bool :=
         match l, l' with
         | [], [] => true
         | v :: l, v' :: l' => py_eq v v' && go l l'
         | _, _ => false
         end) l l'
  | VDict d, VDict d' =>
      bool_decide (length d = length d') &&
      (fix go (d : pydict) {struct d} : bool :=
         match d with
         | [] => true
         | (k, v) :: d =>
             match dict_get d' k with
             | Some v' => py_eq v v'
             | None => false
             end && go d
         end) d
  | _, _ =>
      match py_num x, py_num y with
      | Some p, Some q => Qeq_bool p q
      | _, _ => false
      end
  end.

Definition TypeError_iter (v : pyval) : exn :=
  Exception "TypeError" ("'" +:+ type_name v +:+ "' object is not iterable").

Definition chars (s : string) : list pyval :=
  (λ c, VStr (String c EmptyString)) <$> String.list_ascii_of_string s.

(** The items a [for] loop takes from [v]. *)
Definition py_iter (v : pyval) : outcome (list pyval) :=
  match v with
  | VList l => Returned l
  | VDict d => Returned (VStr <$> dict_keys d)
  | VStr s => Returned (chars s)
  | _ => Raised (TypeError_iter v)
  end.

(** [x or y] *)
Definition py_or (x y : pyval) : pyval := if truthy x then x else y.

Definition unknown_message_type : pyval :=
  VDict [("status", VStr "unknown_message_type")].

Definition set_attr (k : string) (v : pyval) (d : AgentData) : AgentData :=
  mkAgentData (cycle_interval d) (action_count d) (last_action_time d)
    (memory d) (<[k := v]> (attrs d)).

(** [message.get(k)] and [message.get(k, dflt)] on a message, which the
    callers build as a dictionary. *)
Definition message_get (message : pydict) (k : string) (dflt : pyval) : pyval :=
  default dflt (dict_get message k).

Module EnvironmentalMonitoringAgent.

(** [for data in latest_data: if data.get("location") == location:
    return data], then [return None]. *)
Fixpoint find_location (latest_data : list pyval) (location : pyval)
  : outcome pyval :=
  match latest_data with
  | [] => Returned VNone
  | data :: rest =>
      match py_get data "location" VNone with
      | Raised e => Raised e
      | Returned l =>
          if py_eq l location then Returned data
          else find_location rest location
      end
  end.

(** [self.monitoring_locations.append(new_location)] *)
Definition append_location (new_location : pyval) (self : AgentData)
  : outcome unit * AgentData :=
  match attrs self !! "monitoring_locations" with
  | Some (VList l) =>
      (Returned (), set_attr "monitoring_locations" (VList (l ++ [new_location])) self)
  | Some v => (Raised (AttributeError v "append"), self)
  | None =>
      (Raised (AttributeError (VOpaque "EnvironmentalMonitoringAgent")
                 "monitoring_locations"), self)
  end.

Definition _process_message : hook pydict pyval := λ message self,
  let message_type := message_get message "type" VNone in
  if py_eq_str message_type "get_current_data" then
    (_get_memory "latest_environmental_data" self, self)
  else if py_eq_str message_type "get_location_data" then
    let location := message_get message "location" VNone in
    match _get_memory "latest_environmental_data" self with
    | Raised e => (Raised e, self)
    | Returned stored =>
        match py_iter (py_or stored (VList [])) with
        | Raised e => (Raised e, self)
        | Returned latest_data => (find_location latest_data location, self)
        end
    end
  else if py_eq_str message_type "set_monitoring_location" then
    let new_location := message_get message "location" VNone in
    if truthy new_location then
      match append_location new_location self with
      | (Raised e, self) => (Raised e, self)
      | (Returned _, self) =>
          (Returned (VDict [("status", VStr "success");
                            ("message", VStr "Location added")]), self)
      end
    else (Returned unknown_message_type, self)
  else (Returned unknown_message_type, self).

End EnvironmentalMonitoringAgent.

(** [a > b] where at least one side is a number literal of the program. *)
Definition py_gt (a b : pyval) : outcome bool :=
  match py_num a, py_num b with
  | Some x, Some y => Returned (negb (Qle_bool x y))
  | _, _ =>
      Raised (Exception "TypeError"
                ("'>' not supported between instances of '" +:+ type_name a
                   +:+ "' and '" +:+ type_name b +:+ "'"))
  end.

(** [min(a, b)] on numbers: the first of the smallest. *)
Definition Qmin (a b : Q) : Q := if Qle_bool a b then a else b.

(** [v[k]] for a string [k]. *)
Definition py_getitem (v : pyval) (k : string) : outcome pyval :=
  match v with
  | VDict d =>
      match dict_get d k with
      | Some x => Returned x
      | None => Raised (KeyError k)
      end
  | VList _ =>
      Raised (Exception "TypeError" "list indices must be integers or slices, not str")
  | VStr _ => Raised (Exception "TypeError" "string indices must be integers, not 'str'")
  | _ =>
      Raised (Exception "TypeError" ("'" +:+ type_name v +:+ "' object is not subscriptable"))
  end.

(** [d.update(d')] *)
Definition dict_update (d d' : pydict) : pydict :=
  foldl (λ acc kv, dict_set acc kv.1 kv.2) d d'.

Definition and_then {A B} (r : outcome A) (k : A → outcome B) : outcome B :=
  match r with
  | Returned x => k x
  | Raised e => Raised e
  end.

Notation "'try' x := r 'in' k" := (and_then r (λ x, k))
  (at level 10, x name, r at level 100, k at level 200).

Module PredictiveActionAgent.
Section Methods.

(** The air quality predictor works on [numpy] arrays; it is a parameter. *)
Variable _predict_air_quality : hook pyval pyval.

(** Readings of the clock: [datetime.now()] and four hours later. *)
Variables (now in_four_hours : timestamp).

Definition _get_pollution_prevention_actions (probability : Q) : list pyval :=
  (if negb (Qle_bool probability (5 # 10))
   then [VStr "increase_monitoring_frequency";
         VStr "alert_community_coordinators";
         VStr "prepare_air_filtration_systems"]
   else [])
  ++
  (if negb (Qle_bool probability (7 # 10))
   then [VStr "activate_emergency_protocols";
         VStr "coordinate_traffic_reduction";
         VStr "notify_health_authorities"]
   else []).

(** The body of the [try] in [_predict_pollution_events].  The probability
    is [min(0.95, len(risk_factors) * 0.3)], computed here on rationals. *)
Definition pollution_events_body (monitoring_data : pyval) (self : AgentData)
  : outcome pyval :=
  try analysis := py_get monitoring_data "analysis" (VDict []) in
  try alerts := py_get monitoring_data "alerts" (VList []) in
  try average_aqi := py_get analysis "average_aqi" (VInt 0) in
  try high := py_gt average_aqi (VInt 80) in
  try hotspots := py_get analysis "pollution_hotspots" VNone in
  let risk_factors :=
    (if high then [VStr "high_baseline_pollution"] else [])
    ++ (if truthy hotspots then [VStr "active_hotspots"] else [])
    ++ (if truthy alerts then [VStr "recent_alerts"] else []) in
  match risk_factors with
  | [] => Returned VNone
  | _ :: _ =>
      let probability :=
        Qmin (95 # 100) (inject_Z (Z.of_nat (length risk_factors)) * (3 # 10))%Q in
      try models :=
        match attrs self !! "prediction_models" with
        | Some m => Returned m
        | None => Raised (AttributeError (VOpaque "PredictiveActionAgent")
                            "prediction_models")
        end in
      try model := py_getitem models "pollution_events" in
      try accuracy := py_getitem model "accuracy" in
      Returned
        (VDict [("type", VStr "pollution_event");
                ("probability", VFloat probability);
                ("risk_factors", VList risk_factors);
                ("predicted_severity",
                 VStr (if negb (Qle_bool probability (7 # 10))
                       then "high" else "moderate"));
                ("prediction_time", VStr in_four_hours);
                ("confidence", accuracy);
                ("recommended_actions",
                 VList (_get_pollution_prevention_actions probability))])
  end.

(** [except Exception as e:] logs and returns [None]. *)
Definition _predict_pollution_events : hook pyval pyval := λ monitoring_data self,
  match pollution_events_body monitoring_data self with
  | Returned prediction => (Returned prediction, self)
  | Raised _ => (Returned VNone, self)
  end.

Definition _handle_air_quality_prediction (prediction : pyval) : outcome pydict :=
  try predicted_value := py_get prediction "predicted_value" VNone in
  try risk_level := py_get prediction "risk_level" VNone in
  Returned
    [("action_type", VStr "air_quality_alert");
     ("details",
      VDict [("predicted_aqi", predicted_value);
             ("risk_level", risk_level);
             ("notifications_sent",
              VList [VStr "community_coordinator"; VStr "health_authorities"]);
             ("preventive_measures",
              VList [VStr "increase_monitoring"; VStr "prepare_air_filters"])])].

Definition _handle_pollution_event_prediction (prediction : pyval)
  : outcome pydict :=
  try recommended_actions := py_get prediction "recommended_actions" (VList []) in
  try probability := py_get prediction "probability" VNone in
  try severity := py_get prediction "predicted_severity" VNone in
  Returned
    [("action_type", VStr "pollution_prevention");
     ("details",
      VDict [("probability", probability);
             ("actions_initiated", recommended_actions);
             ("emergency_protocols", VBool (py_eq severity (VStr "high")));
             ("coordination_requests",
              VList [VStr "traffic_management"; VStr "industrial_monitoring"])])].

Definition _handle_weather_prediction (prediction : pyval) : outcome pydict :=
  try conditions := py_get prediction "predicted_conditions" VNone in
  try conditions' := py_get prediction "predicted_conditions" VNone in
  Returned
    [("action_type", VStr "weather_preparation");
     ("details",
      VDict [("predicted_conditions", conditions);
             ("preparation_actions",
              VList [VStr "secure_monitoring_equipment";
                     VStr "adjust_sampling_frequency"]);
             ("alerts_issued", VBool (py_eq conditions' (VStr "storm_approaching")))])].

(** The body of the [try] in [_take_autonomous_action]: what to merge into
    [action]. *)
Definition autonomous_action_body (prediction : pyval) : outcome pydict :=
  try kind := py_getitem prediction "type" in
  if py_eq kind (VStr "air_quality") then
    _handle_air_quality_prediction prediction
  else
    try kind := py_getitem prediction "type" in
    if py_eq kind (VStr "pollution_event") then
      _handle_pollution_event_prediction prediction
    else
      try kind := py_getitem prediction "type" in
      if py_eq kind (VStr "weather_patterns") then
        _handle_weather_prediction prediction
      else Returned [].

Definition _take_autonomous_action (prediction monitoring_data : pyval)
  : outcome pydict :=
  try kind := py_getitem prediction "type" in
  let action :=
    [("timestamp", VStr now);
     ("prediction_type", kind);
     ("action_type", VStr "");
     ("details", VDict []);
     ("success", VBool true)] in
  match autonomous_action_body prediction with
  | Returned changes => Returned (dict_update action changes)
  | Raised e =>
      Returned (dict_set (dict_set action "success" (VBool false))
                  "error" (VStr (exn_msg e)))
  end.

Definition handle_pollution_alert : hook pyval pyval := λ alert_data self,
  match _predict_pollution_events alert_data self with
  | (Raised e, self) => (Raised e, self)
  | (Returned prediction, self) =>
      let no_action := (Returned (VDict [("status", VStr "no_action_needed")]), self) in
      if truthy prediction then
        match and_then (py_get prediction "probability" (VInt 0))
                (λ p, py_gt p (VFloat (5 # 10))) with
        | Raised e => (Raised e, self)
        | Returned false => no_action
        | Returned true =>
            match _take_autonomous_action prediction alert_data with
            | Raised e => (Raised e, self)
            | Returned action =>
                (Returned (VDict [("prediction", prediction);
                                  ("action", VDict action);
                                  ("status", VStr "processed")]),
                 _record_action now self)
            end
        end
      else no_action
  end.

Definition _process_message : hook pydict pyval := λ message self,
  let message_type := message_get message "type" VNone in
  if py_eq_str message_type "get_predictions" then
    (_get_memory "latest_predictions" self, self)
  else if py_eq_str message_type "request_prediction" then
    let prediction_type := message_get message "prediction_type" VNone in
    let data := message_get message "data" (VDict []) in
    if py_eq_str prediction_type "air_quality" then
      _predict_air_quality data self
    else if py_eq_str prediction_type "pollution_event" then
      _predict_pollution_events data self
    else (Returned unknown_message_type, self)
  else if py_eq_str message_type "update_threshold" then
    let new_threshold := message_get message "threshold" VNone in
    (* [0 <= new_threshold <= 1] *)
    match py_le (VInt 0) new_threshold with
    | Raised e => (Raised e, self)
    | Returned false => (Returned unknown_message_type, self)
    | Returned true =>
        match py_le new_threshold (VInt 1) with
        | Raised e => (Raised e, self)
        | Returned false => (Returned unknown_message_type, self)
        | Returned true =>
            (Returned (VDict [("status", VStr "success");
                              ("new_threshold", new_threshold)]),
             set_attr "prediction_threshold" new_threshold self)
        end
    end
  else (Returned unknown_message_type, self).

End Methods.
End PredictiveActionAgent.

(** ** Reading the trace *)




Definition is_write (ev : event) : bool :=
  match ev with EvWrite _ _ _ => true | _ => false end.

Definition is_extension (n method : string) (ev : event) : bool :=
  match ev with
  | EvExtension m meth _ => bool_decide (m = n) && bool_decide (meth = method)
  | _ => false
  end.

Definition is_extension_call (ev : event) : bool :=
  match ev with EvExtension _ _ _ => true | _ => false end.

Definition is_message (ev : event) : bool :=
  match ev with EvHandleMessage _ _ => true | _ => false end.

(** How many events of [tr] satisfy [p]. *)
Definition count (p : event → bool) (tr : list event) : nat :=
  length (filter (λ ev, p ev = true) tr).

(** What a loop over the agents leaves when [method] returned for each. *)
Definition apply_all (method : Agent → outcome unit * Agent)
    (ags : list (string * Agent)) : list (string * Agent) :=
  prod_map id (λ a, (method a).2) <$> ags.

Definition all_return (method : Agent → outcome unit * Agent)
    (ags : list (string * Agent)) : Prop :=
  Forall (λ a, is_returned (method a).1 = true) (dict_values ags).

(** Every key of [self.agents] is the name of its agent. *)
Definition keyed_by_name (ags : list (string * Agent)) : Prop :=
  Forall (λ ka, ka.1 = name ka.2) ags.

(** The tasks [start] creates for the agents, and their state then. *)
Definition scheduled_as (ts : list task_id) : list (task_id * task_state) :=
  (λ t, (t, Scheduled)) <$> ts.

Definition cycle_tasks (ags : list (string * Agent)) : list task_id :=
  RunAgent ∘ name <$> dict_values ags.

(** ** Reading the results of a broadcast and the published alert *)

(** The entry [broadcast_message] stores for an agent. *)
Definition broadcast_entry (message : pydict) (a : Agent) : pyval :=
  match (handle_message message a).1 with
  | Returned response => response
  | Raised e => VStr ("Error: " +:+ exn_msg e)
  end.

(** The data the monitoring agent published last, as
    [_check_cross_agent_actions] reads it. *)
Definition published_data (o : Orchestrator) : outcome pyval :=
  py_get (default (VDict []) (shared_memory o !! "EnvironmentalMonitoringAgent"))
    "data" (VDict []).

(** The published data has a truthy ['pollution_alert']. *)
Definition pollution_alert (o : Orchestrator) : bool :=
  match published_data o with
  | Returned monitoring_data =>
      match py_get monitoring_data "pollution_alert" VNone with
      | Returned alert => truthy alert
      | Raised _ => false
      end
  | Raised _ => false
  end.

(** ** Invariants of a run *)

(** The orchestrator called into agents and nothing else: the dictionary
    has the same agents under the same keys, the flag, the tasks and the
    shared memory are as before, and the new events are no writes. *)
Definition calls_only (o o' : Orchestrator) : Prop :=
  dict_keys (agents o') = dict_keys (agents o) ∧
  (keyed_by_name (agents o) → keyed_by_name (agents o')) ∧
  running o' = running o ∧
  tasks o' = tasks o ∧
  shared_memory o' = shared_memory o ∧
  ∃ evs, trace o' = trace o ++ evs ∧ Forall (λ ev, is_write ev = false) evs.

Definition quiet {A} (m : M A) : Prop := ∀ o, calls_only o (m o).2.

(** The shared memory is as before and no write was recorded. *)
Definition no_writes (o o' : Orchestrator) : Prop :=
  shared_memory o' = shared_memory o ∧
  ∃ evs, trace o' = trace o ++ evs ∧ Forall (λ ev, is_write ev = false) evs.

(** The dictionary of agents is keyed by the agents' names, a cycle task
    runs a registered agent, and tasks are scheduled only while the flag is
    set. *)
Definition consistent (o : Orchestrator) : Prop :=
  keyed_by_name (agents o) ∧
  NoDup (dict_keys (agents o)) ∧
  (∀ n, scheduled (RunAgent n) o → n ∈ dict_keys (agents o)) ∧
  (∀ t, scheduled t o → running o = true).

(** [r] is what [execute_cycle] of the agent registered as [k] returned in
    a pass of that agent's cycle task, in some state of the run. *)
Definition produced_by (ags : list Agent) (k : string) (r : pyval) : Prop :=
  ∃ o agent,
    reachable ags o ∧ scheduled (RunAgent k) o ∧ running o = true ∧
    dict_get (agents o) k = Some agent ∧
    (execute_cycle (agent_class agent) (shared_memory o) (data agent)).1
      = Returned r.

(** Who may write which key. *)
Definition owner (w : task_id) (key : string) : Prop :=
  match w with
  | Coordinate => key = "system"
  | RunAgent n => key = n
  end.

(** What one step does to the shared memory: every write it records is by
    the owner of the key and is in the memory after the step, a write by a
    cycle task stores an envelope around what [execute_cycle] of that agent
    returned in that step, and a key without a write keeps its entry. *)
Definition effect (o o' : Orchestrator) : Prop :=
  consistent o' ∧
  dict_keys (agents o') = dict_keys (agents o) ∧
  ∃ evs,
    trace o' = trace o ++ evs ∧
    (∀ w k v, EvWrite w k v ∈ evs →
       owner w k ∧ shared_memory o' !! k = Some v ∧
       match w with
       | Coordinate => True
       | RunAgent n =>
           ∃ now r agent,
             v = envelope now r ∧
             scheduled (RunAgent n) o ∧ running o = true ∧
             dict_get (agents o) n = Some agent ∧
             (execute_cycle (agent_class agent) (shared_memory o) (data agent)).1
               = Returned r
       end) ∧
    (∀ k, shared_memory o' !! k = shared_memory o !! k ∨
          ∃ w v, EvWrite w k v ∈ evs).

(** ** Agents used as test doubles *)

Module Examples.

Definition returns_unit : hook unit unit := λ _ d, (Returned (), d).

Definition fails {A R} (msg : string) : hook A R :=
  λ _ d, (Raised (Exception "RuntimeError" msg), d).

Definition cycle_returning (result : pyval) : hook (gmap string pyval) pyval :=
  λ _ d, (Returned result, d).

Definition echo : hook pydict pyval := λ message d, (Returned (VDict message), d).

Definition counting : hook pyval pyval :=
  λ _ d, (Returned VNone, _record_action "t" d).

(** An agent whose hooks all return; its cycle publishes [result]. *)
Definition plain (result : pyval) : AgentClass :=
  mkAgentClass "PlainAgent" returns_unit returns_unit
    (cycle_returning result) echo None None.

Definition broken_setup : AgentClass :=
  mkAgentClass "BrokenSetup" (fails "no credentials") returns_unit
    (cycle_returning VNone) echo None None.


Definition faulty_cycle : AgentClass :=
  mkAgentClass "FaultyCycle" returns_unit returns_unit
    (fails "boom") echo None None.

Definition deaf : AgentClass :=
  mkAgentClass "Deaf" returns_unit returns_unit
    (cycle_returning VNone) (fails "cannot parse") None None.

(** An agent with the extension point of the community agent, counting its
    calls. *)
Definition community : AgentClass :=
  mkAgentClass "CommunityCoordinationAgent" returns_unit returns_unit
    (cycle_returning VNone) echo None (Some counting).

(** An agent with the message handler and the alert handler of
    [PredictiveActionAgent]. *)
Definition predictive_messages : AgentClass :=
  mkAgentClass "PredictiveActionAgent" returns_unit returns_unit
    (cycle_returning VNone)
    (PredictiveActionAgent._process_message counting "2024-05-01T14:00:30")
    (Some (PredictiveActionAgent.handle_pollution_alert
             "2024-05-01T10:00:30" "2024-05-01T14:00:30"))
    None.

(** An agent that handles messages as [EnvironmentalMonitoringAgent] does. *)
Definition monitoring_messages : AgentClass :=
  mkAgentClass "EnvironmentalMonitoringAgent" returns_unit returns_unit
    (cycle_returning VNone)
    EnvironmentalMonitoringAgent._process_message
    None None.

Definition ok_result : pyval := VDict [("status", VStr "ok")].
Definition error_payload : pyval := VDict [("error", VStr "sensor offline")].
Definition alert_result : pyval := VDict [("pollution_alert", VBool true)].

Definition sensor : Agent := BaseAgent (plain ok_result) "Sensor" 60.
Definition reporter : Agent := BaseAgent (plain error_payload) "Reporter" 60.
Definition faulty : Agent := BaseAgent faulty_cycle "Faulty" 60.
Definition unready : Agent := BaseAgent broken_setup "Unready" 60.
Definition deaf_agent : Agent := BaseAgent deaf "Deaf" 60.
Definition monitor : Agent :=
  BaseAgent (plain alert_result) "EnvironmentalMonitoringAgent" 300.
Definition coordinator : Agent :=
  BaseAgent community "CommunityCoordinationAgent" 900.

Definition predictive_agent : Agent :=
  BaseAgent predictive_messages "PredictiveActionAgent" 600.
Definition monitoring_agent : Agent :=
  BaseAgent monitoring_messages "EnvironmentalMonitoringAgent" 300.

(** A predictive agent whose alert handler raises, and an agent that takes
    the reserved key as its name. *)
Definition predictive_raising : AgentClass :=
  mkAgentClass "PredictiveActionAgent" returns_unit returns_unit
    (cycle_returning VNone) echo (Some (fails "model not loaded")) None.

Definition raising_predictor : Agent :=
  BaseAgent predictive_raising "PredictiveActionAgent" 600.


(** An orchestrator after a successful [start]. *)
Definition started (ags : list Agent) : Orchestrator := (start (__init__ ags)).2.

End Examples.

(** The data the rule passes on: what the monitoring agent published, when
    it has a truthy ['pollution_alert']. *)
Definition alert_data (o : Orchestrator) : option pyval :=
  match published_data o with
  | Returned monitoring_data =>
      if pollution_alert o then Some monitoring_data else None
  | Raised _ => None
  end.

(** The first of the two calls is out of the way: there is no predictive
    agent, or its [handle_pollution_alert] returned. *)
Definition first_call_returned (monitoring_data : pyval) (o : Orchestrator) : bool :=
  match dict_get (agents o) "PredictiveActionAgent" with
  | None => true
  | Some p =>
      match handle_pollution_alert (agent_class p) with
      | Some h => is_returned (call h monitoring_data p).1
      | None => false
      end
  end.

Definition is_cycle_call (ev : event) : bool :=
  match ev with EvExecuteCycle _ _ => true | _ => false end.

(** An event in which [execute_cycle] or an extension point is called, or a
    key of the shared memory is assigned. *)
Definition publishes (ev : event) : bool :=
  is_write ev || is_cycle_call ev || is_extension_call ev.

(** * More of the orchestrator and of the agents *)

(** ** Runs of several steps *)

Inductive run : Orchestrator → list op → Orchestrator → Prop :=
| run_nil o : run o [] o
| run_cons o l o' ls o'' : step o l o' → run o' ls o'' → run o (l :: ls) o''.

(** No task is scheduled. *)
Definition idle (o : Orchestrator) : Prop := ∀ t, ¬ scheduled t o.

(** The agents of [ags] that are called [n], and the order in which a
    dictionary built from [ags] lists the names: that of first appearance. *)
Definition named (n : string) (ags : list Agent) : list Agent :=
  filter (λ a, name a = n) ags.

Definition first_appearances (names : list string) : list string :=
  reverse (remove_dups (reverse names)).

Definition active_count (ags : list (string * Agent)) : Z :=
  Z.of_nat (length (filter (λ a, is_active a = true) (dict_values ags))).

(** The entry [_update_global_state] writes in a state [o]. *)
Definition system_entry (now up : timestamp) (o : Orchestrator) : pyval :=
  VDict [("timestamp", VStr now);
         ("agents_running", VInt (agents_running o));
         ("total_actions", VInt (total_actions o));
         ("uptime", VStr up)].

(** ** The autonomous cycle of the predictive agent *)

(** [sub in s] for two strings. *)
Fixpoint contains (s sub : string) : bool :=
  String.prefix sub s ||
  match s with
  | EmptyString => false
  | String _ s' => contains s' sub
  end.

(** ["literal" in v]: a substring of a string, an element of a list, a key
    of a dictionary. *)
Definition py_contains_str (v : pyval) (literal : string) : outcome bool :=
  match v with
  | VStr s => Returned (contains s literal)
  | VList l => Returned (existsb (λ x, py_eq_str x literal) l)
  | VDict d => Returned (bool_decide (literal ∈ dict_keys d))
  | _ =>
      Raised (Exception "TypeError"
                ("argument of type '" +:+ type_name v +:+ "' is not iterable"))
  end.

(** [a < b] where at least one side is a number. *)
Definition py_lt (a b : pyval) : outcome bool :=
  match py_num a, py_num b with
  | Some x, Some y => Returned (negb (Qle_bool y x))
  | _, _ =>
      Raised (Exception "TypeError"
                ("'<' not supported between instances of '" +:+ type_name a
                   +:+ "' and '" +:+ type_name b +:+ "'"))
  end.

(** [self.name] for an attribute the constructor of the class sets. *)
Definition attribute (cls attr : string) (self : AgentData) : outcome pyval :=
  match attrs self !! attr with
  | Some v => Returned v
  | None => Raised (AttributeError (VOpaque cls) attr)
  end.

Module PredictiveCycle.

Definition _assess_aqi_risk (aqi : pyval) : outcome string :=
  try le50 := py_le aqi (VInt 50) in
  if le50 then Returned "good" else
  try le100 := py_le aqi (VInt 100) in
  if le100 then Returned "moderate" else
  try le150 := py_le aqi (VInt 150) in
  if le150 then Returned "unhealthy_sensitive" else
  try le200 := py_le aqi (VInt 200) in
  if le200 then Returned "unhealthy" else Returned "hazardous".

Definition _predict_weather_conditions (temp_trend pressure_trend : pyval)
  : outcome string :=
  try falling := py_lt pressure_trend (VFloat (-5 # 10)) in
  if falling then Returned "storm_approaching" else
  try rising := py_gt pressure_trend (VFloat (5 # 10)) in
  if rising then Returned "clearing_weather" else
  try warming := py_gt temp_trend (VInt 2) in
  if warming then Returned "warming_trend" else
  try cooling := py_lt temp_trend (VInt (-2)) in
  if cooling then Returned "cooling_trend" else Returned "stable_conditions".

(** [self.prediction_threshold] is a number: the constructor sets it to a
    float and [update_threshold] stores only what it compared with 0 and 1. *)
Definition _should_take_action (prediction : pyval) (self : AgentData)
  : outcome bool :=
  try confidence := py_get prediction "confidence" (VInt 0) in
  try kind := py_getitem prediction "type" in
  if py_eq kind (VStr "air_quality") then
    try risk_level := py_get prediction "risk_level" (VStr "good") in
    try threshold := attribute "PredictiveActionAgent" "prediction_threshold" self in
    try confident := py_gt confidence threshold in
    if confident
    then Returned (py_eq risk_level (VStr "unhealthy")
                   || py_eq risk_level (VStr "hazardous"))
    else Returned false
  else
    try kind := py_getitem prediction "type" in
    if py_eq kind (VStr "pollution_event") then
      try probability := py_get prediction "probability" (VInt 0) in
      try threshold := attribute "PredictiveActionAgent" "prediction_threshold" self in
      try confident := py_gt confidence threshold in
      if confident then py_gt probability (VFloat (6 # 10)) else Returned false
    else
      try kind := py_getitem prediction "type" in
      if py_eq kind (VStr "weather_patterns") then
        try conditions := py_get prediction "predicted_conditions" (VStr "") in
        try threshold := attribute "PredictiveActionAgent" "prediction_threshold" self in
        try confident := py_gt confidence threshold in
        if confident then py_contains_str conditions "storm" else Returned false
      else Returned false.

(** [self.historical_data.append(x)], then the cut to the last 1000. *)
Definition _update_historical_data (now : timestamp) (monitoring_data : pyval)
    (self : AgentData) : outcome unit * AgentData :=
  match py_contains_str monitoring_data "environmental_data" with
  | Raised e => (Raised e, self)
  | Returned false => (Returned (), self)
  | Returned true =>
      match py_getitem monitoring_data "environmental_data" with
      | Raised e => (Raised e, self)
      | Returned environmental_data =>
          let timestamped_data :=
            VDict [("timestamp", VStr now); ("data", environmental_data)] in
          match attribute "PredictiveActionAgent" "historical_data" self with
          | Returned (VList history) =>
              let history := history ++ [timestamped_data] in
              let history :=
                if 1000 <? length history
                then drop (length history - 1000) history
                else history in
              (Returned (), set_attr "historical_data" (VList history) self)
          | Returned v => (Raised (AttributeError v "append"), self)
          | Raised e => (Raised e, self)
          end
      end
  end.

End PredictiveCycle.

(** ** The models of the predictive agent *)

Definition dquote : string := String (Ascii.ascii_of_nat 34) EmptyString.

(** The [TypeError] of [v + x] where [x] is of type [right] and [v] is not
    a number. *)
Definition TypeError_plus (v : pyval) (right : string) : exn :=
  Exception "TypeError"
    match v with
    | VStr _ | VList _ =>
        "can only concatenate " +:+ type_name v +:+ " (not " +:+ dquote +:+ right
          +:+ dquote +:+ ") to " +:+ type_name v
    | _ =>
        "unsupported operand type(s) for +: '" +:+ type_name v +:+ "' and '"
          +:+ right +:+ "'"
    end.

(** [a + y] for a float [y]. *)
Definition py_add_float (a : pyval) (y : Q) : outcome pyval :=
  match py_num a with
  | Some x => Returned (VFloat (x + y))
  | None => Raised (TypeError_plus a "float")
  end.

Module PredictiveModels.

(** The attributes [PredictiveActionAgent.__init__] adds to those of
    [BaseAgent]; [threshold] is [float(os.getenv("PREDICTION_THRESHOLD", "0.7"))]. *)
Definition __init__ (threshold : Q) : AgentData :=
  mkAgentData 600 0 None ∅
    (<["prediction_models" := VDict []]>
       (<["historical_data" := VList []]>
          (<["prediction_threshold" := VFloat threshold]>
             (<["openai_client" := VNone]> ∅)))).

(** [last_trained] is a [datetime]; it is kept as its reading of the clock,
    and the readings during one call are taken as one. *)
Definition _setup (api_key : option string) (now : timestamp) : hook unit unit :=
  λ _ self,
  let self :=
    match api_key with
    | Some key =>
        if negb (bool_decide (key = "")) && negb (bool_decide (key = "demo_key"))
        then set_attr "openai_client" (VOpaque "AsyncOpenAI") self
        else self
    | None => self
    end in
  let self :=
    set_attr "prediction_models"
      (VDict [("air_quality",
               VDict [("accuracy", VFloat (85 # 100)); ("last_trained", VStr now)]);
              ("weather_patterns",
               VDict [("accuracy", VFloat (78 # 100)); ("last_trained", VStr now)]);
              ("pollution_events",
               VDict [("accuracy", VFloat (82 # 100)); ("last_trained", VStr now)])])
      self in
  (Returned (),
   _store_memory "actions_taken" (VInt 0) now
     (_store_memory "predictions_made" (VInt 0) now self)).

(** One round of the loop of [_update_models], on [self.prediction_models]. *)
Definition update_model (now : timestamp) (model_name : string) (models : pydict)
  : outcome pydict :=
  try model := py_getitem (VDict models) model_name in
  try current_accuracy := py_getitem model "accuracy" in
  try raised := py_add_float current_accuracy (1 # 1000) in
  try worse := py_lt raised (VFloat (95 # 100)) in
  match model with
  | VDict model =>
      let model :=
        dict_set model "accuracy" (if worse then raised else VFloat (95 # 100)) in
      let models := dict_set models model_name (VDict model) in
      try model := py_getitem (VDict models) model_name in
      match model with
      | VDict model =>
          Returned (dict_set models model_name
                      (VDict (dict_set model "last_trained" (VStr now))))
      | _ => Returned models
      end
  | _ => Returned models
  end.

(** The loop stops at the first exception; the models updated before it
    stay updated. *)
Fixpoint update_models_loop (now : timestamp) (names : list string)
    (models : pydict) : outcome unit * pydict :=
  match names with
  | [] => (Returned (), models)
  | model_name :: names =>
      match update_model now model_name models with
      | Returned models => update_models_loop now names models
      | Raised e => (Raised e, models)
      end
  end.

Definition _update_models (now : timestamp) : hook pyval unit :=
  λ monitoring_data self,
  match attribute "PredictiveActionAgent" "prediction_models" self with
  | Returned (VDict models) =>
      let r := update_models_loop now (dict_keys models) models in
      (r.1, set_attr "prediction_models" (VDict r.2) self)
  | Returned v =>
      (Raised (Exception "TypeError"
                 ("'" +:+ type_name v +:+ "' object is not iterable")), self)
  | Raised e => (Raised e, self)
  end.

End PredictiveModels.

(** ** The cycle of the monitoring agent *)

(** Numbers as [sum], [max], [min] and [-] see them: a [bool] counts as an
    [int]. *)
Inductive num : Type :=
| NInt (z : Z)
| NFloat (q : Q).

Definition num_of (v : pyval) : option num :=
  match v with
  | VBool b => Some (NInt (if b then 1 else 0))
  | VInt z => Some (NInt z)
  | VFloat q => Some (NFloat q)
  | _ => None
  end.

Definition num_Q (a : num) : Q :=
  match a with
  | NInt z => inject_Z z
  | NFloat q => q
  end.

Definition num_val (a : num) : pyval :=
  match a with
  | NInt z => VInt z
  | NFloat q => VFloat q
  end.

Definition num_add (a b : num) : num :=
  match a, b with
  | NInt x, NInt y => NInt (x + y)
  | _, _ => NFloat (num_Q a + num_Q b)
  end.

Definition num_sub (a b : num) : num :=
  match a, b with
  | NInt x, NInt y => NInt (x - y)
  | _, _ => NFloat (num_Q a - num_Q b)
  end.

Definition TypeError_add (a : num) (v : pyval) : exn :=
  Exception "TypeError"
    ("unsupported operand type(s) for +: '" +:+ type_name (num_val a)
       +:+ "' and '" +:+ type_name v +:+ "'").

(** [sum(values)], from [acc]. *)
Fixpoint py_sum (acc : num) (values : list pyval) : outcome num :=
  match values with
  | [] => Returned acc
  | v :: values =>
      match num_of v with
      | Some b => py_sum (num_add acc b) values
      | None => Raised (TypeError_add acc v)
      end
  end.

(** [max] and [min] of numbers: the first of the largest, of the smallest. *)
Definition py_max (first : num) (values : list num) : num :=
  foldl (λ m x, if negb (Qle_bool (num_Q x) (num_Q m)) then x else m) first values.

Definition py_min (first : num) (values : list num) : num :=
  foldl (λ m x, if negb (Qle_bool (num_Q m) (num_Q x)) then x else m) first values.

(** [[f(x) for x in l]], to the first exception. *)
Fixpoint comprehension {A B} (f : A → outcome B) (l : list A) : outcome (list B) :=
  match l with
  | [] => Returned []
  | x :: l =>
      try y := f x in
      try ys := comprehension f l in
      Returned (y :: ys)
  end.

Module MonitoringCycle.

(** The attributes [EnvironmentalMonitoringAgent.__init__] adds to those of
    [BaseAgent]; the keys are read from the environment. *)
Definition __init__ (weather_api_key air_quality_api_key : string) : AgentData :=
  mkAgentData 300 0 None ∅
    (<["monitoring_locations" :=
         VList [VDict [("name", VStr "City Center");
                       ("lat", VFloat (407128 # 10000));
                       ("lon", VFloat (-740060 # 10000))];
                VDict [("name", VStr "Industrial Zone");
                       ("lat", VFloat (407589 # 10000));
                       ("lon", VFloat (-739851 # 10000))];
                VDict [("name", VStr "Residential Area");
                       ("lat", VFloat (406892 # 10000));
                       ("lon", VFloat (-740445 # 10000))]]]>
       (<["air_quality_api_key" := VStr air_quality_api_key]>
          (<["weather_api_key" := VStr weather_api_key]> ∅))).

Section Cycle.

(** The simulated sensors draw at random: [readings i] is what
    [_get_weather_data] and [_get_air_quality_data] give for the location
    at position [i] in this cycle.  [now] is the reading of the clock,
    [format_1f] is [format(x, ".1f")] and [str] is [str(v)]. *)
Variable readings : nat → pyval * pyval.
Variable now : timestamp.
Variable format_1f : Q → string.
Variable str : pyval → string.

Definition location_data (location weather_data air_quality_data : pyval)
  : outcome pyval :=
  try name := py_getitem location "name" in
  try lat := py_getitem location "lat" in
  try lon := py_getitem location "lon" in
  Returned (VDict [("location", name);
                   ("coordinates", VDict [("lat", lat); ("lon", lon)]);
                   ("weather", weather_data);
                   ("air_quality", air_quality_data);
                   ("timestamp", VStr now)]).

(** The loop of [_collect_environmental_data] from position [i].  The
    handler of the [try] formats [location['name']] for the log: when that
    raises, the exception leaves the method. *)
Fixpoint collect_loop (i : nat) (locations : list pyval) (data : list pyval)
  : outcome (list pyval) :=
  match locations with
  | [] => Returned data
  | location :: locations =>
      match location_data location (readings i).1 (readings i).2 with
      | Returned d => collect_loop (S i) locations (data ++ [d])
      | Raised e =>
          try name := py_getitem location "name" in
          collect_loop (S i) locations data
      end
  end.

Definition _collect_environmental_data (self : AgentData) : outcome (list pyval) :=
  try locations := attribute "EnvironmentalMonitoringAgent" "monitoring_locations" self in
  try locations := py_iter locations in
  collect_loop 0 locations [].

Definition aqi_of (data : pyval) : outcome pyval :=
  try air_quality := py_getitem data "air_quality" in
  py_getitem air_quality "aqi".

Definition temperature_of (data : pyval) : outcome pyval :=
  try weather := py_getitem data "weather" in
  py_getitem weather "temperature".

(** [sum(data["air_quality"]["aqi"] for data in environmental_data)] *)
Fixpoint sum_aqi (acc : num) (environmental_data : list pyval) : outcome num :=
  match environmental_data with
  | [] => Returned acc
  | data :: environmental_data =>
      try aqi := aqi_of data in
      match num_of aqi with
      | Some b => sum_aqi (num_add acc b) environmental_data
      | None => Raised (TypeError_add acc aqi)
      end
  end.

(** The loop that fills [analysis["pollution_hotspots"]]; the index is read
    three times from the same dictionary. *)
Fixpoint pollution_hotspots (environmental_data : list pyval) (found : list pyval)
  : outcome (list pyval) :=
  match environmental_data with
  | [] => Returned found
  | data :: environmental_data =>
      try aqi := aqi_of data in
      try unhealthy := py_gt aqi (VInt 100) in
      if unhealthy then
        try location := py_getitem data "location" in
        try high := py_gt aqi (VInt 150) in
        pollution_hotspots environmental_data
          (found ++ [VDict [("location", location);
                            ("aqi", aqi);
                            ("severity", VStr (if high then "high" else "moderate"))]])
      else pollution_hotspots environmental_data found
  end.

(** [sum(temps)] has returned when [max] and [min] are called, so [temps]
    holds numbers only. *)
Definition weather_patterns (temps : list pyval) : outcome pyval :=
  try total := py_sum (NInt 0) temps in
  match omap num_of temps with
  | [] => Raised (Exception "ZeroDivisionError" "division by zero")
  | first :: rest =>
      Returned
        (VDict [("avg_temperature",
                 VFloat (num_Q total / inject_Z (Z.of_nat (length temps))));
                ("temperature_range",
                 num_val (num_sub (py_max first rest) (py_min first rest)))])
  end.

Definition _analyze_data (environmental_data : list pyval) : outcome pydict :=
  match environmental_data with
  | [] =>
      Returned [("average_aqi", VInt 0);
                ("pollution_hotspots", VList []);
                ("weather_patterns", VDict []);
                ("trend_analysis", VDict [])]
  | _ :: _ =>
      try total_aqi := sum_aqi (NInt 0) environmental_data in
      let average_aqi :=
        VFloat (num_Q total_aqi / inject_Z (Z.of_nat (length environmental_data))) in
      try hotspots := pollution_hotspots environmental_data [] in
      try temps := comprehension temperature_of environmental_data in
      try patterns := weather_patterns temps in
      Returned [("average_aqi", average_aqi);
                ("pollution_hotspots", VList hotspots);
                ("weather_patterns", patterns);
                ("trend_analysis", VDict [])]
  end.

Definition average_alert (analysis : pyval) : outcome (list pyval) :=
  try average_aqi := py_getitem analysis "average_aqi" in
  try unhealthy := py_gt average_aqi (VInt 100) in
  if unhealthy then
    try average_aqi := py_getitem analysis "average_aqi" in
    try high := py_gt average_aqi (VInt 150) in
    try average_aqi := py_getitem analysis "average_aqi" in
    Returned
      [VDict [("type", VStr "air_quality");
              ("severity", VStr (if high then "high" else "moderate"));
              ("message",
               VStr ("Average AQI is "
                       +:+ format_1f (default 0%Q (py_num average_aqi))
                       +:+ " - Unhealthy air quality detected"));
              ("timestamp", VStr now);
              ("action_required", VBool true)]]
  else Returned [].

Definition hotspot_alert (hotspot : pyval) : outcome pyval :=
  try severity := py_getitem hotspot "severity" in
  try location := py_getitem hotspot "location" in
  try aqi := py_getitem hotspot "aqi" in
  try location' := py_getitem hotspot "location" in
  Returned
    (VDict [("type", VStr "pollution_hotspot");
            ("severity", severity);
            ("message",
             VStr ("Pollution hotspot detected at " +:+ str location
                     +:+ " (AQI: " +:+ str aqi +:+ ")"));
            ("location", location');
            ("timestamp", VStr now);
            ("action_required", VBool true)]).

(** [last_alert_time] is a [datetime]; it is kept as its reading of the
    clock. *)
Definition _check_for_alerts (analysis : pyval) (self : AgentData)
  : outcome (list pyval) * AgentData :=
  match
    (try average := average_alert analysis in
     try hotspots := py_getitem analysis "pollution_hotspots" in
     try hotspots := py_iter hotspots in
     try alerts := comprehension hotspot_alert hotspots in
     Returned (average ++ alerts))
  with
  | Raised e => (Raised e, self)
  | Returned alerts =>
      (Returned alerts,
       match alerts with
       | [] => self
       | _ :: _ =>
           _store_memory "last_alert_time" (VStr now) now
             (_store_memory "recent_alerts" (VList alerts) now self)
       end)
  end.

(** The body of the [try] in [execute_cycle]. *)
Definition cycle_body (self : AgentData) : outcome pydict * AgentData :=
  match _collect_environmental_data self with
  | Raised e => (Raised e, self)
  | Returned environmental_data =>
      match _analyze_data environmental_data with
      | Raised e => (Raised e, self)
      | Returned analysis =>
          match _check_for_alerts (VDict analysis) self with
          | (Raised e, self) => (Raised e, self)
          | (Returned alerts, self) =>
              (Returned [("environmental_data", VList environmental_data);
                         ("analysis", VDict analysis);
                         ("alerts", VList alerts);
                         ("timestamp", VStr now)],
               _record_action now self)
          end
      end
  end.

(** [except Exception as e:] logs and returns [{"error": str(e)}]. *)
Definition execute_cycle : hook (gmap string pyval) pyval := λ shared_memory self,
  match cycle_body self with
  | (Returned result, self) => (Returned (VDict result), self)
  | (Raised e, self) => (Returned (VDict [("error", VStr (exn_msg e))]), self)
  end.

End Cycle.
End MonitoringCycle.

(** [v[k]] returns. *)
Definition has_item (k : string) (v : pyval) : bool := is_returned (py_getitem v k).

(** What the simulated sensors give: an index drawn by
    [random.randint(20, 150)] and a temperature that is a float. *)
Definition simulated (readings : nat → pyval * pyval) : Prop :=
  ∀ i, ∃ weather air_quality aqi t,
    readings i = (VDict weather, VDict air_quality) ∧
    dict_get air_quality "aqi" = Some (VInt aqi) ∧
    (20 ≤ aqi ≤ 150)%Z ∧
    dict_get weather "temperature" = Some (VFloat t).

(** An entry of the collected data with such readings. *)
Definition sample (d : pyval) : Prop :=
  ∃ location aqi t,
    py_getitem d "location" = Returned location ∧
    MonitoringCycle.aqi_of d = Returned (VInt aqi) ∧
    (20 ≤ aqi ≤ 150)%Z ∧
    MonitoringCycle.temperature_of d = Returned (VFloat t).

Definition moderate (v : pyval) : Prop :=
  py_getitem v "severity" = Returned (VStr "moderate").

(** ** The other methods of the monitoring agent *)

Module MonitoringAlerts.

Definition set_cycle_interval (seconds : Z) (d : AgentData) : AgentData :=
  mkAgentData seconds (action_count d) (last_action_time d) (memory d) (attrs d).

(** [last_alert_time] is a [datetime], kept as the clock reading
    [an_hour_ago]. *)
Definition _setup (an_hour_ago now : timestamp) : hook unit unit := λ _ self,
  (Returned (),
   _store_memory "last_alert_time" (VStr an_hour_ago) now
     (set_attr "session" (VOpaque "ClientSession") self)).

(** Closing the session changes nothing that is modelled. *)
Definition _cleanup : hook unit unit := λ _ self, (Returned (), self).

(** The agent together with the [_reset_monitoring_interval] tasks that
    [handle_pollution_alert] has created and that still sleep.  Each holds
    the interval it will restore.  The delay is the same for all, so they
    wake in the order in which they were created. *)
Record Monitor := mkMonitor {
  agent_data : AgentData;
  resets : list Z
}.

Definition handle_pollution_alert (now : timestamp) (alert_data : pyval)
    (m : Monitor) : Monitor :=
  let original_interval := cycle_interval (agent_data m) in
  mkMonitor (_record_action now (set_cycle_interval 60 (agent_data m)))
    (resets m ++ [original_interval]).

(** The oldest sleeping task wakes. *)
Definition _reset_monitoring_interval (m : Monitor) : Monitor :=
  match resets m with
  | [] => m
  | original_interval :: rest =>
      mkMonitor (set_cycle_interval original_interval (agent_data m)) rest
  end.

(** The method as the orchestrator would call it: it returns [None]. *)
Definition alert_hook (now : timestamp) : hook pyval pyval := λ alert_data self,
  (Returned VNone, agent_data (handle_pollution_alert now alert_data (mkMonitor self []))).

Definition class (readings : nat → pyval * pyval) (an_hour_ago now : timestamp)
    (format_1f : Q → string) (str : pyval → string) : AgentClass :=
  mkAgentClass "EnvironmentalMonitoringAgent"
    (_setup an_hour_ago now) _cleanup
    (MonitoringCycle.execute_cycle readings now format_1f str)
    EnvironmentalMonitoringAgent._process_message
    (Some (alert_hook now)) None.

End MonitoringAlerts.

(** Alerts handled one after the other, each at its time, and then as many
    sleeping tasks waking. *)
Definition handle_alerts (alerts : list (timestamp * pyval))
    (m : MonitoringAlerts.Monitor) : MonitoringAlerts.Monitor :=
  foldl (λ m a, MonitoringAlerts.handle_pollution_alert a.1 a.2 m) m alerts.

Definition wake (n : nat) (m : MonitoringAlerts.Monitor) : MonitoringAlerts.Monitor :=
  Nat.iter n MonitoringAlerts._reset_monitoring_interval m.

Definition interval (m : MonitoringAlerts.Monitor) : Z :=
  cycle_interval (MonitoringAlerts.agent_data m).

(** ** The community agent *)

(** [len(v)] *)
Definition py_len (v : pyval) : outcome nat :=
  match v with
  | VList l => Returned (length l)
  | VDict d => Returned (length d)
  | VStr s => Returned (String.length s)
  | _ =>
      Raised (Exception "TypeError"
                ("object of type '" +:+ type_name v +:+ "' has no len()"))
  end.

(** [v + n] for an integer [n]. *)
Definition py_add_int (v : pyval) (n : Z) : outcome pyval :=
  match num_of v with
  | Some a => Returned (num_val (num_add a (NInt n)))
  | None => Raised (TypeError_plus v "int")
  end.

(** [next((x for x in l if test(x)), None)] with the position of what was
    found. *)
Fixpoint find_first (test : pyval → outcome bool) (i : nat) (l : list pyval)
  : outcome (option (nat * pyval)) :=
  match l with
  | [] => Returned None
  | x :: l =>
      try found := test x in
      if found then Returned (Some (i, x)) else find_first test (S i) l
  end.

(** [any(test(x) for x in l)] *)
Fixpoint py_any (test : pyval → outcome bool) (l : list pyval) : outcome bool :=
  match l with
  | [] => Returned false
  | x :: l =>
      try found := test x in
      if found then Returned true else py_any test l
  end.

(** [[x for x in l if keep(x)]], to the first exception. *)
Fixpoint filter_comprehension (keep : pyval → outcome bool) (l : list pyval)
  : outcome (list pyval) :=
  match l with
  | [] => Returned []
  | x :: l =>
      try k := keep x in
      try rest := filter_comprehension keep l in
      Returned (if k then x :: rest else rest)
  end.

Module CommunityAgent.

(** The attributes [CommunityCoordinationAgent.__init__] adds to those of
    [BaseAgent]; [action_radius] is read from the environment. *)
Definition __init__ (action_radius : Q) : AgentData :=
  mkAgentData 900 0 None ∅
    (<["coordination_history" := VList []]>
       (<["community_members" := VList []]>
          (<["active_campaigns" := VList []]>
             (<["action_radius" := VFloat action_radius]>
                (<["openai_client" := VNone]> ∅))))).

Definition mock_members : list pyval :=
  [VDict [("id", VStr "user_001"); ("name", VStr "Alice Johnson");
          ("location", VStr "City Center"); ("engagement_score", VInt 85)];
   VDict [("id", VStr "user_002"); ("name", VStr "Bob Smith");
          ("location", VStr "Industrial Zone"); ("engagement_score", VInt 72)];
   VDict [("id", VStr "user_003"); ("name", VStr "Carol Davis");
          ("location", VStr "Residential Area"); ("engagement_score", VInt 91)];
   VDict [("id", VStr "org_001"); ("name", VStr "Green City Initiative");
          ("type", VStr "organization"); ("reach", VInt 500)];
   VDict [("id", VStr "org_002"); ("name", VStr "Local Environmental Group");
          ("type", VStr "organization"); ("reach", VInt 200)]].

(** The readings of the clock during one call are taken as one. *)
Definition _setup (api_key : option string) (now : timestamp) : hook unit unit :=
  λ _ self,
  let self :=
    match api_key with
    | Some key =>
        if negb (bool_decide (key = "")) && negb (bool_decide (key = "demo_key"))
        then set_attr "openai_client" (VOpaque "AsyncOpenAI") self
        else self
    | None => self
    end in
  let self := set_attr "community_members" (VList mock_members) self in
  (Returned (),
   _store_memory "participants_coordinated" (VInt 0) now
     (_store_memory "campaigns_created" (VInt 0) now self)).

Definition active_campaigns (self : AgentData) : outcome pyval :=
  attribute "CommunityCoordinationAgent" "active_campaigns" self.

Definition community_members (self : AgentData) : outcome pyval :=
  attribute "CommunityCoordinationAgent" "community_members" self.

Section Campaigns.

(** [now] is [datetime.now().isoformat()] and [deadline] the same a week
    later; [campaign_stamp] is [strftime('%Y%m%d_%H%M%S')] of the clock when
    the campaign gets its id, and [action_stamp i] is [strftime('%H%M%S')]
    when the action at position [i] gets its id.  [str] is [str(v)]. *)
Variables (now deadline : timestamp).
Variable campaign_stamp : string.
Variable action_stamp : nat → string.
Variable str : pyval → string.

Definition unhashable (v : pyval) : exn :=
  Exception "TypeError" ("unhashable type: '" +:+ type_name v +:+ "'").

(** [titles.get(need_type, titles["default"])] on the dictionary of the
    five titles. *)
Definition _generate_campaign_title (need : pydict) : outcome pyval :=
  let need_type := message_get need "type" (VStr "environmental_action") in
  let location := str (message_get need "location" (VStr "community")) in
  let titles :=
    [("alert_response",
      VStr ("Emergency Response: " +:+ location +:+ " Environmental Alert"));
     ("preventive_action",
      VStr ("Prevent Environmental Issues in " +:+ location));
     ("air_quality_improvement",
      VStr ("Clear Air Initiative for " +:+ location));
     ("pollution_reduction",
      VStr ("Pollution Prevention Campaign - " +:+ location));
     ("default",
      VStr ("Environmental Action Needed in " +:+ location))] in
  let default_title := VStr ("Environmental Action Needed in " +:+ location) in
  match need_type with
  | VStr k => Returned (default default_title (dict_get titles k))
  | VList _ | VDict _ => Raised (unhashable need_type)
  | _ => Returned default_title
  end.

(** A base action after [action.update({...})]: [n] is
    [len(base_actions)] and [i] the position of the action. *)
Definition action_entry (n : nat) (i : nat) (base : string * Z * string) : pyval :=
  let '(action, points, difficulty) := base in
  VDict [("action", VStr action);
         ("points", VInt points);
         ("difficulty", VStr difficulty);
         ("id", VStr ("action_" +:+ pretty n +:+ "_" +:+ action_stamp i));
         ("participants", VList []);
         ("completed_count", VInt 0);
         ("impact_estimate", VInt (points * 2))].

Definition _generate_campaign_actions (need : pydict) : list pyval :=
  let need_type := message_get need "type" VNone in
  let base_actions :=
    if py_eq need_type (VStr "alert_response") then
      [("report_environmental_conditions", 10%Z, "easy");
       ("share_safety_information", 15%Z, "easy");
       ("organize_local_cleanup", 50%Z, "hard");
       ("contact_local_authorities", 25%Z, "medium")]
    else if py_eq need_type (VStr "air_quality_improvement") then
      [("use_public_transportation", 20%Z, "easy");
       ("plant_air_purifying_plants", 30%Z, "medium");
       ("organize_car_free_day", 100%Z, "hard");
       ("install_air_quality_monitor", 40%Z, "medium")]
    else
      [("environmental_monitoring", 15%Z, "easy");
       ("community_education", 25%Z, "medium");
       ("organize_group_action", 75%Z, "hard")] in
  imap (action_entry (length base_actions)) base_actions.

Definition _calculate_target_participants (need : pydict) (self : AgentData)
  : outcome Z :=
  let priority := message_get need "priority" (VStr "medium") in
  let location := message_get need "location" (VStr "general") in
  let base_target := 10%Z in
  let base_target :=
    if py_eq priority (VStr "high") then (base_target * 3)%Z
    else if py_eq priority (VStr "medium") then (base_target * 2)%Z
    else base_target in
  let base_target :=
    if negb (py_eq location (VStr "general"))
    then Z.max 5 (base_target / 2)
    else base_target in
  try members := community_members self in
  try n := py_len members in
  Returned (Z.min base_target (Z.of_nat n)).

(** The memory is written last: when [_create_campaign] raises, the agent
    is as it was. *)
Definition _create_campaign (need : pydict) (self : AgentData)
  : outcome pydict * AgentData :=
  match
    (try campaigns := active_campaigns self in
     try n := py_len campaigns in
     let campaign_id :=
       "campaign_" +:+ pretty (n + 1) +:+ "_" +:+ campaign_stamp in
     try title := _generate_campaign_title need in
     let actions := _generate_campaign_actions need in
     try target := _calculate_target_participants need self in
     try current_count := _get_memory "campaigns_created" self in
     try count := py_add_int (py_or current_count (VInt 0)) 1 in
     Returned
       ([("id", VStr campaign_id);
         ("type", message_get need "type" VNone);
         ("priority", message_get need "priority" VNone);
         ("location", message_get need "location" VNone);
         ("title", title);
         ("description", message_get need "description" VNone);
         ("actions", VList actions);
         ("target_participants", VInt target);
         ("current_participants", VList []);
         ("status", VStr "active");
         ("created_at", VStr now);
         ("deadline", VStr deadline);
         ("metrics",
          VDict [("participants_joined", VInt 0);
                 ("actions_completed", VInt 0);
                 ("impact_score", VInt 0)])],
        count))
  with
  | Returned (campaign, count) =>
      (Returned campaign, _store_memory "campaigns_created" count now self)
  | Raised e => (Raised e, self)
  end.

(** [member.get("engagement_score", 0) > 70] *)
Definition high_engagement (member : pyval) : outcome bool :=
  try score := py_get member "engagement_score" (VInt 0) in
  py_gt score (VInt 70).

Definition emergency_participant (member : pyval) : outcome pyval :=
  try user_id := py_getitem member "id" in
  try name := py_getitem member "name" in
  Returned (VDict [("user_id", user_id);
                   ("name", name);
                   ("joined_at", VStr now);
                   ("assigned_actions", VList []);
                   ("completed_actions", VList []);
                   ("emergency_participant", VBool true)]).

(** [campaign["current_participants"].append(participant)] *)
Definition add_participant (participant : pyval) (campaign : pydict)
  : outcome pydict :=
  try current := py_getitem (VDict campaign) "current_participants" in
  match current with
  | VList current =>
      Returned (dict_set campaign "current_participants"
                  (VList (current ++ [participant])))
  | _ => Raised (AttributeError current "append")
  end.

(** The loop of [_recruit_emergency_participants]; when it raises, the
    campaign keeps the participants appended so far. *)
Fixpoint recruit_loop (members : list pyval) (campaign : pydict)
    (participants : list pyval) : outcome (list pyval) * pydict :=
  match members with
  | [] => (Returned participants, campaign)
  | member :: members =>
      match
        (try participant := emergency_participant member in
         try campaign := add_participant participant campaign in
         Returned (participant, campaign))
      with
      | Returned (participant, campaign) =>
          recruit_loop members campaign (participants ++ [participant])
      | Raised e => (Raised e, campaign)
      end
  end.

Definition _recruit_emergency_participants (campaign : pydict) (self : AgentData)
  : outcome (list pyval) * pydict :=
  match
    (try members := community_members self in
     try members := py_iter members in
     filter_comprehension high_engagement members)
  with
  | Raised e => (Raised e, campaign)
  | Returned high_engagement_members =>
      recruit_loop (take 10 high_engagement_members) campaign []
  end.

(** The campaign that [self.active_campaigns] holds is the object that is
    recruited for and returned: the last entry of the list is kept equal to
    it. *)
Definition coordinate_pollution_response : hook pyval pyval := λ pollution_data self,
  match py_get pollution_data "location" (VStr "general") with
  | Raised e => (Raised e, self)
  | Returned location =>
      let emergency_need :=
        [("type", VStr "pollution_emergency");
         ("priority", VStr "high");
         ("location", location);
         ("description", VStr "Emergency community response to pollution event");
         ("source", VStr "pollution_alert");
         ("data", pollution_data)] in
      match _create_campaign emergency_need self with
      | (Raised e, self) => (Raised e, self)
      | (Returned campaign, self) =>
          if truthy (VDict campaign) then
            match active_campaigns self with
            | Returned (VList campaigns) =>
                let '(r, campaign) := _recruit_emergency_participants campaign self in
                let self :=
                  set_attr "active_campaigns"
                    (VList (campaigns ++ [VDict campaign])) self in
                match r with
                | Raised e => (Raised e, self)
                | Returned emergency_participants =>
                    (Returned (VDict [("campaign", VDict campaign);
                                      ("participants", VList emergency_participants);
                                      ("status", VStr "coordinated")]),
                     _record_action now self)
                end
            | Returned v => (Raised (AttributeError v "append"), self)
            | Raised e => (Raised e, self)
            end
          else (Returned (VDict [("status", VStr "failed_to_coordinate")]), self)
      end
  end.

(** [c["id"] == campaign_id] *)
Definition has_id (campaign_id : pyval) (c : pyval) : outcome bool :=
  try id := py_getitem c "id" in
  Returned (py_eq id campaign_id).

(** [p.get("user_id") == user_id] *)
Definition is_user (user_id : outcome pyval) (p : pyval) : outcome bool :=
  try pid := py_get p "user_id" VNone in
  try uid := user_id in
  Returned (py_eq pid uid).

Definition not_found (what : string) : pyval :=
  VDict [("status", VStr "error"); ("message", VStr (what +:+ " not found"))].

(** [self.active_campaigns[i]] is the campaign that was changed in place. *)
Definition put_campaign (i : nat) (campaign : pydict) (campaigns : list pyval)
    (self : AgentData) : AgentData :=
  set_attr "active_campaigns" (VList (<[i := VDict campaign]> campaigns)) self.

Definition _handle_campaign_join (campaign_id user_info : pyval)
  : AgentData → outcome pyval * AgentData := λ self,
  match
    (try campaigns := active_campaigns self in
     try campaigns := py_iter campaigns in
     try found := find_first (has_id campaign_id) 0 campaigns in
     Returned (campaigns, found))
  with
  | Raised e => (Raised e, self)
  | Returned (campaigns, None) => (Returned (not_found "Campaign"), self)
  | Returned (campaigns, Some (i, campaign)) =>
      if truthy campaign then
        match
          (try current_participants :=
             py_get campaign "current_participants" (VList []) in
           try current_participants := py_iter current_participants in
           try joined :=
             py_any (is_user (py_get user_info "id" VNone)) current_participants in
           if joined then Returned None
           else
             try user_id := py_getitem user_info "id" in
             try name := py_get user_info "name" (VStr "Anonymous") in
             let participant :=
               VDict [("user_id", user_id);
                      ("name", name);
                      ("joined_at", VStr now);
                      ("assigned_actions", VList []);
                      ("completed_actions", VList [])] in
             match campaign with
             | VDict campaign =>
                 try campaign := add_participant participant campaign in
                 Returned (Some campaign)
             | _ => Raised (AttributeError campaign "get")
             end)
        with
        | Raised e => (Raised e, self)
        | Returned None =>
            (Returned (VDict [("status", VStr "error");
                              ("message", VStr "User already participating")]),
             self)
        | Returned (Some campaign) =>
            (Returned (VDict [("status", VStr "success");
                              ("message", VStr "Successfully joined campaign")]),
             put_campaign i campaign campaigns self)
        end
      else (Returned (not_found "Campaign"), self)
  end.

(** [participant["completed_actions"].append(completion)] *)
Definition add_completion (completion participant : pyval) : outcome pyval :=
  try completed := py_getitem participant "completed_actions" in
  match completed, participant with
  | VList completed, VDict participant =>
      Returned (VDict (dict_set participant "completed_actions"
                         (VList (completed ++ [completion]))))
  | _, _ => Raised (AttributeError completed "append")
  end.

(** [action["completed_count"] = action.get("completed_count", 0) + 1] *)
Definition count_completion (action : pyval) : outcome pyval :=
  try count := py_get action "completed_count" (VInt 0) in
  try count := py_add_int count 1 in
  match action with
  | VDict action => Returned (VDict (dict_set action "completed_count" count))
  | _ => Raised (AttributeError action "get")
  end.

(** The participant at position [j] and the action at position [k] of the
    campaign were changed in place. *)
Definition put_participant (j : nat) (participant : pyval) (campaign : pydict)
  : pydict :=
  match dict_get campaign "current_participants" with
  | Some (VList l) =>
      dict_set campaign "current_participants" (VList (<[j := participant]> l))
  | _ => campaign
  end.

Definition put_action (k : nat) (action : pyval) (campaign : pydict) : pydict :=
  match dict_get campaign "actions" with
  | Some (VList l) => dict_set campaign "actions" (VList (<[k := action]> l))
  | _ => campaign
  end.

(** A participant or an action is found in a list only: iterating over
    anything else gives no object with a [get] or an ["id"].  When the count
    cannot be raised, the completion stays appended. *)
Definition _handle_action_completion (campaign_id action_id user_id : pyval)
  : AgentData → outcome pyval * AgentData := λ self,
  match
    (try campaigns := active_campaigns self in
     try campaigns := py_iter campaigns in
     try found := find_first (has_id campaign_id) 0 campaigns in
     Returned (campaigns, found))
  with
  | Raised e => (Raised e, self)
  | Returned (campaigns, None) => (Returned (not_found "Campaign"), self)
  | Returned (campaigns, Some (i, VDict campaign)) =>
      match
        (try participants :=
           py_get (VDict campaign) "current_participants" (VList []) in
         try participants := py_iter participants in
         try participant := find_first (is_user (Returned user_id)) 0 participants in
         match participant with
         | None => Returned (inl (not_found "Participant"))
         | Some (j, participant) =>
             if truthy participant then
               try actions := py_get (VDict campaign) "actions" (VList []) in
               try actions := py_iter actions in
               try action := find_first (has_id action_id) 0 actions in
               match action with
               | None => Returned (inl (not_found "Action"))
               | Some (k, action) =>
                   if truthy action then
                     try points := py_get action "points" (VInt 0) in
                     let completion :=
                       VDict [("action_id", action_id);
                              ("completed_at", VStr now);
                              ("points_earned", points)] in
                     try participant := add_completion completion participant in
                     Returned (inr (j, participant, k, action))
                   else Returned (inl (not_found "Action"))
               end
             else Returned (inl (not_found "Participant"))
         end)
      with
      | Raised e => (Raised e, self)
      | Returned (inl answer) => (Returned answer, self)
      | Returned (inr (j, participant, k, action)) =>
          let campaign := put_participant j participant campaign in
          match
            (try action := count_completion action in
             try points := py_get action "points" (VInt 0) in
             Returned (action, points))
          with
          | Raised e => (Raised e, put_campaign i campaign campaigns self)
          | Returned (action, points) =>
              (Returned (VDict [("status", VStr "success");
                                ("points_earned", points)]),
               put_campaign i (put_action k action campaign) campaigns self)
          end
      end
  | Returned (campaigns, Some (i, _)) => (Returned (not_found "Campaign"), self)
  end.

(** [s.add(x)] on a set kept as the list of its elements. *)
Definition set_add (x : pyval) (s : list pyval) : outcome (list pyval) :=
  match x with
  | VList _ | VDict _ => Raised (unhashable x)
  | _ => Returned (if existsb (py_eq x) s then s else s ++ [x])
  end.

(** The two loops of [_update_engagement_metrics]. *)
Fixpoint add_participants (participants : list pyval) (s : list pyval)
  : outcome (list pyval) :=
  match participants with
  | [] => Returned s
  | participant :: participants =>
      try user_id := py_getitem participant "user_id" in
      try s := set_add user_id s in
      add_participants participants s
  end.

Fixpoint active_participants (campaigns : list pyval) (s : list pyval)
  : outcome (list pyval) :=
  match campaigns with
  | [] => Returned s
  | campaign :: campaigns =>
      try participants := py_get campaign "current_participants" (VList []) in
      try participants := py_iter participants in
      try s := add_participants participants s in
      active_participants campaigns s
  end.

Definition _update_engagement_metrics (self : AgentData) : outcome pyval :=
  try members := community_members self in
  try total_members := py_len members in
  try campaigns := active_campaigns self in
  try campaigns' := py_iter campaigns in
  try active := active_participants campaigns' [] in
  let engagement_rate :=
    if (0 <? total_members)%nat
    then VFloat (inject_Z (Z.of_nat (length active))
                 / inject_Z (Z.of_nat total_members) * inject_Z 100)
    else VInt 0 in
  try active_count := py_len campaigns in
  try created := _get_memory "campaigns_created" self in
  try coordinated := _get_memory "participants_coordinated" self in
  Returned
    (VDict [("total_community_members", VInt (Z.of_nat total_members));
            ("active_participants", VInt (Z.of_nat (length active)));
            ("engagement_rate", engagement_rate);
            ("active_campaigns", VInt (Z.of_nat active_count));
            ("total_campaigns_created", py_or created (VInt 0));
            ("total_participants_coordinated", py_or coordinated (VInt 0))]).

Definition _process_message : hook pydict pyval := λ message self,
  let message_type := message_get message "type" VNone in
  if py_eq_str message_type "get_active_campaigns" then
    (active_campaigns self, self)
  else if py_eq_str message_type "join_campaign" then
    let campaign_id := message_get message "campaign_id" VNone in
    let user_info := message_get message "user_info" VNone in
    _handle_campaign_join campaign_id user_info self
  else if py_eq_str message_type "complete_action" then
    let campaign_id := message_get message "campaign_id" VNone in
    let action_id := message_get message "action_id" VNone in
    let user_id := message_get message "user_id" VNone in
    _handle_action_completion campaign_id action_id user_id self
  else if py_eq_str message_type "get_community_stats" then
    (_update_engagement_metrics self, self)
  else (Returned unknown_message_type, self).

End Campaigns.
End CommunityAgent.

(** A member the emergency recruitment can handle: the engagement score is
    a number or absent, and there are an id and a name. *)
Definition engaged (member : pyval) : bool :=
  match CommunityAgent.high_engagement member with
  | Returned b => b
  | Raised _ => false
  end.

Definition member_ok (member : pyval) : Prop :=
  is_returned (CommunityAgent.high_engagement member) = true ∧
  is_returned (py_getitem member "id") = true ∧
  is_returned (py_getitem member "name") = true.

(** ** What the coordination rule needs *)



(** Every model has an accuracy, a float of at most 0.95. *)
Definition accuracies_capped (models : pydict) : Prop :=
  ∀ model_name model,
    dict_get models model_name = Some model →
    ∃ q, py_getitem model "accuracy" = Returned (VFloat q) ∧ (q <= 95 # 100)%Q.

(** ** Further examples *)

Module Samples.

(** The predictive agent after [__init__] and [_setup], and monitoring data
    with a high average, a hotspot and an alert. *)
Definition trained_predictor : AgentData :=
  (PredictiveModels._setup None "2024-01-01T00:00:00" ()
     (PredictiveModels.__init__ (7 # 10))).2.

Definition polluted_data : pyval :=
  VDict [("environmental_data", VList []);
         ("analysis",
          VDict [("average_aqi", VInt 120);
                 ("pollution_hotspots", VList [VStr "Delhi"])]);
         ("alerts", VList [VDict [("type", VStr "high_pollution")]])].

(** The monitoring agent after [__init__], and sensors that give the same
    readings for every location. *)
Definition monitor_data : AgentData := MonitoringCycle.__init__ "demo_key" "demo_key".

Definition steady_readings : nat → pyval * pyval := λ _,
  (VDict [("temperature", VFloat (215 # 10)); ("humidity", VFloat (55 # 1));
          ("wind_speed", VFloat (3 # 1)); ("pressure", VFloat (1012 # 1));
          ("visibility", VFloat (10 # 1))],
   VDict [("aqi", VInt 120); ("pm25", VFloat (30 # 1)); ("pm10", VFloat (45 # 1));
          ("co", VFloat (1 # 1)); ("no2", VFloat (40 # 1)); ("o3", VFloat (60 # 1))]).

Definition plain_format : Q → string := λ _, "120.0".
Definition plain_str : pyval → string := λ _, "120".

Definition monitor : Agent :=
  set_data monitor_data
    (BaseAgent
       (MonitoringAlerts.class steady_readings "2023-12-31T23:00:00"
          "2024-01-01T00:00:00" plain_format plain_str)
       "EnvironmentalMonitoringAgent" 300).

(** The community agent after [__init__] and [_setup], a clock that stays
    within one second, and an agent with one small campaign. *)
Definition community_data : AgentData :=
  (CommunityAgent._setup None "2024-01-01T00:00:00" ()
     (CommunityAgent.__init__ (10 # 1))).2.

Definition one_second : nat → string := λ _, "000500".

Definition show : pyval → string := λ v,
  match v with
  | VStr s => s
  | _ => "?"
  end.

Definition small_campaign : pydict :=
  [("id", VStr "campaign_1_20240101_000500");
   ("actions",
    VList (CommunityAgent._generate_campaign_actions one_second
             [("type", VStr "pollution_emergency")]));
   ("current_participants",
    VList [VDict [("user_id", VStr "user_001"); ("completed_actions", VList [])]])].

Definition community_with_campaign : AgentData :=
  set_attr "active_campaigns" (VList [VDict small_campaign]) community_data.

End Samples.

(** * Properties *)

(** ** Dictionaries *)

Section dict.
Context {A : Type}.
Implicit Types (d : list (string * A)) (k : string) (v : A).

Lemma dict_get_set_eq d k v : dict_get (dict_set d k v) k = Some v.
Proof.
  induction d as [|[k' v'] d IH]; simpl.
  - by rewrite decide_True.
  - destruct (decide (k' = k)) as [->|Hne]; simpl.
    + by rewrite decide_True.
    + by rewrite decide_False.
Qed.

Lemma dict_get_set_ne d k k' v :
  k ≠ k' → dict_get (dict_set d k v) k' = dict_get d k'.
Proof.
  intros Hne. induction d as [|[k0 v0] d IH]; simpl.
  - by rewrite decide_False.
  - destruct (decide (k0 = k)) as [->|Hk]; simpl.
    + by rewrite !decide_False.
    + by rewrite IH.
Qed.

Lemma dict_get_Some_elem d k v : dict_get d k = Some v → (k, v) ∈ d.
Proof.
  induction d as [|[k0 v0] d IH]; simpl; [done|].
  destruct (decide (k0 = k)) as [->|Hk].
  - intros [= ->]. left.
  - intros H. right. auto.
Qed.

Lemma dict_get_None d k : dict_get d k = None ↔ k ∉ dict_keys d.
Proof.
  unfold dict_keys. induction d as [|[k0 v0] d IH]; simpl.
  - split; [intros _; apply not_elem_of_nil | done].
  - rewrite not_elem_of_cons. destruct (decide (k0 = k)) as [->|Hk].
    + split; [done | intros [? _]; done].
    + rewrite IH. split; [by intros ?; split | by intros [_ ?]].
Qed.

Lemma dict_get_is_Some d k : is_Some (dict_get d k) ↔ k ∈ dict_keys d.
Proof.
  rewrite <- not_eq_None_Some, dict_get_None.
  split; [apply dec_stable | auto].
Qed.

Lemma dict_keys_set_fresh d k v :
  k ∉ dict_keys d → dict_set d k v = d ++ [(k, v)].
Proof.
  unfold dict_keys. induction d as [|[k0 v0] d IH]; simpl; [done|].
  rewrite not_elem_of_cons. intros [Hne Hd].
  rewrite decide_False by done. by rewrite IH.
Qed.

Lemma dict_keys_set_present d k v :
  k ∈ dict_keys d → dict_keys (dict_set d k v) = dict_keys d.
Proof.
  unfold dict_keys. induction d as [|[k0 v0] d IH]; simpl.
  - by intros ?%elem_of_nil.
  - destruct (decide (k0 = k)) as [->|Hk]; [done|].
    rewrite elem_of_cons. intros [?|Hin]; [congruence|].
    rewrite fmap_cons. by rewrite IH.
Qed.

Lemma dict_keys_set_NoDup d k v :
  NoDup (dict_keys d) → NoDup (dict_keys (dict_set d k v)).
Proof.
  intros Hnd. destruct (decide (k ∈ dict_keys d)) as [Hin|Hnin].
  - by rewrite dict_keys_set_present.
  - rewrite dict_keys_set_fresh by done. unfold dict_keys in *.
    rewrite fmap_app. simpl. apply NoDup_app. split_and!; [done| |apply NoDup_singleton].
    intros x Hx ->%list_elem_of_singleton. done.
Qed.

End dict.

(** ** Loops over the agents *)

Lemma for_each_agent_spec method ev ags :
  match for_each_agent method ev ags with
  | (Returned _, ags', evs) =>
      all_return method ags ∧
      ags' = apply_all method ags ∧
      evs = ev ∘ name <$> dict_values ags
  | (Raised e, ags', evs) =>
      ∃ pre k a post,
        ags = pre ++ (k, a) :: post ∧
        all_return method pre ∧
        (method a).1 = Raised e ∧
        ags' = apply_all method pre ++ (k, (method a).2) :: post ∧
        evs = ev ∘ name <$> dict_values (pre ++ [(k, a)])
  end.
Proof.
  unfold all_return, apply_all, dict_values.
  induction ags as [|[k a] rest IH]; simpl.
  - split_and!; [constructor | done | done].
  - destruct (method a) as [[[]|e] a'] eqn:Hm.
    + destruct (for_each_agent method ev rest) as [[[[]|e] rest'] evs].
      * destruct IH as (Hall & -> & ->). split_and!; [|done..].
        constructor; [by rewrite Hm | done].
      * destruct IH as (pre & k' & b & post & -> & Hall & Hb & -> & ->).
        exists ((k, a) :: pre), k', b, post. simpl. rewrite Hm. simpl.
        split_and!; [done| |done..]. constructor; [by rewrite Hm | done].
    + exists [], k, a, rest. simpl. rewrite Hm. simpl.
      split_and!; [done | constructor | done..].
Qed.

Lemma apply_all_keys method ags : dict_keys (apply_all method ags) = dict_keys ags.
Proof.
  unfold apply_all, dict_keys. rewrite <- list_fmap_compose.
  apply list_fmap_ext. by intros i [k a].
Qed.

Lemma initialize_name a : name (initialize a).2 = name a.
Proof. unfold initialize, call. simpl. by destruct (_setup _ _ _). Qed.

Lemma shutdown_name a : name (shutdown a).2 = name a.
Proof. unfold shutdown, call. simpl. by destruct (_cleanup _ _ _). Qed.

Lemma initialize_active a : is_active (initialize a).2 = true.
Proof. unfold initialize, call. simpl. by destruct (_setup _ _ _). Qed.

Lemma shutdown_inactive a : is_active (shutdown a).2 = false.
Proof. unfold shutdown, call. simpl. by destruct (_cleanup _ _ _). Qed.

(** ** The dictionary of agents *)

Lemma keyed_by_name_values ags :
  keyed_by_name ags → name <$> dict_values ags = dict_keys ags.
Proof.
  unfold keyed_by_name, dict_values, dict_keys.
  induction 1 as [|[k a] ags Hk _ IH]; [done|].
  rewrite !fmap_cons, IH. simpl in *. by rewrite Hk.
Qed.

Lemma keyed_by_name_set ags k a :
  keyed_by_name ags → k = name a → keyed_by_name (dict_set ags k a).
Proof.
  unfold keyed_by_name. intros Hags ->.
  induction Hags as [|[k' a'] ags Hk Hags IH]; simpl.
  - by repeat constructor.
  - destruct (decide (k' = name a)); by constructor.
Qed.

Lemma init_agents_spec (ags : list Agent) (d : list (string * Agent)) :
  keyed_by_name d → NoDup (dict_keys d) →
  let d' := foldl (λ d a, dict_set d (name a) a) d ags in
  keyed_by_name d' ∧ NoDup (dict_keys d') ∧
  (∀ k, k ∈ dict_keys d' → k ∈ dict_keys d ∨ k ∈ name <$> ags).
Proof.
  revert d. induction ags as [|a ags IH]; intros d Hk Hnd; simpl.
  - split_and!; auto.
  - destruct (IH (dict_set d (name a) a)) as (Hk' & Hnd' & Hin).
    { by apply keyed_by_name_set. }
    { by apply dict_keys_set_NoDup. }
    split_and!; [done..|]. intros k Hkin.
    destruct (Hin k Hkin) as [Hd|Hd]; [|right; by constructor].
    destruct (decide (name a ∈ dict_keys d)) as [Hold|Hnew].
    + rewrite dict_keys_set_present in Hd by done. by left.
    + rewrite dict_keys_set_fresh in Hd by done. unfold dict_keys in Hd.
      rewrite fmap_app in Hd. apply elem_of_app in Hd as [Hd|Hd]; [by left|].
      right. apply list_elem_of_singleton in Hd as ->. by left.
Qed.

Lemma init_keyed_by_name ags : keyed_by_name (agents (__init__ ags)).
Proof. apply (init_agents_spec ags []); constructor. Qed.

Lemma init_NoDup ags : NoDup (dict_keys (agents (__init__ ags))).
Proof. apply (init_agents_spec ags []); constructor. Qed.

Lemma init_keys_names ags k :
  k ∈ dict_keys (agents (__init__ ags)) → k ∈ name <$> ags.
Proof.
  intros Hk. destruct (init_agents_spec ags []) as (_ & _ & H); [constructor..|].
  destruct (H k Hk) as [[]%elem_of_nil|]; done.
Qed.

Lemma apply_all_names method ags :
  (∀ a, name (method a).2 = name a) →
  name <$> dict_values (apply_all method ags) = name <$> dict_values ags.
Proof.
  intros Hname. unfold apply_all, dict_values.
  rewrite <- !list_fmap_compose. apply list_fmap_ext. intros i [k a] _. simpl. auto.
Qed.

Lemma apply_all_keyed method ags :
  (∀ a, name (method a).2 = name a) →
  keyed_by_name ags → keyed_by_name (apply_all method ags).
Proof.
  intros Hname Hk. unfold keyed_by_name, apply_all. rewrite Forall_fmap.
  eapply Forall_impl; [exact Hk|]. intros [k a]. simpl. intros ->. by rewrite Hname.
Qed.

(** ** [start] and [stop], case by case *)

Lemma start_cases o :
  match start o with
  | (Returned _, o') =>
      all_return initialize (agents o) ∧
      agents o' = apply_all initialize (agents o) ∧
      running o' = true ∧
      shared_memory o' = shared_memory o ∧
      tasks o' = tasks o ++ scheduled_as (cycle_tasks (agents o) ++ [Coordinate]) ∧
      trace o' = trace o
        ++ (EvInitialize ∘ name <$> dict_values (agents o))
        ++ (EvSpawn <$> cycle_tasks (agents o) ++ [Coordinate])
        ++ [EvLog "INFO" "All agents started successfully"]
  | (Raised e, o') =>
      ∃ pre k a post,
        agents o = pre ++ (k, a) :: post ∧
        all_return initialize pre ∧
        (initialize a).1 = Raised e ∧
        agents o' = apply_all initialize pre ++ (k, (initialize a).2) :: post ∧
        running o' = true ∧
        shared_memory o' = shared_memory o ∧
        tasks o' = tasks o ∧
        trace o' = trace o ++ (EvInitialize ∘ name <$> dict_values (pre ++ [(k, a)]))
  end.
Proof.
  unfold start. simpl.
  pose proof (for_each_agent_spec initialize EvInitialize (agents o)) as H.
  destruct (for_each_agent initialize EvInitialize (agents o)) as [[[[]|e] ags'] evs].
  - destruct H as (Hall & -> & ->). simpl.
    unfold cycle_tasks, scheduled_as.
    rewrite (list_fmap_compose name RunAgent).
    rewrite (apply_all_names initialize) by apply initialize_name.
    rewrite <- !(list_fmap_compose name RunAgent).
    rewrite !fmap_app, <- !app_assoc. done.
  - destruct H as (pre & k & a & post & Hags & Hall & Ha & -> & ->). simpl.
    exists pre, k, a, post. done.
Qed.

Lemma stop_cases o :
  let cancels := EvCancel <$> (tasks o).*1 in
  match stop o with
  | (Returned _, o') =>
      all_return shutdown (agents o) ∧
      agents o' = apply_all shutdown (agents o) ∧
      running o' = false ∧
      shared_memory o' = shared_memory o ∧
      tasks o' = cancel <$> tasks o ∧
      trace o' = trace o ++ cancels
        ++ (EvShutdown ∘ name <$> dict_values (agents o))
        ++ [EvLog "INFO" "All agents stopped"]
  | (Raised e, o') =>
      ∃ pre k a post,
        agents o = pre ++ (k, a) :: post ∧
        all_return shutdown pre ∧
        (shutdown a).1 = Raised e ∧
        agents o' = apply_all shutdown pre ++ (k, (shutdown a).2) :: post ∧
        running o' = false ∧
        shared_memory o' = shared_memory o ∧
        tasks o' = cancel <$> tasks o ∧
        trace o' = trace o ++ cancels
          ++ (EvShutdown ∘ name <$> dict_values (pre ++ [(k, a)]))
  end.
Proof.
  unfold stop. simpl.
  pose proof (for_each_agent_spec shutdown EvShutdown (agents o)) as H.
  destruct (for_each_agent shutdown EvShutdown (agents o)) as [[[[]|e] ags'] evs].
  - destruct H as (Hall & -> & ->). simpl.
    split_and!; try done. by rewrite <- !app_assoc.
  - destruct H as (pre & k & a & post & Hags & Hall & Ha & -> & ->). simpl.
    exists pre, k, a, post. split_and!; try done. by rewrite <- !app_assoc.
Qed.

(** ** Counting events *)






Lemma filter_all {A} (P : A → Prop) `{!∀ x, Decision (P x)} (l : list A) :
  Forall P l → filter P l = l.
Proof.
  induction 1 as [|x l Hx _ IH]; [done|]. by rewrite filter_cons_True, IH.
Qed.

(** ** Start-up *)


(** C5, as the code has it.  [start()] sets the running flag before it
    initializes the agents and never resets it: [is_running()] is true after
    [start()], whether [start()] returned or an [initialize] made it fail. *)
Theorem start_sets_running_in_every_case (o : Orchestrator) :
  is_running (start o).2 = true.
Proof.
  pose proof (start_cases o) as H. unfold is_running.
  destruct (start o) as [[[]|e] o']; simpl.
  - by destruct H as (_ & _ & ? & _).
  - by destruct H as (pre & k & a & post & _ & _ & _ & _ & ? & _).
Qed.

(** C5 as stated fails: one agent whose [_setup] raises makes [start()]
    fail, and [is_running()] is true afterwards. *)
Lemma running_after_failed_start :
  let r := start (__init__ [Examples.unready]) in
  r.1 = Raised (Exception "RuntimeError" "no credentials") ∧
  is_running r.2 = true.
Proof. by vm_compute. Qed.

(** C10. [initialize] sets the activity flag before it runs [_setup]: when
    [_setup] raises, [initialize] raises the same exception and the agent
    stays active.  After a [start()] that failed, the agent whose
    [initialize] failed and every agent before it are active, and
    [_update_global_state] counts them in ['agents_running']. *)
Theorem failed_start_leaves_agents_active (ags : list Agent) (e : exn) :
  (start (__init__ ags)).1 = Raised e →
  let o := __init__ ags in
  let o' := (start o).2 in
  ∃ pre k a post,
    agents o = pre ++ (k, a) :: post ∧
    (_setup (agent_class a) () (data a)).1 = Raised e ∧
    initialize a = (Raised e, (initialize a).2) ∧
    is_active (initialize a).2 = true ∧
    agents o' = apply_all initialize pre ++ (k, (initialize a).2) :: post ∧
    Forall (λ a', is_active a' = true)
      (dict_values (apply_all initialize pre ++ [(k, (initialize a).2)])) ∧
    (Z.of_nat (length pre) + 1 ≤ agents_running o')%Z ∧
    ∀ now up,
      shared_memory (_update_global_state now up o').2 !! "system" =
        Some (VDict [("timestamp", VStr now);
                     ("agents_running", VInt (agents_running o'));
                     ("total_actions", VInt (total_actions o'));
                     ("uptime", VStr up)]).
Proof.
  intros Hfail. cbv zeta. pose proof (start_cases (__init__ ags)) as H.
  destruct (start (__init__ ags)) as [[[]|e'] o'] eqn:Hstart; [done|].
  simpl in Hfail. injection Hfail as ->.
  destruct H as (pre & k & a & post & Hags & _ & Ha & Hags' & _).
  exists pre, k, a, post. simpl.
  assert (Forall (λ a', is_active a' = true)
            (dict_values (apply_all initialize pre ++ [(k, (initialize a).2)]))) as Hact.
  { unfold dict_values, apply_all. rewrite fmap_app, <- list_fmap_compose.
    apply Forall_app. split.
    - rewrite Forall_fmap. apply Forall_forall. intros [k' a'] _. simpl.
      apply initialize_active.
    - repeat constructor. apply initialize_active. }
  split_and!; try done.
  - revert Ha. unfold initialize, call. simpl. by destruct (_setup _ _ _).
  - by destruct (initialize a) as [r a'], Ha.
  - apply initialize_active.
  - unfold agents_running. rewrite Hags'.
    replace (apply_all initialize pre ++ (k, (initialize a).2) :: post)
      with ((apply_all initialize pre ++ [(k, (initialize a).2)]) ++ post)
      by (by rewrite <- app_assoc).
    unfold dict_values in *. rewrite fmap_app, filter_app, length_app.
    rewrite filter_all by done.
    rewrite length_fmap, length_app. unfold apply_all. rewrite length_fmap. simpl. lia.
  - intros now up. unfold _update_global_state, bind, gets, modify, write. simpl.
    by rewrite lookup_insert_eq.
Qed.

Lemma failed_start_leaves_agents_active_witness :
  let ags := [Examples.sensor; Examples.unready; Examples.reporter] in
  (start (__init__ ags)).1 = Raised (Exception "RuntimeError" "no credentials") ∧
  ∃ pre k a post,
    agents (__init__ ags) = pre ++ (k, a) :: post ∧
    is_active (initialize a).2 = true ∧
    (Z.of_nat (length pre) + 1 ≤ agents_running (start (__init__ ags)).2)%Z.
Proof.
  intros ags. split; [reflexivity|].
  destruct (failed_start_leaves_agents_active ags
              (Exception "RuntimeError" "no credentials") eq_refl)
    as (pre & k & a & post & Hags & _ & _ & Hactive & _ & _ & Hcount & _).
  exists pre, k, a, post. split_and!; assumption.
Defined.

(** ** Shutdown *)



(** ** One pass of an agent's cycle loop *)

Lemma call_name {A R} (h : hook A R) x a : name (call h x a).2 = name a.
Proof. unfold call. by destruct (h x (data a)). Qed.

Lemma run_agent_iteration_cases n now o agent :
  running o = true →
  dict_get (agents o) n = Some agent →
  let r := call (execute_cycle (agent_class agent)) (shared_memory o) agent in
  let o' := _run_agent_iteration n now o in
  agents o' = dict_set (agents o) n r.2 ∧
  running o' = true ∧
  tasks o' = tasks o ∧
  match r.1 with
  | Returned result =>
      shared_memory o' =
        (if truthy result
         then <[name agent := envelope now result]> (shared_memory o)
         else shared_memory o) ∧
      trace o' = trace o ++ [EvExecuteCycle n (Returned result)]
        ++ (if truthy result
            then [EvWrite (RunAgent n) (name agent) (envelope now result)]
            else [])
        ++ [EvSleep (RunAgent n) (cycle_interval (data r.2))]
  | Raised e =>
      shared_memory o' = shared_memory o ∧
      trace o' = trace o ++
        [EvExecuteCycle n (Raised e);
         EvLog "ERROR" ("Error in agent " +:+ name agent +:+ ": " +:+ exn_msg e);
         EvSleep (RunAgent n) 5]
  end.
Proof.
  intros Hrun Hget. cbv zeta. unfold _run_agent_iteration. rewrite Hrun, Hget.
  pose proof (call_name (execute_cycle (agent_class agent)) (shared_memory o) agent) as Hname.
  destruct (call _ _ agent) as [[result|e] agent']; simpl in *; rewrite Hname.
  - destruct (truthy result); simpl; split_and!; try done; by rewrite <- !app_assoc.
  - split_and!; try done. by rewrite <- app_assoc.
Qed.

(** C1, as the code has it.  When [execute_cycle] returns, the pass writes
    the result under the agent's name, in an envelope with the current
    timestamp, exactly when the result is truthy.  An error payload
    [{'error': message}] is a dictionary that is not empty, so it is written
    as any other result is; a falsy result leaves the shared memory as it
    was.  In both cases the pass ends in the sleep of [cycle_interval]
    seconds. *)
Theorem cycle_result_written_when_truthy n now o agent result agent' :
  running o = true →
  dict_get (agents o) n = Some agent →
  call (execute_cycle (agent_class agent)) (shared_memory o) agent
    = (Returned result, agent') →
  let o' := _run_agent_iteration n now o in
  shared_memory o' =
    (if truthy result
     then <[name agent := envelope now result]> (shared_memory o)
     else shared_memory o) ∧
  trace o' = trace o ++ [EvExecuteCycle n (Returned result)]
    ++ (if truthy result
        then [EvWrite (RunAgent n) (name agent) (envelope now result)]
        else [])
    ++ [EvSleep (RunAgent n) (cycle_interval (data agent'))] ∧
  (∀ message, result = VDict [("error", VStr message)] →
     shared_memory o' !! name agent = Some (envelope now result)).
Proof.
  intros Hrun Hget Hcall o'.
  destruct (run_agent_iteration_cases n now o agent Hrun Hget) as (_ & _ & _ & H).
  rewrite Hcall in H. simpl in H. destruct H as [Hsm Htr].
  split_and!; [done..|]. intros message ->. fold o' in Hsm. rewrite Hsm. simpl.
  by rewrite lookup_insert_eq.
Qed.

Lemma cycle_result_written_when_truthy_witness :
  let o := Examples.started [Examples.sensor] in
  shared_memory (_run_agent_iteration "Sensor" "2024-05-01T10:00:00" o) =
    <["Sensor" := envelope "2024-05-01T10:00:00" Examples.ok_result]> ∅.
Proof.
  intros o.
  destruct (cycle_result_written_when_truthy "Sensor" "2024-05-01T10:00:00" o
              (initialize Examples.sensor).2 Examples.ok_result
              (initialize Examples.sensor).2 eq_refl eq_refl eq_refl)
    as (Hsm & _).
  exact Hsm.
Defined.

(** C1 as stated fails: an agent whose cycle returns an error payload has
    that payload written under its key. *)
Lemma error_payload_is_written :
  let o := Examples.started [Examples.reporter] in
  let now := "2024-05-01T10:00:00" in
  (execute_cycle (agent_class Examples.reporter) (shared_memory o)
     (data Examples.reporter)).1 = Returned (VDict [("error", VStr "sensor offline")]) ∧
  shared_memory o !! "Reporter" = None ∧
  shared_memory (_run_agent_iteration "Reporter" now o) !! "Reporter" =
    Some (VDict [("last_update", VStr now);
                 ("data", VDict [("error", VStr "sensor offline")])]).
Proof. by vm_compute. Qed.

(** ** Calls into agents leave the rest of the orchestrator alone *)

Lemma calls_only_refl o : calls_only o o.
Proof.
  unfold calls_only. split_and!; try done.
  exists []. by rewrite app_nil_r.
Qed.

Lemma calls_only_trans o1 o2 o3 :
  calls_only o1 o2 → calls_only o2 o3 → calls_only o1 o3.
Proof.
  intros (Hk1 & Hn1 & Hr1 & Ht1 & Hs1 & evs1 & He1 & Hw1)
         (Hk2 & Hn2 & Hr2 & Ht2 & Hs2 & evs2 & He2 & Hw2).
  unfold calls_only. split_and!; try congruence; [auto|].
  exists (evs1 ++ evs2). split.
  - by rewrite He2, He1, app_assoc.
  - by apply Forall_app.
Qed.

Lemma agents_update_ok (d : list (string * Agent)) n a a' :
  dict_get d n = Some a → name a' = name a →
  dict_keys (dict_set d n a') = dict_keys d ∧
  (keyed_by_name d → keyed_by_name (dict_set d n a')).
Proof.
  intros Hget Hname. split.
  - apply dict_keys_set_present, dict_get_is_Some. by rewrite Hget.
  - intros Hk. apply keyed_by_name_set; [done|].
    apply dict_get_Some_elem in Hget. unfold keyed_by_name in Hk.
    rewrite Forall_forall in Hk. specialize (Hk _ Hget). simpl in Hk. congruence.
Qed.

Lemma call_extension_calls_only n method sel arg o :
  calls_only o (call_extension n method sel arg o).2.
Proof.
  unfold call_extension.
  destruct (dict_get (agents o) n) as [agent|] eqn:Hget; [|apply calls_only_refl].
  destruct (sel (agent_class agent)) as [h|]; [|apply calls_only_refl].
  pose proof (call_name h arg agent) as Hname.
  destruct (call h arg agent) as [r agent']. simpl in *.
  destruct (agents_update_ok _ _ _ _ Hget Hname) as [Hkeys Hkeyed].
  unfold calls_only. simpl. split_and!; try done.
  eexists. split; [done|]. by repeat constructor.
Qed.

Lemma quiet_ret {A} (x : A) : quiet (ret x).
Proof. intros o. apply calls_only_refl. Qed.

Lemma quiet_lift {A} (r : outcome A) : quiet (lift r).
Proof. intros o. apply calls_only_refl. Qed.

Lemma quiet_gets {A} (f : Orchestrator → A) : quiet (gets f).
Proof. intros o. apply calls_only_refl. Qed.

Lemma quiet_bind {A B} (m : M A) (k : A → M B) :
  quiet m → (∀ x, quiet (k x)) → quiet (bind m k).
Proof.
  intros Hm Hk o. unfold bind. specialize (Hm o).
  destruct (m o) as [[x|e] o']; [|done].
  eapply calls_only_trans; [exact Hm | apply Hk].
Qed.

Lemma quiet_call_extension n method sel arg :
  quiet (call_extension n method sel arg).
Proof. intros o. apply call_extension_calls_only. Qed.

Lemma quiet_check_cross_agent_actions : quiet _check_cross_agent_actions.
Proof.
  unfold _check_cross_agent_actions.
  apply quiet_bind; [apply quiet_gets | intros sm].
  apply quiet_bind; [apply quiet_lift | intros monitoring_data].
  apply quiet_bind; [apply quiet_lift | intros alert].
  destruct (truthy alert); [|apply quiet_ret].
  apply quiet_bind; [|intros _].
  - apply quiet_bind; [apply quiet_gets | intros []]; [|apply quiet_ret].
    apply quiet_bind; [apply quiet_call_extension | intros _; apply quiet_ret].
  - apply quiet_bind; [apply quiet_gets | intros []]; [|apply quiet_ret].
    apply quiet_bind; [apply quiet_call_extension | intros _; apply quiet_ret].
Qed.

Lemma send_message_calls_only n message o :
  calls_only o (send_message_to_agent n message o).2.
Proof.
  unfold send_message_to_agent.
  destruct (dict_get (agents o) n) as [agent|] eqn:Hget; [|apply calls_only_refl].
  pose proof (call_name (_process_message (agent_class agent)) message agent) as Hname.
  unfold handle_message. destruct (call _ message agent) as [r agent']. simpl in *.
  destruct (agents_update_ok _ _ _ _ Hget Hname) as [Hkeys Hkeyed].
  unfold calls_only. simpl. split_and!; try done.
  eexists. split; [done|]. by repeat constructor.
Qed.

Lemma broadcast_loop_spec message ags results :
  let '(ags', results', evs) := broadcast_loop message ags results in
  ags' = prod_map id (λ a, (handle_message message a).2) <$> ags ∧
  evs = (λ k, EvHandleMessage k message) <$> dict_keys ags.
Proof.
  revert results. induction ags as [|[k a] ags IH]; intros results; simpl; [done|].
  destruct (handle_message message a) as [r a']. simpl.
  specialize (IH (dict_set results k
                    match r with
                    | Returned response => response
                    | Raised e => VStr ("Error: " +:+ exn_msg e)
                    end)).
  destruct (broadcast_loop message ags _) as [[ags' results'] evs].
  destruct IH as [-> ->]. done.
Qed.

Lemma broadcast_message_calls_only message o :
  calls_only o (broadcast_message message o).2.
Proof.
  unfold broadcast_message.
  pose proof (broadcast_loop_spec message (agents o) []) as H.
  destruct (broadcast_loop message (agents o) []) as [[ags' results] evs].
  destruct H as [-> ->]. unfold calls_only, dict_keys. simpl. split_and!; try done.
  - rewrite <- list_fmap_compose. apply list_fmap_ext. by intros i [k a].
  - unfold keyed_by_name. rewrite Forall_fmap. intros Hk.
    eapply Forall_impl; [exact Hk|]. intros [k a]. simpl. intros ->.
    symmetry. apply call_name.
  - eexists. split; [done|]. rewrite Forall_fmap. by apply Forall_forall.
Qed.

(** ** The invariant [consistent] *)

Lemma calls_only_no_writes o o' : calls_only o o' → no_writes o o'.
Proof. by intros (_ & _ & _ & _ & ? & ?). Qed.

Lemma calls_only_consistent o o' : calls_only o o' → consistent o → consistent o'.
Proof.
  intros (Hkeys & Hkeyed & Hrun & Htasks & _) (Hk & Hnd & Hreg & Hsched).
  unfold consistent, scheduled in *. rewrite Hkeys, Hrun, Htasks. auto.
Qed.

Lemma init_consistent ags : consistent (__init__ ags).
Proof.
  split_and!; [apply init_keyed_by_name | apply init_NoDup | |];
    unfold scheduled; simpl; by intros ? ?%elem_of_nil.
Qed.

Lemma partial_keys method (pre post : list (string * Agent)) k a :
  dict_keys (apply_all method pre ++ (k, (method a).2) :: post)
  = dict_keys (pre ++ (k, a) :: post).
Proof.
  pose proof (apply_all_keys method pre) as H. unfold dict_keys in *.
  by rewrite !fmap_app, !fmap_cons, H.
Qed.

Lemma partial_keyed method (pre post : list (string * Agent)) k a :
  (∀ a, name (method a).2 = name a) →
  keyed_by_name (pre ++ (k, a) :: post) →
  keyed_by_name (apply_all method pre ++ (k, (method a).2) :: post).
Proof.
  intros Hname. unfold keyed_by_name. rewrite !Forall_app, !Forall_cons.
  intros (Hpre & Hka & Hpost). split_and!; [|simpl in *; by rewrite Hname|done].
  by apply apply_all_keyed.
Qed.

Lemma start_effect o :
  consistent o →
  consistent (start o).2 ∧
  dict_keys (agents (start o).2) = dict_keys (agents o) ∧
  no_writes o (start o).2.
Proof.
  intros (Hk & Hnd & Hreg & Hsched). pose proof (start_cases o) as H.
  destruct (start o) as [[[]|e] o']; simpl.
  - destruct H as (_ & Hags & Hrun & Hsm & Htasks & Htrace).
    assert (dict_keys (agents o') = dict_keys (agents o)) as Hkeys
      by (by rewrite Hags, apply_all_keys).
    split_and!; [|done|split; [done|]].
    + unfold consistent. rewrite Hkeys, Hags.
      split_and!; [by apply apply_all_keyed, Hk; apply initialize_name|done| |done].
      intros n. unfold scheduled. rewrite Htasks. intros [Hold|Hnew]%elem_of_app; [auto|].
      unfold scheduled_as, cycle_tasks in Hnew.
      apply list_elem_of_fmap in Hnew as (t & [= <-] & Ht).
      apply elem_of_app in Ht as [Ht|Ht%list_elem_of_singleton]; [|done].
      apply list_elem_of_fmap in Ht as (a & [= ->] & Ha).
      rewrite <- (keyed_by_name_values _ Hk). by apply list_elem_of_fmap_2.
    + eexists. split; [done|]. rewrite !Forall_app, !Forall_fmap.
      split_and!; [by apply Forall_forall..|by repeat constructor].
  - destruct H as (pre & k & a & post & Hags & _ & _ & Hags' & Hrun & Hsm & Htasks & Htrace).
    assert (dict_keys (agents o') = dict_keys (agents o)) as Hkeys
      by (by rewrite Hags', Hags, partial_keys).
    split_and!; [|done|split; [done|]].
    + unfold consistent, scheduled. rewrite Hkeys, Htasks.
      split_and!; [|done|done|done].
      rewrite Hags'. apply partial_keyed; [apply initialize_name|]. by rewrite <- Hags.
    + eexists. split; [done|]. rewrite Forall_fmap. by apply Forall_forall.
Qed.

Lemma cancel_not_scheduled (t : task_id) (ts : list (task_id * task_state)) :
  (t, Scheduled) ∉ cancel <$> ts.
Proof.
  intros ([t' s] & Heq & _)%list_elem_of_fmap. unfold cancel in Heq. simpl in Heq.
  by destruct s.
Qed.

Lemma stop_effect o :
  consistent o →
  consistent (stop o).2 ∧
  dict_keys (agents (stop o).2) = dict_keys (agents o) ∧
  no_writes o (stop o).2.
Proof.
  intros (Hk & Hnd & Hreg & Hsched). pose proof (stop_cases o) as H. cbv zeta in H.
  destruct (stop o) as [[[]|e] o']; simpl.
  - destruct H as (_ & Hags & Hrun & Hsm & Htasks & Htrace).
    assert (dict_keys (agents o') = dict_keys (agents o)) as Hkeys
      by (by rewrite Hags, apply_all_keys).
    split_and!; [|done|split; [done|]].
    + unfold consistent, scheduled. rewrite Hkeys, Hags, Htasks.
      split_and!; [by apply apply_all_keyed, Hk; apply shutdown_name|done|..];
        by intros ? ?%cancel_not_scheduled.
    + eexists. split; [done|]. rewrite !Forall_app, !Forall_fmap.
      split_and!; [by apply Forall_forall..|by repeat constructor].
  - destruct H as (pre & k & a & post & Hags & _ & _ & Hags' & Hrun & Hsm & Htasks & Htrace).
    assert (dict_keys (agents o') = dict_keys (agents o)) as Hkeys
      by (by rewrite Hags', Hags, partial_keys).
    split_and!; [|done|split; [done|]].
    + unfold consistent, scheduled. rewrite Hkeys, Htasks.
      split_and!; [|done|..]; [|by intros ? ?%cancel_not_scheduled..].
      rewrite Hags'. apply partial_keyed; [apply shutdown_name|]. by rewrite <- Hags.
    + eexists. split; [done|]. rewrite !Forall_app, !Forall_fmap.
      split_and!; by apply Forall_forall.
Qed.

Lemma no_write_in evs w k v :
  Forall (λ ev, is_write ev = false) evs → EvWrite w k v ∉ evs.
Proof. rewrite Forall_forall. intros H Hin. by specialize (H _ Hin). Qed.

Lemma scheduled_agent o n :
  consistent o → scheduled (RunAgent n) o →
  running o = true ∧ ∃ agent, dict_get (agents o) n = Some agent ∧ name agent = n.
Proof.
  intros (Hk & _ & Hreg & Hsched) Hn. split; [by eapply Hsched|].
  apply Hreg, dict_get_is_Some in Hn as [agent Hget]. exists agent. split; [done|].
  apply dict_get_Some_elem in Hget. unfold keyed_by_name in Hk.
  rewrite Forall_forall in Hk. by specialize (Hk _ Hget).
Qed.

Lemma run_agent_iteration_consistent o n now :
  consistent o → scheduled (RunAgent n) o →
  consistent (_run_agent_iteration n now o) ∧
  dict_keys (agents (_run_agent_iteration n now o)) = dict_keys (agents o).
Proof.
  intros Hc Hn. destruct (scheduled_agent o n Hc Hn) as (Hrun & agent & Hget & Hname).
  destruct (run_agent_iteration_cases n now o agent Hrun Hget) as (Hags & Hrun' & Htasks & _).
  cbv zeta in *.
  destruct (agents_update_ok (agents o) n agent
              (call (execute_cycle (agent_class agent)) (shared_memory o) agent).2
              Hget (call_name _ _ _)) as [Hkeys Hkeyed].
  destruct Hc as (Hk & Hnd & Hreg & Hsched).
  unfold consistent, scheduled in *. rewrite Hags, Hkeys, Htasks, Hrun'. auto.
Qed.

Lemma check_then_update o now up :
  match (_check_cross_agent_actions ;;; _update_global_state now up) o with
  | (Returned _, o2) =>
      ∃ o1 v, _check_cross_agent_actions o = (Returned (), o1) ∧
              o2 = write Coordinate "system" v o1
  | (Raised e, o2) => _check_cross_agent_actions o = (Raised e, o2)
  end.
Proof.
  unfold bind at 1. destruct (_check_cross_agent_actions o) as [[[]|e] o1]; [|done].
  unfold _update_global_state, bind, gets, modify. simpl. by eexists _, _.
Qed.

Lemma coordinate_iteration_effect o now up :
  running o = true →
  let o' := _coordinate_agents_iteration now up o in
  ∃ o1,
    calls_only o o1 ∧
    agents o' = agents o1 ∧ running o' = running o1 ∧ tasks o' = tasks o1 ∧
    ((shared_memory o' = shared_memory o ∧
      ∃ evs, trace o' = trace o ++ evs ∧ Forall (λ ev, is_write ev = false) evs)
     ∨
     (∃ v, shared_memory o' = <["system" := v]> (shared_memory o) ∧
           ∃ evs, trace o' = trace o ++ evs ++
                    [EvWrite Coordinate "system" v; EvSleep Coordinate 30] ∧
                  Forall (λ ev, is_write ev = false) evs)).
Proof.
  intros Hrun o'. subst o'. unfold _coordinate_agents_iteration. rewrite Hrun.
  pose proof (check_then_update o now up) as H.
  pose proof (quiet_check_cross_agent_actions o) as Hq.
  destruct ((_check_cross_agent_actions ;;; _update_global_state now up) o)
    as [[[]|e] o2].
  - destruct H as (o1 & v & Hcheck & ->). rewrite Hcheck in Hq. simpl in Hq.
    exists o1. do 4 (split; [done|]). right.
    destruct Hq as (_ & _ & _ & _ & Hsm & evs & Htr & Hev).
    exists v. simpl. rewrite Hsm. split; [done|]. exists evs.
    split; [|done]. by rewrite Htr, <- !app_assoc.
  - rewrite H in Hq. simpl in Hq.
    exists o2. do 4 (split; [done|]). left.
    destruct Hq as (_ & _ & _ & _ & Hsm & evs & Htr & Hev).
    split; [done|]. eexists. simpl. rewrite Htr, <- app_assoc. split; [done|].
    apply Forall_app. split; [done|]. by repeat constructor.
Qed.

Lemma no_writes_effect o o' :
  consistent o' → dict_keys (agents o') = dict_keys (agents o) →
  no_writes o o' → effect o o'.
Proof.
  intros Hc Hkeys (Hsm & evs & Htr & Hev). split; [exact Hc|].
  split; [exact Hkeys|]. exists evs. split; [done|]. split.
  - intros w k v Hin. by apply no_write_in in Hin.
  - intros k. left. by rewrite Hsm.
Qed.

Lemma step_effect o l o' : consistent o → step o l o' → effect o o'.
Proof.
  pose proof no_writes_effect as Hquiet.
  intros Hc Hstep. destruct Hstep as [o|o|o n now Hn|o now up Ht|o n message|o message].
  - destruct (start_effect o Hc) as (? & ? & ?). by apply Hquiet.
  - destruct (stop_effect o Hc) as (? & ? & ?). by apply Hquiet.
  - destruct (run_agent_iteration_consistent o n now Hc Hn) as [Hc' Hkeys].
    split; [done|]. split; [done|].
    destruct (scheduled_agent o n Hc Hn) as (Hrun & agent & Hget & Hname).
    destruct (run_agent_iteration_cases n now o agent Hrun Hget) as (_ & _ & _ & H).
    cbv zeta in H. unfold call in H.
    destruct (execute_cycle (agent_class agent) (shared_memory o) (data agent))
      as [[result|e] d] eqn:Hexec; simpl in H; destruct H as [Hsm Htr].
    + eexists. split; [exact Htr|]. rewrite Hsm. destruct (truthy result); simpl; split.
      * intros w k v [[=]|[[= -> -> ->]|[[=]|[]%elem_of_nil]%elem_of_cons]%elem_of_cons]%elem_of_cons.
        rewrite Hname. simpl. split; [done|]. rewrite lookup_insert_eq. split; [done|].
        exists now, result, agent. by rewrite Hexec.
      * intros k. destruct (decide (k = name agent)) as [->|Hne].
        -- right. eexists _, _. right. left.
        -- left. by rewrite lookup_insert_ne.
      * intros w k v [[=]|[[=]|[]%elem_of_nil]%elem_of_cons]%elem_of_cons.
      * by left.
    + eexists. split; [exact Htr|]. rewrite Hsm. split; [|by left].
      intros w k v [[=]|[[=]|[[=]|[]%elem_of_nil]%elem_of_cons]%elem_of_cons]%elem_of_cons.
  - assert (running o = true) as Hrun by (destruct Hc as (_ & _ & _ & Hs); by eapply Hs).
    destruct (coordinate_iteration_effect o now up Hrun)
      as (o1 & Hcalls & Hags & Hrun' & Htasks & Hcase).
    pose proof (calls_only_consistent _ _ Hcalls Hc) as Hc1.
    assert (dict_keys (agents o1) = dict_keys (agents o)) as Hkeys by apply Hcalls.
    split.
    { destruct Hc1 as (? & ? & ? & ?). unfold consistent, scheduled in *.
      rewrite Hags, Hrun', Htasks. auto. }
    split; [by rewrite Hags|].
    destruct Hcase as [(Hsm & evs & Htr & Hev)|(v & Hsm & evs & Htr & Hev)].
    + exists evs. split; [done|]. split.
      * intros w k v' Hin. by apply no_write_in in Hin.
      * intros k. left. by rewrite Hsm.
    + eexists. split; [exact Htr|]. rewrite Hsm. split.
      * intros w k v' [Hin|Hin]%elem_of_app; [by apply no_write_in in Hin|].
        apply elem_of_cons in Hin as [[= -> -> ->]|[[=]|[]%elem_of_nil]%elem_of_cons].
        simpl. by rewrite lookup_insert_eq.
      * intros k. destruct (decide (k = "system")) as [->|Hne].
        -- right. eexists _, _. apply elem_of_app. right. left.
        -- left. by rewrite lookup_insert_ne.
  - pose proof (send_message_calls_only n message o) as Hcalls.
    apply Hquiet; [by eapply calls_only_consistent|apply Hcalls|by apply calls_only_no_writes].
  - pose proof (broadcast_message_calls_only message o) as Hcalls.
    apply Hquiet; [by eapply calls_only_consistent|apply Hcalls|by apply calls_only_no_writes].
Qed.

(** ** Reachable states *)

Lemma reachable_consistent ags o :
  reachable ags o →
  consistent o ∧ dict_keys (agents o) = dict_keys (agents (__init__ ags)).
Proof.
  induction 1 as [|o l o' _ [IHc IHk] Hstep].
  - split; [apply init_consistent | done].
  - destruct (step_effect o l o' IHc Hstep) as (Hc & Hkeys & _).
    split; [done | congruence].
Qed.

Lemma reachable_registered ags o n :
  reachable ags o → n ∈ dict_keys (agents o) → n ∈ name <$> ags.
Proof.
  intros [_ Hkeys]%reachable_consistent. rewrite Hkeys. apply init_keys_names.
Qed.

Lemma reachable_writes ags o :
  reachable ags o →
  (∀ k v, k ≠ "system" → shared_memory o !! k = Some v →
     ∃ now r, v = envelope now r ∧ produced_by ags k r ∧
              EvWrite (RunAgent k) k v ∈ trace o) ∧
  (∀ w k v, EvWrite w k v ∈ trace o →
     owner w k ∧ ∀ n, w = RunAgent n → n ∈ name <$> ags).
Proof.
  induction 1 as [|o l o' Hreach [IHsm IHtr] Hstep].
  - split; [by intros k v _ | by intros w k v ?%elem_of_nil].
  - destruct (reachable_consistent ags o Hreach) as [Hc Hkeys].
    destruct (step_effect o l o' Hc Hstep) as (Hc' & Hkeys' & evs & Htr & Hnew & Hold).
    split.
    + intros k v Hk Hv. destruct (Hold k) as [Heq|(w & v' & Hin)].
      * rewrite Heq in Hv. destruct (IHsm k v Hk Hv) as (now & r & -> & Hprod & Hw).
        exists now, r. split_and!; [done..|]. rewrite Htr. apply elem_of_app. by left.
      * destruct (Hnew w k v' Hin) as (Hown & Hv' & Hw).
        rewrite Hv in Hv'. injection Hv' as <-.
        destruct w as [n|]; simpl in Hown; [subst n|done].
        destruct Hw as (now & r & agent & -> & Hsched & Hrun & Hget & Hexec).
        exists now, r. split_and!; [done| |].
        -- by exists o, agent.
        -- rewrite Htr. apply elem_of_app. by right.
    + intros w k v. rewrite Htr. intros [Hin|Hin]%elem_of_app; [by apply (IHtr w k v)|].
      destruct (Hnew w k v Hin) as (Hown & _ & Hw). split; [done|].
      intros n ->. destruct Hw as (_ & _ & _ & _ & Hsched & _).
      eapply reachable_registered; [exact Hreach|]. by apply Hc.
Qed.


(** ** The shared memory *)




(** ** A failing cycle *)

Lemma step_keeps_tasks o l o' t :
  consistent o → step o l o' → l ≠ OpStop → scheduled t o → scheduled t o'.
Proof.
  intros Hc Hstep Hl Ht.
  destruct Hstep as [o|o|o n now Hn|o now up Hco|o n message|o message].
  - pose proof (start_cases o) as H. unfold scheduled in *.
    destruct (start o) as [[[]|e] o']; simpl.
    + destruct H as (_ & _ & _ & _ & -> & _). apply elem_of_app. by left.
    + destruct H as (pre & k & a & post & _ & _ & _ & _ & _ & _ & -> & _). done.
  - done.
  - destruct (scheduled_agent o n Hc Hn) as (Hrun & agent & Hget & _).
    destruct (run_agent_iteration_cases n now o agent Hrun Hget) as (_ & _ & Htasks & _).
    unfold scheduled. by rewrite Htasks.
  - assert (running o = true) as Hrun by (destruct Hc as (_ & _ & _ & Hs); by eapply Hs).
    destruct (coordinate_iteration_effect o now up Hrun) as (o1 & Hcalls & _ & _ & Htasks & _).
    destruct Hcalls as (_ & _ & _ & Htasks1 & _).
    unfold scheduled. by rewrite Htasks, Htasks1.
  - destruct (send_message_calls_only n message o) as (_ & _ & _ & Htasks & _).
    unfold scheduled. by rewrite Htasks.
  - destruct (broadcast_message_calls_only message o) as (_ & _ & _ & Htasks & _).
    unfold scheduled. by rewrite Htasks.
Qed.

(** C7. While the cycle task of an agent is scheduled, a pass in which
    [execute_cycle] raises logs the error, sleeps 5 seconds, leaves the
    shared memory as it was and leaves the task scheduled with the flag
    set, so that the next pass calls [execute_cycle] again.  No step of a
    run other than [stop()] ends the task. *)
Theorem failing_cycle_keeps_agent_scheduled (ags : list Agent) (o : Orchestrator)
    (n : string) :
  reachable ags o → scheduled (RunAgent n) o →
  (∃ agent,
     dict_get (agents o) n = Some agent ∧ running o = true ∧
     ∀ now e agent',
       call (execute_cycle (agent_class agent)) (shared_memory o) agent
         = (Raised e, agent') →
       let o' := _run_agent_iteration n now o in
       shared_memory o' = shared_memory o ∧
       trace o' = trace o ++
         [EvExecuteCycle n (Raised e);
          EvLog "ERROR" ("Error in agent " +:+ n +:+ ": " +:+ exn_msg e);
          EvSleep (RunAgent n) 5] ∧
       scheduled (RunAgent n) o' ∧ running o' = true ∧
       dict_get (agents o') n = Some agent' ∧
       ∀ now', ∃ r evs,
         trace (_run_agent_iteration n now' o') =
           trace o' ++ EvExecuteCycle n r :: evs) ∧
  (∀ l o', step o l o' → l ≠ OpStop → scheduled (RunAgent n) o').
Proof.
  intros Hreach Hn. destruct (reachable_consistent ags o Hreach) as [Hc _].
  split; [|intros l o' Hstep Hl; by eapply step_keeps_tasks].
  destruct (scheduled_agent o n Hc Hn) as (Hrun & agent & Hget & Hname).
  exists agent. split; [done|]. split; [done|].
  intros now e agent' Hcall o'.
  destruct (run_agent_iteration_cases n now o agent Hrun Hget)
    as (Hags & Hrun' & Htasks & H).
  rewrite Hcall in H, Hags. simpl in H, Hags. destruct H as [Hsm Htr].
  fold o' in Hags, Hrun', Htasks, Hsm, Htr. rewrite Hname in Htr.
  assert (dict_get (agents o') n = Some agent') as Hget'
    by (by rewrite Hags, dict_get_set_eq).
  split_and!; try done.
  - unfold scheduled. by rewrite Htasks.
  - intros now'.
    destruct (run_agent_iteration_cases n now' o' agent' Hrun' Hget') as (_ & _ & _ & H).
    destruct (call _ _ agent').1 as [result|e']; destruct H as [_ ->]; by eexists _, _.
Qed.

Lemma failing_cycle_keeps_agent_scheduled_witness :
  let ags := [Examples.faulty] in
  let o := (start (__init__ ags)).2 in
  let o' := _run_agent_iteration "Faulty" "2024-05-01T10:00:00" o in
  reachable ags o ∧ scheduled (RunAgent "Faulty") o ∧
  shared_memory o' = shared_memory o ∧
  scheduled (RunAgent "Faulty") o' ∧ running o' = true.
Proof.
  intros ags o o'.
  assert (reachable ags o) as Hreach
    by (eapply reachable_step; [apply reachable_init|apply step_start]).
  assert (scheduled (RunAgent "Faulty") o) as Hsched by (unfold scheduled; simpl; left).
  split; [exact Hreach|]. split; [exact Hsched|].
  destruct (failing_cycle_keeps_agent_scheduled ags o "Faulty" Hreach Hsched)
    as [(agent & Hget & _ & H) _].
  injection Hget as <-.
  destruct (H "2024-05-01T10:00:00" (Exception "RuntimeError" "boom")
              (initialize Examples.faulty).2 eq_refl)
    as (Hsm & _ & Hs & Hr & _).
  split_and!; assumption.
Defined.

(** ** Broadcast *)

Lemma broadcast_loop_results message ags results :
  NoDup (dict_keys results ++ dict_keys ags) →
  (broadcast_loop message ags results).1.2 =
    results ++ (prod_map id (broadcast_entry message) <$> ags).
Proof.
  revert results. induction ags as [|[k a] ags IH]; intros results Hnd; simpl.
  - by rewrite app_nil_r.
  - unfold broadcast_entry at 1. destruct (handle_message message a) as [r a']. simpl.
    set (entry := match r with
                  | Returned response => response
                  | Raised e => VStr ("Error: " +:+ exn_msg e)
                  end).
    specialize (IH (dict_set results k entry)).
    destruct (broadcast_loop message ags _) as [[ags' results'] evs]. simpl in *.
    unfold dict_keys in *. simpl in Hnd.
    apply NoDup_app in Hnd as (Hres & Hdisj & Hags).
    apply NoDup_cons in Hags as [Hk Hags].
    assert (k ∉ results.*1) as Hfresh by (intros Hin; apply (Hdisj _ Hin); left).
    rewrite (dict_keys_set_fresh results k entry Hfresh) in IH.
    rewrite IH; [by rewrite <- app_assoc|].
    rewrite fmap_app. simpl. rewrite <- app_assoc. simpl.
    apply NoDup_app. split_and!; [done| |by constructor].
    intros x Hx [->|Hin]%elem_of_cons; [done|]. apply (Hdisj _ Hx). by right.
Qed.

Lemma dict_get_fmap {A B} (f : A → B) (d : list (string * A)) k :
  dict_get (prod_map id f <$> d) k = f <$> dict_get d k.
Proof.
  induction d as [|[k' v] d IH]; simpl; [done|]. by destruct (decide (k' = k)).
Qed.

(** C9. [broadcast_message] returns, with one entry for each registered
    agent, in registration order.  The entry of an agent is the response of
    its [handle_message], or the string ["Error: ..."] when its handler
    raised; [handle_message] is called on every agent whatever the other
    handlers did. *)
Theorem broadcast_one_entry_per_agent (ags : list Agent) (o : Orchestrator)
    (message : pydict) :
  reachable ags o →
  ∃ results,
    (broadcast_message message o).1 = Returned results ∧
    length results = length (agents o) ∧
    dict_keys results = dict_keys (agents o) ∧
    (∀ k a, dict_get (agents o) k = Some a →
       dict_get results k = Some (broadcast_entry message a)) ∧
    trace (broadcast_message message o).2 =
      trace o ++ ((λ k, EvHandleMessage k message) <$> dict_keys (agents o)).
Proof.
  intros Hreach. destruct (reachable_consistent ags o Hreach) as [(_ & Hnd & _) _].
  unfold broadcast_message.
  pose proof (broadcast_loop_results message (agents o) [] Hnd) as Hres.
  pose proof (broadcast_loop_spec message (agents o) []) as Hspec.
  destruct (broadcast_loop message (agents o) []) as [[ags' results] evs].
  simpl in *. destruct Hspec as [-> ->]. subst results.
  eexists. split; [done|]. split_and!.
  - by rewrite length_fmap.
  - unfold dict_keys. rewrite <- list_fmap_compose. apply list_fmap_ext. by intros i [k a].
  - intros k a Hget. by rewrite dict_get_fmap, Hget.
  - done.
Qed.

Lemma broadcast_one_entry_per_agent_witness :
  let ags := [Examples.sensor; Examples.deaf_agent; Examples.reporter] in
  let message := [("type", VStr "ping")] in
  reachable ags (__init__ ags) ∧
  ∃ results,
    (broadcast_message message (__init__ ags)).1 = Returned results ∧
    length results = 3 ∧
    dict_get results "Sensor" = Some (VDict message) ∧
    dict_get results "Deaf" = Some (VStr "Error: cannot parse") ∧
    dict_get results "Reporter" = Some (VDict message).
Proof.
  intros ags message. split; [apply reachable_init|].
  destruct (broadcast_one_entry_per_agent ags (__init__ ags) message (reachable_init ags))
    as (results & Hret & Hlen & _ & Hget & _).
  exists results. split; [exact Hret|]. split; [exact Hlen|].
  split_and!.
  - exact (Hget "Sensor" Examples.sensor eq_refl).
  - exact (Hget "Deaf" Examples.deaf_agent eq_refl).
  - exact (Hget "Reporter" Examples.reporter eq_refl).
Defined.

(** ** The pollution alert rule *)

Lemma call_extension_present n method sel arg o agent h :
  dict_get (agents o) n = Some agent →
  sel (agent_class agent) = Some h →
  call_extension n method sel arg o =
    ((h arg (data agent)).1,
     set_agents (dict_set (agents o) n (set_data (h arg (data agent)).2 agent))
       (emit [EvExtension n method arg] o)).
Proof.
  intros Hget Hsel. unfold call_extension, call. rewrite Hget, Hsel.
  by destruct (h arg (data agent)).
Qed.

Lemma registered_true n o :
  registered n o = true → ∃ agent, dict_get (agents o) n = Some agent.
Proof. unfold registered. intros [agent ?]%bool_decide_eq_true. by exists agent. Qed.

(** [PredictiveActionAgent._predict_pollution_events] gives [None] or a
    prediction of type ["pollution_event"] with a float probability. *)
Lemma pollution_events_body_shape in_four_hours monitoring_data self prediction :
  PredictiveActionAgent.pollution_events_body in_four_hours monitoring_data self
    = Returned prediction →
  prediction = VNone ∨
  ∃ q rest,
    prediction = VDict (("type", VStr "pollution_event")
                          :: ("probability", VFloat q) :: rest).
Proof.
  unfold PredictiveActionAgent.pollution_events_body, and_then.
  repeat case_match; intros; simplify_eq; eauto.
Qed.

(** [PredictiveActionAgent.handle_pollution_alert] never raises: what can
    fail in it runs inside a [try]. *)
Lemma handle_pollution_alert_returns now in_four_hours alert_data self :
  is_returned
    (PredictiveActionAgent.handle_pollution_alert now in_four_hours alert_data self).1
  = true.
Proof.
  unfold PredictiveActionAgent.handle_pollution_alert,
    PredictiveActionAgent._predict_pollution_events.
  destruct (PredictiveActionAgent.pollution_events_body _ _ _) as [prediction|e] eqn:Hbody;
    [|done].
  apply pollution_events_body_shape in Hbody as [->|(q & rest & ->)]; [done|].
  simpl. destruct (negb _); [|done].
  unfold PredictiveActionAgent._take_autonomous_action. by simpl.
Qed.

(** One of the two guarded calls of [_check_cross_agent_actions]. *)
Lemma guarded_call_cases n method sel arg o :
  (let* present := gets (registered n) in
   if present then call_extension n method sel arg ;;; ret () else ret ()) o
  = match dict_get (agents o) n with
    | None => (Returned (), o)
    | Some a =>
        match sel (agent_class a) with
        | None =>
            (Raised (AttributeError (VOpaque (class_name (agent_class a))) method), o)
        | Some h =>
            (match (call h arg a).1 with
             | Returned _ => Returned ()
             | Raised e => Raised e
             end,
             set_agents (dict_set (agents o) n (call h arg a).2)
               (emit [EvExtension n method arg] o))
        end
    end.
Proof.
  unfold bind at 1. unfold gets, registered. cbn [fst snd].
  destruct (dict_get (agents o) n) as [a|] eqn:Hget.
  - rewrite bool_decide_true by done. unfold bind, call_extension, ret.
    rewrite Hget. destruct (sel (agent_class a)) as [h|]; [|done].
    by destruct (call h arg a) as [[r|e] a'].
  - rewrite bool_decide_false by (by intros [? ?]). done.
Qed.

Lemma check_cross_agent_actions_alert o monitoring_data :
  alert_data o = Some monitoring_data →
  _check_cross_agent_actions o =
    ((let* present := gets (registered "PredictiveActionAgent") in
      if present
      then call_extension "PredictiveActionAgent" "handle_pollution_alert"
             handle_pollution_alert monitoring_data ;;; ret ()
      else ret ()) ;;;
     (let* present := gets (registered "CommunityCoordinationAgent") in
      if present
      then call_extension "CommunityCoordinationAgent"
             "coordinate_pollution_response"
             coordinate_pollution_response monitoring_data ;;; ret ()
      else ret ())) o.
Proof.
  unfold alert_data, pollution_alert, _check_cross_agent_actions.
  unfold bind at 1. unfold gets at 1. unfold bind at 1. unfold lift at 1.
  fold (published_data o).
  destruct (published_data o) as [data|e]; [|done].
  unfold bind at 1. unfold lift at 1.
  destruct (py_get data "pollution_alert" VNone) as [alert|e]; [|done].
  destruct (truthy alert); [|done]. by intros [= ->].
Qed.

Lemma check_cross_agent_actions_no_alert o :
  alert_data o = None → (_check_cross_agent_actions o).2 = o.
Proof.
  unfold alert_data, pollution_alert, _check_cross_agent_actions.
  unfold bind at 1. unfold gets at 1. unfold bind at 1. unfold lift at 1.
  fold (published_data o).
  destruct (published_data o) as [data|e]; [|done].
  unfold bind at 1. unfold lift at 1.
  destruct (py_get data "pollution_alert" VNone) as [alert|e]; [|done].
  by destruct (truthy alert).
Qed.

Lemma coordinate_iteration_result o now up r o1 :
  running o = true →
  _check_cross_agent_actions o = (r, o1) →
  _coordinate_agents_iteration now up o =
    match r with
    | Returned _ =>
        emit [EvSleep Coordinate 30]
          (write Coordinate "system" (system_entry now up o1) o1)
    | Raised e =>
        emit [EvLog "ERROR" ("Error in coordination: " +:+ exn_msg e);
              EvSleep Coordinate 10] o1
    end.
Proof.
  intros Hrun Hcheck.
  unfold _coordinate_agents_iteration, _update_global_state, bind, gets, modify.
  rewrite Hrun, Hcheck. by destruct r as [[]|e].
Qed.

Ltac only_system_is_written :=
  let Hin := fresh "Hin" in
  intros ? ? ? Hin; simpl in Hin;
  repeat (apply elem_of_cons in Hin as [Hin|Hin]; [by simplify_eq|]);
  by apply elem_of_nil in Hin.

Ltac finish_pass :=
  simpl; eexists; (split; [rewrite <- ?app_assoc; reflexivity|]);
  split_and!;
    try reflexivity;
    try only_system_is_written;
    try (intros ? ? ?; rewrite ?dict_get_set_ne by done; done);
    try (rewrite ?dict_get_set_ne by done; first [apply dict_get_set_eq | done]);
    try (by repeat first [apply list_elem_of_here | apply list_elem_of_further]).

(** C8. In a pass of the coordination loop the two extension points are
    called exactly when the data the monitoring agent published has a
    truthy ['pollution_alert'], with that data.  [handle_pollution_alert]
    of the agent registered as the predictive agent is called once, and the
    agent is left as the method left it.  [coordinate_pollution_response]
    of the agent registered as the community agent is called once after it,
    but only when the first call is out of the way: when the predictive
    agent is registered and its method raises or is missing, the community
    agent is not called in that pass and stays as it was.  No other agent
    is touched, no message is sent, and the pass assigns no key of the
    shared memory but ["system"]. *)
Theorem pollution_alert_triggers_extensions (o : Orchestrator) (now up : timestamp) :
  running o = true →
  let o' := _coordinate_agents_iteration now up o in
  let predictive := is_extension "PredictiveActionAgent" "handle_pollution_alert" in
  let community :=
    is_extension "CommunityCoordinationAgent" "coordinate_pollution_response" in
  ∃ evs,
    trace o' = trace o ++ evs ∧
    count is_message evs = 0 ∧
    (∀ w k v, EvWrite w k v ∈ evs → w = Coordinate ∧ k = "system") ∧
    (∀ k, k ≠ "PredictiveActionAgent" → k ≠ "CommunityCoordinationAgent" →
          dict_get (agents o') k = dict_get (agents o) k) ∧
    count is_extension_call evs = count predictive evs + count community evs ∧
    match alert_data o with
    | None => agents o' = agents o ∧ count is_extension_call evs = 0
    | Some monitoring_data =>
        match dict_get (agents o) "PredictiveActionAgent" with
        | None => count predictive evs = 0
        | Some p =>
            match handle_pollution_alert (agent_class p) with
            | Some h =>
                count predictive evs = 1 ∧
                EvExtension "PredictiveActionAgent" "handle_pollution_alert"
                  monitoring_data ∈ evs ∧
                dict_get (agents o') "PredictiveActionAgent"
                  = Some (call h monitoring_data p).2
            | None =>
                count predictive evs = 0 ∧
                dict_get (agents o') "PredictiveActionAgent" = Some p
            end
        end ∧
        match dict_get (agents o) "CommunityCoordinationAgent" with
        | None => count community evs = 0
        | Some c =>
            match coordinate_pollution_response (agent_class c) with
            | Some g =>
                if first_call_returned monitoring_data o then
                  count community evs = 1 ∧
                  EvExtension "CommunityCoordinationAgent"
                    "coordinate_pollution_response" monitoring_data ∈ evs ∧
                  dict_get (agents o') "CommunityCoordinationAgent"
                    = Some (call g monitoring_data c).2
                else
                  count community evs = 0 ∧
                  dict_get (agents o') "CommunityCoordinationAgent" = Some c
            | None =>
                count community evs = 0 ∧
                dict_get (agents o') "CommunityCoordinationAgent" = Some c
            end
        end
    end.
Proof.
  intros Hrun o' predictive community. subst o'.
  unfold first_call_returned.
  destruct (alert_data o) as [monitoring_data|] eqn:Halert.
  2:{ pose proof (check_cross_agent_actions_no_alert o Halert) as Hcheck.
      destruct (_check_cross_agent_actions o) as [r o1] eqn:Hresult.
      simpl in Hcheck. subst o1.
      rewrite (coordinate_iteration_result o now up _ _ Hrun Hresult).
      destruct r as [[]|e]; finish_pass. }
  pose proof (check_cross_agent_actions_alert o monitoring_data Halert) as Hcheck.
  unfold bind at 1 in Hcheck. rewrite guarded_call_cases in Hcheck.
  destruct (dict_get (agents o) "PredictiveActionAgent") as [p|] eqn:Hp.
  - destruct (handle_pollution_alert (agent_class p)) as [h|].
    + destruct (call h monitoring_data p) as [[r|e] p'] eqn:Hcall;
        cbn [fst snd] in Hcheck.
      * rewrite guarded_call_cases in Hcheck. cbn [agents set_agents emit] in Hcheck.
        rewrite dict_get_set_ne in Hcheck by done.
        destruct (dict_get (agents o) "CommunityCoordinationAgent") as [c|] eqn:Hc.
        -- destruct (coordinate_pollution_response (agent_class c)) as [g|].
           ++ destruct (call g monitoring_data c) as [[r'|e'] c'] eqn:Hcall';
                cbn [fst snd] in Hcheck;
                rewrite (coordinate_iteration_result o now up _ _ Hrun Hcheck);
                finish_pass.
           ++ rewrite (coordinate_iteration_result o now up _ _ Hrun Hcheck).
              finish_pass.
        -- rewrite (coordinate_iteration_result o now up _ _ Hrun Hcheck).
           finish_pass.
      * rewrite (coordinate_iteration_result o now up _ _ Hrun Hcheck).
        destruct (dict_get (agents o) "CommunityCoordinationAgent") as [c|] eqn:Hc;
          [destruct (coordinate_pollution_response (agent_class c)) as [g|]|];
          finish_pass.
    + rewrite (coordinate_iteration_result o now up _ _ Hrun Hcheck).
      destruct (dict_get (agents o) "CommunityCoordinationAgent") as [c|] eqn:Hc;
        [destruct (coordinate_pollution_response (agent_class c)) as [g|]|];
        finish_pass.
  - rewrite guarded_call_cases in Hcheck.
    destruct (dict_get (agents o) "CommunityCoordinationAgent") as [c|] eqn:Hc.
    + destruct (coordinate_pollution_response (agent_class c)) as [g|].
      * destruct (call g monitoring_data c) as [[r'|e'] c'] eqn:Hcall';
          cbn [fst snd] in Hcheck;
          rewrite (coordinate_iteration_result o now up _ _ Hrun Hcheck);
          finish_pass.
      * rewrite (coordinate_iteration_result o now up _ _ Hrun Hcheck).
        finish_pass.
    + rewrite (coordinate_iteration_result o now up _ _ Hrun Hcheck).
      finish_pass.
Qed.

Lemma pollution_alert_triggers_extensions_witness :
  let ags := [Examples.monitor; Examples.predictive_agent; Examples.coordinator] in
  let o := _run_agent_iteration "EnvironmentalMonitoringAgent" "2024-05-01T10:00:00"
             (start (__init__ ags)).2 in
  let o' := _coordinate_agents_iteration "2024-05-01T10:00:30" "2024-05-01T10:00:30" o in
  running o = true ∧
  ∃ evs,
    trace o' = trace o ++ evs ∧
    count (is_extension "PredictiveActionAgent" "handle_pollution_alert") evs = 1 ∧
    count (is_extension "CommunityCoordinationAgent" "coordinate_pollution_response") evs = 1 ∧
    count is_message evs = 0 ∧
    (action_count ∘ data <$> dict_get (agents o) "CommunityCoordinationAgent") = Some 0%Z ∧
    (action_count ∘ data <$> dict_get (agents o') "CommunityCoordinationAgent") = Some 1%Z.
Proof.
  intros ags o o'. split; [reflexivity|].
  destruct (pollution_alert_triggers_extensions o "2024-05-01T10:00:30"
              "2024-05-01T10:00:30" eq_refl)
    as (evs & Htr & Hmsg & _ & _ & _ & H).
  assert (alert_data o = Some Examples.alert_result) as Halert by reflexivity.
  rewrite Halert in H. destruct H as [Hp Hc].
  assert (∃ p, dict_get (agents o) "PredictiveActionAgent" = Some p ∧
               handle_pollution_alert (agent_class p) =
                 Some (PredictiveActionAgent.handle_pollution_alert
                         "2024-05-01T10:00:30" "2024-05-01T14:00:30"))
    as (p & Hget & Hh) by (by eexists).
  rewrite Hget, Hh in Hp. destruct Hp as (Hp & _).
  assert (∃ c, dict_get (agents o) "CommunityCoordinationAgent" = Some c ∧
               coordinate_pollution_response (agent_class c) = Some Examples.counting ∧
               action_count (data c) = 0%Z ∧
               action_count (data (call Examples.counting Examples.alert_result c).2) = 1%Z)
    as (c & Hget' & Hg & Hbefore & Hafter) by (by eexists).
  assert (first_call_returned Examples.alert_result o = true) as Hfirst by reflexivity.
  rewrite Hget', Hg, Hfirst in Hc. destruct Hc as (Hc & _ & Hc').
  exists evs. split_and!; [exact Htr|exact Hp|exact Hc|exact Hmsg| |].
  - rewrite Hget'. exact (f_equal Some Hbefore).
  - subst o'. rewrite Hc'. exact (f_equal Some Hafter).
Defined.

(** C8 as the claim has it fails when the first call raises: the data has
    the alert and the community agent is registered with its method, and
    yet the pass ends without calling it.  The two calls are awaited one
    after the other inside one [try]. *)
Lemma raising_alert_handler_skips_community :
  let ags := [Examples.monitor; Examples.raising_predictor; Examples.coordinator] in
  let o := _run_agent_iteration "EnvironmentalMonitoringAgent" "2024-05-01T10:00:00"
             (start (__init__ ags)).2 in
  let o' := _coordinate_agents_iteration "2024-05-01T10:00:30" "2024-05-01T10:00:30" o in
  pollution_alert o = true ∧
  registered "CommunityCoordinationAgent" o = true ∧
  (coordinate_pollution_response ∘ agent_class
     <$> dict_get (agents o) "CommunityCoordinationAgent") = Some (Some Examples.counting) ∧
  trace o' = trace o ++
    [EvExtension "PredictiveActionAgent" "handle_pollution_alert" Examples.alert_result;
     EvLog "ERROR" "Error in coordination: model not loaded";
     EvSleep Coordinate 10] ∧
  count (is_extension "CommunityCoordinationAgent" "coordinate_pollution_response")
    (drop (length (trace o)) (trace o')) = 0 ∧
  dict_get (agents o') "CommunityCoordinationAgent"
    = dict_get (agents o) "CommunityCoordinationAgent".
Proof. by split_and!. Qed.

(** ** Messages of a known type with a missing field *)

(** C6 fails in [PredictiveActionAgent._process_message]: a message of type
    ["update_threshold"] without a ["threshold"] makes
    [0 <= new_threshold <= 1] compare [0] with [None], and the [TypeError]
    leaves [handle_message]; [send_message_to_agent] passes it on to its
    caller. *)
Theorem update_threshold_without_threshold_raises
    (_predict_air_quality : hook pyval pyval) (in_four_hours : timestamp)
    (self : AgentData) :
  let message := [("type", VStr "update_threshold")] in
  let error :=
    Exception "TypeError"
      "'<=' not supported between instances of 'int' and 'NoneType'" in
  PredictiveActionAgent._process_message _predict_air_quality in_four_hours
    message self = (Raised error, self) ∧
  (handle_message message Examples.predictive_agent).1 = Raised error ∧
  (send_message_to_agent "PredictiveActionAgent" message
     (Examples.started [Examples.monitoring_agent; Examples.predictive_agent])).1
    = Raised error.
Proof. by vm_compute. Qed.

(** The monitoring agent guards the same case: a message of type
    ["set_monitoring_location"] without a ["location"] is answered as an
    unknown message. *)
Lemma set_monitoring_location_without_location (self : AgentData) :
  EnvironmentalMonitoringAgent._process_message
    [("type", VStr "set_monitoring_location")] self
  = (Returned unknown_message_type, self).
Proof. reflexivity. Qed.

(** A message whose type no branch knows is answered as unknown by both
    handlers. *)
Lemma unknown_type_is_answered
    (_predict_air_quality : hook pyval pyval) (in_four_hours : timestamp)
    (self : AgentData) :
  let message := [("type", VStr "ping")] in
  PredictiveActionAgent._process_message _predict_air_quality in_four_hours
    message self = (Returned unknown_message_type, self) ∧
  EnvironmentalMonitoringAgent._process_message message self
    = (Returned unknown_message_type, self).
Proof. by split. Qed.

(** * More properties of the orchestrator *)

(** ** Registering agents *)

Lemma init_fold_lookup (ags : list Agent) (d : list (string * Agent)) n :
  dict_get (foldl (λ d a, dict_set d (name a) a) d ags) n =
    match last (named n ags) with
    | Some a => Some a
    | None => dict_get d n
    end.
Proof.
  revert d. induction ags as [|a ags IH]; intros d; simpl; [done|].
  rewrite IH. unfold named. destruct (decide (name a = n)) as [<-|Hne].
  - rewrite filter_cons_True by done. rewrite last_cons.
    destruct (last _); [done|]. apply dict_get_set_eq.
  - rewrite filter_cons_False by done.
    destruct (last _); [done|]. by apply dict_get_set_ne.
Qed.

Lemma dict_keys_set {A} (d : list (string * A)) k v :
  dict_keys (dict_set d k v) =
    if decide (k ∈ dict_keys d) then dict_keys d else dict_keys d ++ [k].
Proof.
  destruct (decide (k ∈ dict_keys d)).
  - by apply dict_keys_set_present.
  - rewrite dict_keys_set_fresh by done. unfold dict_keys. by rewrite fmap_app.
Qed.

Lemma first_appearances_snoc (names : list string) (x : string) :
  first_appearances (names ++ [x]) =
    if decide (x ∈ first_appearances names) then first_appearances names
    else first_appearances names ++ [x].
Proof.
  unfold first_appearances. rewrite reverse_snoc. simpl.
  destruct (decide_rel elem_of x (reverse names)) as [Hin|Hnin].
  - rewrite decide_True; [done|].
    by rewrite elem_of_reverse, elem_of_remove_dups.
  - rewrite decide_False; [by rewrite reverse_cons|].
    by rewrite elem_of_reverse, elem_of_remove_dups.
Qed.

(** X2. [__init__] keys the agents by name: of several agents with one
    name the last one is registered and the others are dropped without an
    error, and the dictionary lists the names in the order of their first
    appearance. *)
Theorem init_keeps_last_agent_of_a_name (ags : list Agent) :
  dict_keys (agents (__init__ ags)) = first_appearances (name <$> ags) ∧
  (∀ n, dict_get (agents (__init__ ags)) n = last (named n ags)) ∧
  length (agents (__init__ ags)) ≤ length ags.
Proof.
  assert (dict_keys (agents (__init__ ags)) = first_appearances (name <$> ags)) as Hkeys.
  { simpl. induction ags as [|a ags IH] using rev_ind; [done|].
    rewrite foldl_app, fmap_app. simpl.
    by rewrite dict_keys_set, first_appearances_snoc, IH. }
  split_and!; [done| |].
  - intros n. simpl. rewrite init_fold_lookup. by destruct (last _).
  - transitivity (length (dict_keys (agents (__init__ ags)))).
    { unfold dict_keys. by rewrite length_fmap. }
    rewrite Hkeys. unfold first_appearances. rewrite length_reverse.
    transitivity (length (reverse (name <$> ags))).
    + apply submseteq_length, NoDup_submseteq; [apply NoDup_remove_dups|].
      intros x. by rewrite elem_of_remove_dups.
    + by rewrite length_reverse, length_fmap.
Qed.

(** ** After [stop] *)

Lemma stop_idle o : idle (stop o).2 ∧ running (stop o).2 = false.
Proof.
  pose proof (stop_cases o) as H. cbv zeta in H. unfold idle, scheduled.
  destruct (stop o) as [[[]|e] o']; simpl.
  - destruct H as (_ & _ & -> & _ & -> & _). split; [|done].
    intros t. apply cancel_not_scheduled.
  - destruct H as (pre & k & a & post & _ & _ & _ & _ & -> & _ & -> & _).
    split; [|done]. intros t. apply cancel_not_scheduled.
Qed.

Lemma idle_step o l o' :
  idle o → running o = false → step o l o' → l ≠ OpStart →
  idle o' ∧ running o' = false ∧ shared_memory o' = shared_memory o.
Proof.
  intros Hidle Hrun Hstep Hl.
  destruct Hstep as [o|o|o n now Hn|o now up Hco|o n message|o message].
  - done.
  - destruct (stop_idle o) as [Hidle' Hrun']. split_and!; [done..|].
    pose proof (stop_cases o) as Hstop. cbv zeta in Hstop.
    destruct (stop o) as [[[]|e] o']; simpl.
    + by destruct Hstop as (_ & _ & _ & ? & _).
    + by destruct Hstop as (pre & k & a & post & _ & _ & _ & _ & _ & ? & _).
  - by destruct (Hidle _ Hn).
  - by destruct (Hidle _ Hco).
  - destruct (send_message_calls_only n message o) as (_ & _ & Hr & Ht & Hs & _).
    unfold idle, scheduled in *. rewrite Hr, Ht, Hs. done.
  - destruct (broadcast_message_calls_only message o) as (_ & _ & Hr & Ht & Hs & _).
    unfold idle, scheduled in *. rewrite Hr, Ht, Hs. done.
Qed.

Lemma idle_run o ls o' :
  idle o → running o = false → run o ls o' → OpStart ∉ ls →
  idle o' ∧ running o' = false ∧ shared_memory o' = shared_memory o.
Proof.
  intros Hidle Hrun Hruns.
  induction Hruns as [o1|o1 l o2 ls o3 Hstep Hruns IH]; intros Hls; [done|].
  apply not_elem_of_cons in Hls as [Hl Hls].
  destruct (idle_step o1 l o2 Hidle Hrun Hstep) as (Hidle2 & Hrun2 & Hsm2); [done|].
  destruct (IH Hidle2 Hrun2 Hls) as (? & ? & ?). split_and!; [done..|congruence].
Qed.

Lemma stop_shared_memory o : shared_memory (stop o).2 = shared_memory o.
Proof.
  pose proof (stop_cases o) as H. cbv zeta in H.
  destruct (stop o) as [[[]|e] o1]; simpl.
  - by destruct H as (_ & _ & _ & ? & _).
  - by destruct H as (pre & k & a & post & _ & _ & _ & _ & _ & ? & _).
Qed.

Lemma stop_events o :
  ∃ evs, trace (stop o).2 = trace o ++ evs ∧ Forall (λ ev, publishes ev = false) evs.
Proof.
  pose proof (stop_cases o) as H. cbv zeta in H.
  destruct (stop o) as [[[]|e] o1]; simpl.
  - destruct H as (_ & _ & _ & _ & _ & ->). eexists. split; [done|].
    repeat apply Forall_app_2; [| |by repeat constructor];
      rewrite Forall_fmap; by apply Forall_true.
  - destruct H as (pre & k & a & post & _ & _ & _ & _ & _ & _ & _ & ->).
    eexists. split; [done|].
    apply Forall_app_2; rewrite Forall_fmap; by apply Forall_true.
Qed.

Lemma idle_step_events o l o' :
  idle o → step o l o' → l ≠ OpStart →
  ∃ evs, trace o' = trace o ++ evs ∧ Forall (λ ev, publishes ev = false) evs.
Proof.
  intros Hidle Hstep Hl.
  destruct Hstep as [o|o|o n now Hn|o now up Hco|o n message|o message].
  - done.
  - apply stop_events.
  - by destruct (Hidle _ Hn).
  - by destruct (Hidle _ Hco).
  - unfold send_message_to_agent.
    destruct (dict_get (agents o) n) as [agent|].
    + destruct (handle_message message agent) as [r agent']. simpl.
      eexists. split; [done|]. by repeat constructor.
    + exists []. split; [by rewrite app_nil_r|done].
  - unfold broadcast_message.
    pose proof (broadcast_loop_spec message (agents o) []) as H.
    destruct (broadcast_loop message (agents o) []) as [[ags' results] evs].
    destruct H as [_ ->]. simpl. eexists. split; [done|].
    rewrite Forall_fmap. by apply Forall_true.
Qed.

Lemma idle_run_events o ls o' :
  idle o → running o = false → run o ls o' → OpStart ∉ ls →
  ∃ evs, trace o' = trace o ++ evs ∧ Forall (λ ev, publishes ev = false) evs.
Proof.
  intros Hidle Hrun Hruns.
  induction Hruns as [o1|o1 l o2 ls o3 Hstep Hruns IH]; intros Hls.
  { exists []. split; [by rewrite app_nil_r|done]. }
  apply not_elem_of_cons in Hls as [Hl Hls].
  destruct (idle_step o1 l o2 Hidle Hrun Hstep) as (Hidle2 & Hrun2 & _); [done|].
  destruct (idle_step_events o1 l o2 Hidle Hstep) as (evs1 & Htr1 & Hevs1); [done|].
  destruct (IH Hidle2 Hrun2 Hls) as (evs2 & Htr2 & Hevs2).
  exists (evs1 ++ evs2). split; [by rewrite Htr2, Htr1, app_assoc|].
  by apply Forall_app_2.
Qed.

(** X3. After [stop()], whether it returned or raised, no task is scheduled
    and the flag is cleared; until [start()] is called again no pass of a
    loop can run.  Whatever else is called (messages, broadcasts, another
    [stop()]), from the call of [stop()] on no [execute_cycle] and no
    extension point is called and no key of the shared memory is assigned,
    so the shared memory binds the keys it bound before.  (What a key binds
    is the object an agent returned; a message handler of that agent can
    still change it in place.) *)
Theorem nothing_is_published_after_stop (o o' : Orchestrator) (ls : list op) :
  run (stop o).2 ls o' → OpStart ∉ ls →
  idle o' ∧ is_running o' = false ∧
  (∀ k, is_Some (shared_memory o' !! k) ↔ is_Some (shared_memory o !! k)) ∧
  ∃ evs, trace o' = trace o ++ evs ∧ Forall (λ ev, publishes ev = false) evs.
Proof.
  intros Hruns Hls. destruct (stop_idle o) as [Hidle Hrun].
  destruct (idle_run _ _ _ Hidle Hrun Hruns Hls) as (? & ? & Hsm).
  destruct (idle_run_events _ _ _ Hidle Hrun Hruns Hls) as (evs2 & Htr2 & Hevs2).
  destruct (stop_events o) as (evs1 & Htr1 & Hevs1).
  split_and!; [done..| |].
  - intros k. by rewrite Hsm, stop_shared_memory.
  - exists (evs1 ++ evs2). split; [by rewrite Htr2, Htr1, app_assoc|].
    by apply Forall_app_2.
Qed.

Lemma nothing_is_published_after_stop_witness :
  let o := _run_agent_iteration "Sensor" "2024-05-01T10:00:00"
             (Examples.started [Examples.sensor]) in
  let ls := [OpBroadcast [("type", VStr "ping")]; OpStop] in
  ∃ o', run (stop o).2 ls o' ∧ (OpStart ∉ ls) ∧
        is_running o' = false ∧
        is_Some (shared_memory o' !! "Sensor") ∧
        count is_write (trace o') = count is_write (trace o).
Proof.
  intros o ls. eexists.
  assert (OpStart ∉ ls) as Hls
    by (intros [[=]|[[=]|[]%elem_of_nil]%elem_of_cons]%elem_of_cons).
  assert (run (stop o).2 ls
            (stop (broadcast_message [("type", VStr "ping")] (stop o).2).2).2) as Hrun.
  { eapply run_cons; [apply step_broadcast|].
    eapply run_cons; [apply step_stop|]. apply run_nil. }
  split; [exact Hrun|]. split; [exact Hls|].
  destruct (nothing_is_published_after_stop o _ ls Hrun Hls)
    as (_ & Hflag & Hkeys & evs & Htr & Hevs).
  split; [exact Hflag|]. split; [apply Hkeys; by eexists|].
  rewrite Htr. unfold count. rewrite filter_app, length_app.
  assert (filter (λ ev, is_write ev = true) evs = []) as ->; [|simpl; lia].
  clear Htr. induction Hevs as [|ev evs Hev _ IH]; [done|].
  rewrite filter_cons_False; [exact IH|].
  unfold publishes in Hev. by destruct (is_write ev).
Defined.

(** ** The keys of the shared memory *)

(** X4. No step of a run removes an entry of the shared memory, and the
    only keys it ever has are ["system"] and names of registered agents. *)
Theorem shared_memory_keys_only_grow (ags : list Agent) (o o' : Orchestrator)
    (l : op) :
  reachable ags o → step o l o' →
  (∀ k, is_Some (shared_memory o !! k) → is_Some (shared_memory o' !! k)) ∧
  (∀ k, is_Some (shared_memory o' !! k) → k = "system" ∨ k ∈ name <$> ags).
Proof.
  intros Hreach Hstep. split.
  - destruct (reachable_consistent ags o Hreach) as [Hc _].
    destruct (step_effect o l o' Hc Hstep) as (_ & _ & evs & _ & Hnew & Hold).
    intros k Hk. destruct (Hold k) as [->|(w & v & Hin)]; [done|].
    destruct (Hnew w k v Hin) as (_ & -> & _). by eexists.
  - assert (reachable ags o') as Hreach' by (by eapply reachable_step).
    destruct (reachable_writes ags o' Hreach') as [Hsm Htr].
    intros k [v Hv]. destruct (decide (k = "system")) as [|Hk]; [by left|right].
    destruct (Hsm k v Hk Hv) as (_ & _ & _ & _ & Hw).
    by apply (Htr _ _ _ Hw).
Qed.

Lemma shared_memory_keys_only_grow_witness :
  let ags := [Examples.sensor] in
  let o := _run_agent_iteration "Sensor" "2024-05-01T10:00:00"
             (start (__init__ ags)).2 in
  reachable ags o ∧ step o OpStop (stop o).2 ∧
  is_Some (shared_memory (stop o).2 !! "Sensor").
Proof.
  intros ags o.
  assert (reachable ags o) as Hreach.
  { eapply reachable_step; [eapply reachable_step; [apply reachable_init|apply step_start]|].
    apply step_cycle. unfold scheduled. simpl. left. }
  split; [exact Hreach|]. split; [apply step_stop|].
  destruct (shared_memory_keys_only_grow ags o (stop o).2 OpStop Hreach (step_stop o))
    as [Hkeep _].
  apply Hkeep. by eexists.
Defined.

(** ** The list of tasks *)

Lemma finish_lookup t (ts : list (task_id * task_state)) i t0 s :
  ts !! i = Some (t0, s) →
  ∃ s', finish t ts !! i = Some (t0, s') ∧ (s ≠ Scheduled → s' = s).
Proof.
  revert i. induction ts as [|[t1 s1] ts IH]; intros i Hi; [done|].
  destruct i as [|i]; simpl in *.
  - injection Hi as -> ->. destruct s; [|by eexists..].
    destruct (bool_decide (t0 = t)); by eexists.
  - destruct (IH i Hi) as (s' & Hs' & Hkeep).
    destruct s1; [destruct (bool_decide (t1 = t))|..]; simpl; eauto.
Qed.

Lemma finish_length t (ts : list (task_id * task_state)) :
  length (finish t ts) = length ts.
Proof.
  induction ts as [|[t1 s1] ts IH]; [done|]. simpl.
  destruct s1; [destruct (bool_decide (t1 = t))|..]; simpl; by rewrite ?IH.
Qed.

(** X5. [self.tasks] is never cleared: a step keeps every task at its
    position, a task that was cancelled or has finished is never scheduled
    again, and the list only grows, by the tasks each [start()] appends. *)
Theorem tasks_are_never_removed (o o' : Orchestrator) (l : op) :
  step o l o' →
  length (tasks o) ≤ length (tasks o') ∧
  ∀ i t s, tasks o !! i = Some (t, s) →
    ∃ s', tasks o' !! i = Some (t, s') ∧ (s ≠ Scheduled → s' = s).
Proof.
  assert (∀ o1 o2 : Orchestrator, tasks o2 = tasks o1 →
            length (tasks o1) ≤ length (tasks o2) ∧
            ∀ i t s, tasks o1 !! i = Some (t, s) →
              ∃ s', tasks o2 !! i = Some (t, s') ∧ (s ≠ Scheduled → s' = s)) as Hsame.
  { intros o1 o2 ->. split; [done|]. intros i t s Hi. by exists s. }
  assert (∀ o1 t, length (tasks o1) ≤ length (tasks (exit_task t o1)) ∧
            ∀ i t0 s, tasks o1 !! i = Some (t0, s) →
              ∃ s', tasks (exit_task t o1) !! i = Some (t0, s') ∧
                    (s ≠ Scheduled → s' = s)) as Hexit.
  { intros o1 t. simpl. rewrite finish_length. split; [done|].
    intros i t0 s. apply finish_lookup. }
  intros Hstep.
  destruct Hstep as [o|o|o n now Hn|o now up Hco|o n message|o message].
  - pose proof (start_cases o) as H.
    destruct (start o) as [[[]|e] o']; simpl.
    + destruct H as (_ & _ & _ & _ & -> & _). rewrite length_app. split; [lia|].
      intros i t s Hi. exists s. split; [|done]. by apply lookup_app_l_Some.
    + destruct H as (pre & k & a & post & _ & _ & _ & _ & _ & _ & Ht & _).
      by apply Hsame.
  - pose proof (stop_cases o) as H. cbv zeta in H.
    assert (tasks (stop o).2 = cancel <$> tasks o) as ->.
    { destruct (stop o) as [[[]|e] o']; simpl.
      - by destruct H as (_ & _ & _ & _ & ? & _).
      - by destruct H as (pre & k & a & post & _ & _ & _ & _ & _ & _ & ? & _). }
    rewrite length_fmap. split; [done|]. intros i t s Hi.
    rewrite list_lookup_fmap, Hi. simpl. unfold cancel. simpl.
    destruct s; by eexists.
  - destruct (running o) eqn:Hrun;
      [destruct (dict_get (agents o) n) as [agent|] eqn:Hget|].
    + apply Hsame.
      by destruct (run_agent_iteration_cases n now o agent Hrun Hget) as (_ & _ & ? & _).
    + unfold _run_agent_iteration. rewrite Hrun, Hget. by apply Hsame.
    + unfold _run_agent_iteration. rewrite Hrun. apply Hexit.
  - destruct (running o) eqn:Hrun.
    + destruct (coordinate_iteration_effect o now up Hrun) as (o1 & Hcalls & _ & _ & Ht & _).
      apply Hsame. rewrite Ht. apply Hcalls.
    + unfold _coordinate_agents_iteration. rewrite Hrun. apply Hexit.
  - apply Hsame. apply send_message_calls_only.
  - apply Hsame. apply broadcast_message_calls_only.
Qed.

Lemma tasks_are_never_removed_witness :
  let o := (stop (Examples.started [Examples.sensor])).2 in
  step o OpStart (start o).2 ∧
  length (tasks o) ≤ length (tasks (start o).2) ∧
  ∃ s', tasks (start o).2 !! 0 = Some (RunAgent "Sensor", s') ∧
        (Cancelled ≠ Scheduled → s' = Cancelled).
Proof.
  intros o. split; [apply step_start|].
  destruct (tasks_are_never_removed o (start o).2 OpStart (step_start o)) as [Hlen H].
  split; [exact Hlen|]. exact (H 0 (RunAgent "Sensor") Cancelled eq_refl).
Defined.

(** ** The system entry *)

(** X6. A pass of the coordination loop refreshes the ["system"] entry only
    when the rule check returned: the entry then counts the active agents
    and sums the action counters as they are after the calls of that pass,
    and the pass sleeps 30 seconds.  When the check raised, the shared
    memory is as before the pass, the error is logged and the pass sleeps
    10 seconds. *)
Theorem system_entry_is_refreshed_when_the_check_returns (o : Orchestrator)
    (now up : timestamp) :
  running o = true →
  let o' := _coordinate_agents_iteration now up o in
  match _check_cross_agent_actions o with
  | (Returned _, o1) =>
      shared_memory o' = <["system" := system_entry now up o1]> (shared_memory o) ∧
      trace o' = trace o1 ++
        [EvWrite Coordinate "system" (system_entry now up o1); EvSleep Coordinate 30]
  | (Raised e, o1) =>
      shared_memory o' = shared_memory o ∧
      trace o' = trace o1 ++
        [EvLog "ERROR" ("Error in coordination: " +:+ exn_msg e);
         EvSleep Coordinate 10]
  end.
Proof.
  intros Hrun o'. subst o'.
  pose proof (quiet_check_cross_agent_actions o) as Hq.
  unfold _coordinate_agents_iteration, _update_global_state, bind, gets, modify.
  rewrite Hrun.
  destruct (_check_cross_agent_actions o) as [[[]|e] o1]; simpl in *.
  - destruct Hq as (_ & _ & _ & _ & -> & _). split; [done|]. by rewrite <- app_assoc.
  - by destruct Hq as (_ & _ & _ & _ & -> & _).
Qed.

Lemma system_entry_is_refreshed_when_the_check_returns_witness :
  let ags := [Examples.monitor; Examples.raising_predictor; Examples.coordinator] in
  let o := _run_agent_iteration "EnvironmentalMonitoringAgent" "2024-05-01T10:00:00"
             (start (__init__ ags)).2 in
  let o' := _coordinate_agents_iteration "2024-05-01T10:00:30" "2024-05-01T10:00:30" o in
  running o = true ∧ shared_memory o' = shared_memory o ∧
  shared_memory o' !! "system" = None.
Proof.
  intros ags o o'. split; [reflexivity|].
  pose proof (system_entry_is_refreshed_when_the_check_returns o
                "2024-05-01T10:00:30" "2024-05-01T10:00:30" eq_refl) as H.
  cbv zeta in H.
  destruct (_check_cross_agent_actions o) as [[[]|e] o1] eqn:Hcheck; [discriminate Hcheck|].
  destruct H as [Hsm _]. split; [exact Hsm|]. fold o' in Hsm. rewrite Hsm. reflexivity.
Defined.

(** ** Activity flags after [start] and [stop] *)

Lemma active_count_all (ags : list (string * Agent)) :
  Forall (λ a, is_active a = true) (dict_values ags) →
  active_count ags = Z.of_nat (length ags).
Proof.
  intros H. unfold active_count, dict_values in *.
  by rewrite filter_all, length_fmap.
Qed.

Lemma active_count_none (ags : list (string * Agent)) :
  Forall (λ a, is_active a = false) (dict_values ags) →
  active_count ags = 0%Z.
Proof.
  intros H. unfold active_count, dict_values in *.
  induction H as [|a l Ha _ IH]; [done|].
  rewrite filter_cons_False; [done | congruence].
Qed.

Lemma active_count_app (l1 l2 : list (string * Agent)) :
  active_count (l1 ++ l2) = (active_count l1 + active_count l2)%Z.
Proof.
  unfold active_count, dict_values. rewrite fmap_app, filter_app, length_app. lia.
Qed.

Lemma apply_all_flags method (ags : list (string * Agent)) b :
  (∀ a, is_active (method a).2 = b) →
  Forall (λ a, is_active a = b) (dict_values (apply_all method ags)).
Proof.
  intros H. unfold dict_values, apply_all. rewrite <- list_fmap_compose, Forall_fmap.
  apply Forall_forall. intros [k a] _. apply H.
Qed.

(** X7. When [start()] returned, every registered agent is active, so
    ['agents_running'] is the number of registered agents; when [stop()]
    returned it is 0.  When [stop()] raised, the agent whose [shutdown]
    failed and the agents before it are inactive and the agents after it
    are as they were: ['agents_running'] counts the active ones among
    these. *)
Theorem agents_running_after_start_and_stop (o : Orchestrator) :
  ((start o).1 = Returned () →
   agents_running (start o).2 = Z.of_nat (length (agents o))) ∧
  ((stop o).1 = Returned () → agents_running (stop o).2 = 0%Z) ∧
  (∀ e, (stop o).1 = Raised e →
     ∃ pre k a post,
       agents o = pre ++ (k, a) :: post ∧
       (_cleanup (agent_class a) () (data a)).1 = Raised e ∧
       agents_running (stop o).2 = active_count post).
Proof.
  split_and!.
  - pose proof (start_cases o) as H.
    destruct (start o) as [[[]|e] o']; [|done]. intros _. simpl.
    destruct H as (_ & Hags & _). change (agents_running o') with (active_count (agents o')). rewrite Hags.
    rewrite active_count_all; [by unfold apply_all; rewrite length_fmap|].
    apply apply_all_flags, initialize_active.
  - pose proof (stop_cases o) as H. cbv zeta in H.
    destruct (stop o) as [[[]|e] o']; [|done]. intros _. simpl.
    destruct H as (_ & Hags & _). change (agents_running o') with (active_count (agents o')). rewrite Hags.
    apply active_count_none, apply_all_flags, shutdown_inactive.
  - intros e. pose proof (stop_cases o) as H. cbv zeta in H.
    destruct (stop o) as [[[]|e'] o']; [done|]. intros [= ->]. simpl.
    destruct H as (pre & k & a & post & Hags & _ & Ha & Hags' & _).
    exists pre, k, a, post. split; [done|]. split.
    { revert Ha. unfold shutdown, call. simpl. by destruct (_cleanup _ _ _). }
    change (agents_running o') with (active_count (agents o')). rewrite Hags'.
    change ((k, (shutdown a).2) :: post) with ([(k, (shutdown a).2)] ++ post).
    rewrite !active_count_app.
    rewrite (active_count_none (apply_all shutdown pre))
      by apply apply_all_flags, shutdown_inactive.
    rewrite (active_count_none [_]); [lia|].
    repeat constructor. apply shutdown_inactive.
Qed.

(** ** The memory of an agent *)

(** X8. What [_store_memory] stores under a key is what [_get_memory]
    gives for that key, whatever was stored there before; the other keys
    are not touched, and a key that was never stored gives [None]. *)
Theorem memory_round_trip (key : string) (value : pyval) (now : timestamp)
    (d : AgentData) :
  _get_memory key (_store_memory key value now d) = Returned value ∧
  (∀ key', key' ≠ key →
     _get_memory key' (_store_memory key value now d) = _get_memory key' d) ∧
  (∀ key', memory d !! key' = None → _get_memory key' d = Returned VNone) ∧
  (∀ value' now',
     _get_memory key (_store_memory key value' now' (_store_memory key value now d))
       = Returned value').
Proof.
  unfold _get_memory, _store_memory. simpl. split_and!.
  - by rewrite lookup_insert_eq.
  - intros key' Hne. by rewrite lookup_insert_ne.
  - by intros key' ->.
  - intros value' now'. by rewrite lookup_insert_eq.
Qed.

Lemma agents_running_after_start_and_stop_witness :
  let o := __init__ [Examples.sensor; Examples.reporter] in
  (start o).1 = Returned () ∧ agents_running (start o).2 = 2%Z ∧
  (stop (start o).2).1 = Returned () ∧ agents_running (stop (start o).2).2 = 0%Z.
Proof.
  intros o.
  destruct (agents_running_after_start_and_stop o) as (Hstart & _).
  destruct (agents_running_after_start_and_stop (start o).2) as (_ & Hstop & _).
  split; [reflexivity|]. split; [exact (Hstart eq_refl)|].
  split; [reflexivity|]. exact (Hstop eq_refl).
Defined.

(** * More properties of the predictive agent *)

(** ** Messages *)

(** X9. A message whose type is none of the three types the predictive
    agent knows, or that has no type, is answered with
    [{"status": "unknown_message_type"}] and leaves the agent as it was; so
    is a prediction request for a prediction type other than the two it
    knows. *)
Theorem predictive_unknown_message_is_answered
    (_predict_air_quality : hook pyval pyval) (in_four_hours : timestamp)
    (message : pydict) (self : AgentData) :
  let message_type := message_get message "type" VNone in
  let prediction_type := message_get message "prediction_type" VNone in
  py_eq_str message_type "get_predictions" = false →
  py_eq_str message_type "update_threshold" = false →
  (py_eq_str message_type "request_prediction" = true →
   py_eq_str prediction_type "air_quality" = false ∧
   py_eq_str prediction_type "pollution_event" = false) →
  PredictiveActionAgent._process_message _predict_air_quality in_four_hours
    message self = (Returned unknown_message_type, self).
Proof.
  intros message_type prediction_type Hget Hupd Hreq.
  unfold PredictiveActionAgent._process_message.
  fold message_type. fold prediction_type. rewrite Hget, Hupd.
  destruct (py_eq_str message_type "request_prediction"); [|done].
  by destruct Hreq as [-> ->].
Qed.

Lemma predictive_unknown_message_is_answered_witness :
  PredictiveActionAgent._process_message Examples.counting "2024-05-01T14:00:30"
    [("type", VStr "request_prediction"); ("prediction_type", VStr "noise")]
    (data Examples.predictive_agent)
  = (Returned unknown_message_type, data Examples.predictive_agent).
Proof.
  apply predictive_unknown_message_is_answered; [reflexivity..|].
  intros _. split; reflexivity.
Defined.

(** X10. A message of type ["update_threshold"] sets
    [prediction_threshold] exactly when its ["threshold"] is a number
    between 0 and 1 (a [bool] counts as 0 or 1).  A number out of that range
    is answered as an unknown message and a threshold that is no number
    raises [TypeError]; in both cases the agent is as it was. *)
Theorem update_threshold_accepts_numbers_in_unit_interval
    (_predict_air_quality : hook pyval pyval) (in_four_hours : timestamp)
    (message : pydict) (self : AgentData) :
  message_get message "type" VNone = VStr "update_threshold" →
  let new_threshold := message_get message "threshold" VNone in
  PredictiveActionAgent._process_message _predict_air_quality in_four_hours
    message self =
  match py_num new_threshold with
  | Some q =>
      if Qle_bool 0 q && Qle_bool q 1
      then (Returned (VDict [("status", VStr "success");
                             ("new_threshold", new_threshold)]),
            set_attr "prediction_threshold" new_threshold self)
      else (Returned unknown_message_type, self)
  | None => (Raised (TypeError_le (VInt 0) new_threshold), self)
  end.
Proof.
  intros Htype new_threshold. unfold PredictiveActionAgent._process_message.
  rewrite Htype. simpl. fold new_threshold. unfold py_le. simpl.
  change (inject_Z 0) with 0%Q. change (inject_Z 1) with 1%Q.
  destruct new_threshold as [| [] |z|q|s|l|d|c]; simpl; try done.
  - by destruct (Qle_bool 0 (inject_Z z)), (Qle_bool (inject_Z z) 1).
  - by destruct (Qle_bool 0 q), (Qle_bool q 1).
Qed.

Lemma update_threshold_accepts_numbers_in_unit_interval_witness :
  let message := [("type", VStr "update_threshold"); ("threshold", VFloat (8 # 10))] in
  (PredictiveActionAgent._process_message Examples.counting "2024-05-01T14:00:30"
     message (data Examples.predictive_agent)).2
  = set_attr "prediction_threshold" (VFloat (8 # 10)) (data Examples.predictive_agent).
Proof.
  intros message.
  rewrite (update_threshold_accepts_numbers_in_unit_interval
             Examples.counting "2024-05-01T14:00:30" message
             (data Examples.predictive_agent) eq_refl).
  reflexivity.
Defined.

(** ** Pollution event predictions *)

(** The predictions [_predict_pollution_events] can build: one for each
    choice of risk factors that is not empty. *)
Lemma pollution_events_body_cases in_four_hours monitoring_data self prediction :
  PredictiveActionAgent.pollution_events_body in_four_hours monitoring_data self
    = Returned prediction →
  prediction = VNone ∨
  ∃ (high hotspots alerts : bool) accuracy,
    let risk :=
      (if high then [VStr "high_baseline_pollution"] else [])
      ++ (if hotspots then [VStr "active_hotspots"] else [])
      ++ (if alerts then [VStr "recent_alerts"] else []) in
    let q := Qmin (95 # 100) (inject_Z (Z.of_nat (length risk)) * (3 # 10)) in
    risk ≠ [] ∧
    prediction =
      VDict [("type", VStr "pollution_event");
             ("probability", VFloat q);
             ("risk_factors", VList risk);
             ("predicted_severity",
              VStr (if negb (Qle_bool q (7 # 10)) then "high" else "moderate"));
             ("prediction_time", VStr in_four_hours);
             ("confidence", accuracy);
             ("recommended_actions",
              VList (PredictiveActionAgent._get_pollution_prevention_actions q))].
Proof.
  unfold PredictiveActionAgent.pollution_events_body, and_then.
  destruct (py_get monitoring_data "analysis" _) as [analysis|]; simpl; [|done].
  destruct (py_get monitoring_data "alerts" _) as [alerts|]; simpl; [|done].
  destruct (py_get analysis "average_aqi" _) as [average_aqi|]; simpl; [|done].
  destruct (py_gt average_aqi _) as [high|]; simpl; [|done].
  destruct (py_get analysis "pollution_hotspots" _) as [hotspots|]; simpl; [|done].
  destruct high eqn:Hh, (truthy hotspots) eqn:Hs, (truthy alerts) eqn:Ha; simpl;
    try (intros [= <-]; by left);
    (destruct (attrs self !! "prediction_models") as [models|]; simpl; [|done]);
    (destruct (py_getitem models _) as [model|]; simpl; [|done]);
    (destruct (py_getitem model _) as [accuracy|]; simpl; [|done]);
    intros [= <-]; right.
  - by exists true, true, true, accuracy.
  - by exists true, true, false, accuracy.
  - by exists true, false, true, accuracy.
  - by exists true, false, false, accuracy.
  - by exists false, true, true, accuracy.
  - by exists false, true, false, accuracy.
  - by exists false, false, true, accuracy.
Qed.

(** X11. [_predict_pollution_events] never raises and leaves the agent as it
    was.  It gives [None], or a prediction built from one, two or three risk
    factors.  The probability is the number of factors times 0.3 as floats
    multiply them: within a millionth of three tenths for each factor and
    not above, so below the cap of 0.95, which never applies.  It is above
    0.5 exactly with two factors or more and above 0.7 exactly with all
    three, so the severity is ["high"] only with all three factors; three
    actions are recommended with two factors, six with three and none with
    one. *)
Theorem pollution_prediction_shape (in_four_hours : timestamp)
    (monitoring_data : pyval) (self : AgentData) :
  let r := PredictiveActionAgent._predict_pollution_events in_four_hours
             monitoring_data self in
  r.2 = self ∧
  ∃ prediction,
    r.1 = Returned prediction ∧
    (prediction = VNone ∨
     ∃ risk q accuracy,
       prediction =
         VDict [("type", VStr "pollution_event");
                ("probability", VFloat q);
                ("risk_factors", VList risk);
                ("predicted_severity",
                 VStr (if bool_decide (length risk = 3) then "high" else "moderate"));
                ("prediction_time", VStr in_four_hours);
                ("confidence", accuracy);
                ("recommended_actions",
                 VList (PredictiveActionAgent._get_pollution_prevention_actions q))] ∧
       1 ≤ length risk ≤ 3 ∧
       (inject_Z (Z.of_nat (length risk)) * (3 # 10) - (1 # 1000000) <= q)%Q ∧
       (q <= inject_Z (Z.of_nat (length risk)) * (3 # 10))%Q ∧
       (q < 95 # 100)%Q ∧
       negb (Qle_bool q (5 # 10)) = bool_decide (2 ≤ length risk) ∧
       negb (Qle_bool q (7 # 10)) = bool_decide (length risk = 3) ∧
       length (PredictiveActionAgent._get_pollution_prevention_actions q)
         = 3 * (length risk - 1)).
Proof.
  unfold PredictiveActionAgent._predict_pollution_events.
  pose proof (pollution_events_body_cases in_four_hours monitoring_data self) as H.
  destruct (PredictiveActionAgent.pollution_events_body _ _ _) as [prediction|e];
    simpl; (split; [done|]); [|eexists; split; [done|]; by left].
  exists prediction. split; [done|].
  destruct (H prediction eq_refl) as [->|(high & hotspots & alerts & accuracy & Hne & ->)];
    [by left|right].
  destruct high, hotspots, alerts; try done; simpl;
    lazymatch goal with
    | |- ∃ _ _ _, VDict [_; (_, VFloat ?q); (_, VList ?l); _; _; (_, ?a); _] = _ ∧ _ =>
        exists l, q, a
    end;
    (split; [reflexivity|]); split_and!; simpl; try lia; done.
Qed.

(** X12. [handle_pollution_alert] of the predictive agent answers
    ["processed"] and records one action exactly when the prediction for
    the alert has at least two risk factors; the action it reports did not
    fail.  Otherwise it answers ["no_action_needed"] and the agent is as it
    was.  It never raises. *)
Theorem alert_is_processed_with_two_risk_factors (now in_four_hours : timestamp)
    (alert_data : pyval) (self : AgentData) :
  let r := PredictiveActionAgent.handle_pollution_alert now in_four_hours
             alert_data self in
  ∃ prediction,
    (PredictiveActionAgent._predict_pollution_events in_four_hours alert_data self).1
      = Returned prediction ∧
    ((∃ action risk,
        r = (Returned (VDict [("prediction", prediction);
                              ("action", VDict action);
                              ("status", VStr "processed")]),
             _record_action now self) ∧
        py_get prediction "risk_factors" VNone = Returned (VList risk) ∧
        2 ≤ length risk ∧
        dict_get action "action_type" = Some (VStr "pollution_prevention") ∧
        dict_get action "success" = Some (VBool true))
     ∨
     (r = (Returned (VDict [("status", VStr "no_action_needed")]), self) ∧
      (prediction = VNone ∨
       ∃ risk, py_get prediction "risk_factors" VNone = Returned (VList risk) ∧
               length risk = 1))).
Proof.
  unfold PredictiveActionAgent.handle_pollution_alert,
    PredictiveActionAgent._predict_pollution_events.
  pose proof (pollution_events_body_cases in_four_hours alert_data self) as H.
  destruct (PredictiveActionAgent.pollution_events_body _ _ _) as [prediction|e];
    simpl; [|eexists; split; [done|]; right; split; [done|]; by left].
  exists prediction. split; [done|].
  destruct (H prediction eq_refl) as [->|(high & hotspots & alerts & accuracy & Hne & ->)].
  { right. split; [done|]. by left. }
  destruct high, hotspots, alerts; try done;
    first [ right; split; [reflexivity|]; right; eexists; split; [reflexivity|done]
          | left; eexists _, _; split_and!; [reflexivity|reflexivity|simpl; lia|done|done] ].
Qed.

Lemma above_threshold_mono (p q c : Q) :
  (p <= q)%Q → Qle_bool q c = true → Qle_bool p c = true.
Proof.
  rewrite !Qle_bool_iff. intros Hpq Hq. by eapply Qle_trans.
Qed.

(** X13. The prevention actions grow with the probability: the actions
    recommended for a probability are the first of those recommended for
    any higher probability, and there are none, three or six of them. *)
Theorem prevention_actions_grow (p q : Q) :
  (p <= q)%Q →
  PredictiveActionAgent._get_pollution_prevention_actions p
    `prefix_of` PredictiveActionAgent._get_pollution_prevention_actions q ∧
  length (PredictiveActionAgent._get_pollution_prevention_actions p) ∈ [0; 3; 6].
Proof.
  intros Hpq. unfold PredictiveActionAgent._get_pollution_prevention_actions.
  assert (Qle_bool p (7 # 10) = false → Qle_bool p (5 # 10) = false) as Hp.
  { intros H7. destruct (Qle_bool p (5 # 10)) eqn:H5; [|done].
    assert (Qle_bool p (7 # 10) = true) as H; [|congruence].
    apply Qle_bool_iff. apply Qle_bool_iff in H5.
    eapply Qle_trans; [exact H5|]. by apply Qle_bool_iff. }
  destruct (Qle_bool q (5 # 10)) eqn:Hq5, (Qle_bool q (7 # 10)) eqn:Hq7;
    rewrite ?(above_threshold_mono p q _ Hpq Hq5), ?(above_threshold_mono p q _ Hpq Hq7);
    destruct (Qle_bool p (5 # 10)) eqn:Hp5, (Qle_bool p (7 # 10)) eqn:Hp7;
    simpl; try (specialize (Hp eq_refl); discriminate);
    (split; [by eexists | set_solver]).
Qed.

Lemma prevention_actions_grow_witness :
  PredictiveActionAgent._get_pollution_prevention_actions (6 # 10)
    `prefix_of` PredictiveActionAgent._get_pollution_prevention_actions (9 # 10).
Proof.
  assert (6 # 10 <= 9 # 10)%Q as H by (by apply Qle_bool_iff).
  exact (proj1 (prevention_actions_grow (6 # 10) (9 # 10) H)).
Defined.

(** * More properties of the predictive cycle *)

Lemma Qle_bool_false_trans (a x y : Q) :
  (x <= y)%Q → Qle_bool a y = false → Qle_bool a x = false.
Proof.
  intros Hxy Hy. destruct (Qle_bool a x) eqn:Hx; [|done].
  assert (Qle_bool a y = true) as H; [|congruence].
  apply Qle_bool_iff. apply Qle_bool_iff in Hx. by eapply Qle_trans.
Qed.

Lemma assess_aqi_risk_cases (aqi : pyval) (a : Q) (risk : string) :
  py_num aqi = Some a →
  PredictiveCycle._assess_aqi_risk aqi = Returned risk →
  py_eq (VStr risk) (VStr "unhealthy") || py_eq (VStr risk) (VStr "hazardous")
    = negb (Qle_bool a (inject_Z 150)).
Proof.
  intros Ha. unfold PredictiveCycle._assess_aqi_risk, py_le, and_then.
  rewrite Ha. simpl.
  destruct (Qle_bool a (inject_Z 150)) eqn:H150.
  - destruct (Qle_bool a (inject_Z 50)); [by intros [= <-]|].
    destruct (Qle_bool a (inject_Z 100)); [by intros [= <-]|].
    by intros [= <-].
  - rewrite (Qle_bool_false_trans a (inject_Z 50) (inject_Z 150)); [|done|done].
    rewrite (Qle_bool_false_trans a (inject_Z 100) (inject_Z 150)); [|done|done].
    destruct (Qle_bool a (inject_Z 200)); by intros [= <-].
Qed.

(** X14. On an air quality prediction whose risk level is the one
    [_assess_aqi_risk] gives for the predicted index, [_should_take_action]
    answers yes exactly when the confidence is above the threshold and the
    predicted index is above 150. *)
Theorem air_quality_action_needs_index_above_150 (self : AgentData)
    (prediction : pydict) (confidence threshold aqi : pyval) (c t a : Q)
    (risk : string) :
  dict_get prediction "type" = Some (VStr "air_quality") →
  dict_get prediction "confidence" = Some confidence →
  py_num confidence = Some c →
  attrs self !! "prediction_threshold" = Some threshold →
  py_num threshold = Some t →
  py_num aqi = Some a →
  PredictiveCycle._assess_aqi_risk aqi = Returned risk →
  dict_get prediction "risk_level" = Some (VStr risk) →
  PredictiveCycle._should_take_action (VDict prediction) self
    = Returned (negb (Qle_bool c t) && negb (Qle_bool a (inject_Z 150))).
Proof.
  intros Htype Hconf Hc Hthr Ht Ha Hrisk Hlevel.
  unfold PredictiveCycle._should_take_action, py_get, py_getitem, attribute,
    py_gt, and_then.
  rewrite Hconf, Htype, Hlevel, Hthr. simpl. rewrite Hc, Ht.
  rewrite <- (assess_aqi_risk_cases aqi a risk Ha Hrisk).
  by destruct (Qle_bool c t).
Qed.

Lemma air_quality_action_needs_index_above_150_witness :
  PredictiveCycle._should_take_action
    (VDict [("type", VStr "air_quality"); ("predicted_value", VFloat (180 # 1));
            ("confidence", VFloat (85 # 100)); ("risk_level", VStr "unhealthy")])
    (PredictiveModels.__init__ (7 # 10))
  = Returned true.
Proof.
  exact (air_quality_action_needs_index_above_150
           (PredictiveModels.__init__ (7 # 10))
           [("type", VStr "air_quality"); ("predicted_value", VFloat (180 # 1));
            ("confidence", VFloat (85 # 100)); ("risk_level", VStr "unhealthy")]
           (VFloat (85 # 100)) (VFloat (7 # 10)) (VFloat (180 # 1))
           (85 # 100) (7 # 10) (180 # 1) "unhealthy"
           eq_refl eq_refl eq_refl eq_refl eq_refl eq_refl eq_refl eq_refl).
Defined.

(** X15. On a weather prediction whose conditions are those
    [_predict_weather_conditions] gives for the two trends,
    [_should_take_action] answers yes exactly when the confidence is above
    the threshold and the pressure trend is below -0.5: of the five
    conditions only ["storm_approaching"] mentions a storm. *)
Theorem weather_action_needs_falling_pressure (self : AgentData)
    (prediction : pydict) (confidence threshold temp_trend pressure_trend : pyval)
    (c t p : Q) (conditions : string) :
  dict_get prediction "type" = Some (VStr "weather_patterns") →
  dict_get prediction "confidence" = Some confidence →
  py_num confidence = Some c →
  attrs self !! "prediction_threshold" = Some threshold →
  py_num threshold = Some t →
  py_num pressure_trend = Some p →
  PredictiveCycle._predict_weather_conditions temp_trend pressure_trend
    = Returned conditions →
  dict_get prediction "predicted_conditions" = Some (VStr conditions) →
  PredictiveCycle._should_take_action (VDict prediction) self
    = Returned (negb (Qle_bool c t) && negb (Qle_bool (-5 # 10) p)).
Proof.
  intros Htype Hconf Hc Hthr Ht Hp Hcond Hpred.
  unfold PredictiveCycle._should_take_action, py_get, py_getitem, attribute,
    py_gt, and_then.
  rewrite Hconf, Htype, Hpred, Hthr. simpl. rewrite Hc, Ht.
  destruct (Qle_bool c t); simpl; [done|]. f_equal.
  revert Hcond.
  unfold PredictiveCycle._predict_weather_conditions, py_lt, py_gt, and_then.
  rewrite Hp. simpl.
  destruct (Qle_bool (-5 # 10) p); simpl; [|by intros [= <-]].
  destruct (Qle_bool p (5 # 10)); simpl; [|by intros [= <-]].
  destruct (py_num temp_trend) as [tt|]; [|done].
  destruct (Qle_bool tt (inject_Z 2)); simpl; [|by intros [= <-]].
  destruct (Qle_bool (inject_Z (-2)) tt); simpl; by intros [= <-].
Qed.

Lemma weather_action_needs_falling_pressure_witness :
  PredictiveCycle._should_take_action
    (VDict [("type", VStr "weather_patterns"); ("temperature_trend", VFloat (1 # 10));
            ("pressure_trend", VFloat (-2 # 1));
            ("predicted_conditions", VStr "storm_approaching");
            ("confidence", VFloat (78 # 100))])
    (PredictiveModels.__init__ (7 # 10))
  = Returned true.
Proof.
  exact (weather_action_needs_falling_pressure
           (PredictiveModels.__init__ (7 # 10))
           [("type", VStr "weather_patterns"); ("temperature_trend", VFloat (1 # 10));
            ("pressure_trend", VFloat (-2 # 1));
            ("predicted_conditions", VStr "storm_approaching");
            ("confidence", VFloat (78 # 100))]
           (VFloat (78 # 100)) (VFloat (7 # 10)) (VFloat (1 # 10)) (VFloat (-2 # 1))
           (78 # 100) (7 # 10) (-2 # 1) "storm_approaching"
           eq_refl eq_refl eq_refl eq_refl eq_refl eq_refl eq_refl eq_refl).
Defined.

(** X16. In the periodic cycle a pollution event prediction leads to an
    action only when it was built from all three risk factors and the
    accuracy of the model is above the threshold: two factors give the
    probability 0.6, which is not above 0.6 (the alert handler, which asks
    for more than 0.5, acts on two). *)
Theorem pollution_action_needs_three_risk_factors (in_four_hours : timestamp)
    (monitoring_data : pyval) (self : AgentData) (prediction threshold : pyval)
    (t : Q) :
  (PredictiveActionAgent._predict_pollution_events in_four_hours monitoring_data
     self).1 = Returned prediction →
  prediction ≠ VNone →
  attrs self !! "prediction_threshold" = Some threshold →
  py_num threshold = Some t →
  ∃ risk accuracy,
    py_get prediction "risk_factors" VNone = Returned (VList risk) ∧
    py_get prediction "confidence" VNone = Returned accuracy ∧
    ∀ c, py_num accuracy = Some c →
      PredictiveCycle._should_take_action prediction self
        = Returned (negb (Qle_bool c t) && bool_decide (length risk = 3)).
Proof.
  unfold PredictiveActionAgent._predict_pollution_events.
  pose proof (pollution_events_body_cases in_four_hours monitoring_data self) as H.
  destruct (PredictiveActionAgent.pollution_events_body _ _ _) as [p|e]; simpl;
    [|by intros [= <-]].
  intros [= <-] Hne Hthr Ht.
  destruct (H p eq_refl) as [->|(high & hotspots & alerts & accuracy & _ & ->)];
    [done|].
  eexists _, accuracy. split; [reflexivity|]. split; [reflexivity|].
  intros c Hc.
  unfold PredictiveCycle._should_take_action, attribute, py_gt, and_then.
  simpl. rewrite Hthr. simpl. rewrite Hc, Ht.
  destruct (Qle_bool c t); simpl; [done|].
  by destruct high, hotspots, alerts.
Qed.

Lemma pollution_action_needs_three_risk_factors_witness :
  ∃ prediction,
    (PredictiveActionAgent._predict_pollution_events "2024-01-01T04:00:00"
       Samples.polluted_data Samples.trained_predictor).1 = Returned prediction ∧
    PredictiveCycle._should_take_action prediction Samples.trained_predictor
      = Returned true.
Proof.
  eexists. split; [reflexivity|].
  destruct (pollution_action_needs_three_risk_factors "2024-01-01T04:00:00"
              Samples.polluted_data Samples.trained_predictor _
              (VFloat (7 # 10)) (7 # 10) eq_refl)
    as (risk & accuracy & Hrisk & Hacc & Hact); [done|reflexivity|reflexivity|].
  injection Hrisk as <-. injection Hacc as <-.
  exact (Hact (82 # 100)%Q eq_refl).
Defined.

Lemma last_suffix {A} (l k : list A) (x : A) :
  k `suffix_of` l ++ [x] → k ≠ [] → last k = Some x.
Proof.
  intros [p Hp] Hk. destruct k as [|y k _] using rev_ind; [done|].
  rewrite app_assoc in Hp. apply app_inj_tail in Hp as [_ ->]. apply last_snoc.
Qed.

(** X17. [_update_historical_data] appends a sample exactly when the
    monitoring data, a dictionary, has the key ["environmental_data"]: the
    sample is that data with the time, and it is the last of the history.
    After an append the history is cut to its last 1000 samples, so it then
    holds at most 1000 of them whatever it held before; a history below
    1000 keeps all it had.  Without the key the method returns and the
    agent, with its history, is as it was.  On data that is no dictionary
    the agent is as it was. *)
Theorem historical_data_keeps_the_last_1000 (now : timestamp)
    (monitoring_data : pyval) (self : AgentData) (history : list pyval) :
  attrs self !! "historical_data" = Some (VList history) →
  let r := PredictiveCycle._update_historical_data now monitoring_data self in
  match monitoring_data with
  | VDict d =>
      match dict_get d "environmental_data" with
      | Some environmental_data =>
          let timestamped_data :=
            VDict [("timestamp", VStr now); ("data", environmental_data)] in
          ∃ history',
            r = (Returned (), set_attr "historical_data" (VList history') self) ∧
            history' `suffix_of` history ++ [timestamped_data] ∧
            last history' = Some timestamped_data ∧
            length history' = (length history + 1) `min` 1000 ∧
            (length history < 1000 → history' = history ++ [timestamped_data])
      | None => r = (Returned (), self)
      end
  | _ => r.2 = self
  end.
Proof.
  intros Hattr. unfold PredictiveCycle._update_historical_data, attribute.
  destruct monitoring_data as [| | | | | |d|]; simpl; try done.
  - by destruct (contains _ _).
  - by destruct (existsb _ _).
  - destruct (dict_get d "environmental_data") as [environmental_data|] eqn:Hget.
    + rewrite bool_decide_true by (apply dict_get_is_Some; by eexists).
      rewrite Hattr. eexists. split; [reflexivity|].
      rewrite length_app. cbn [length].
      destruct (Nat.ltb_spec 1000 (length history + 1)) as [Hlong|Hshort].
      * split_and!; [apply suffix_drop| | |lia].
        -- apply (last_suffix history); [apply suffix_drop|].
           intros Hnil%(f_equal length). revert Hnil.
           rewrite length_drop, length_app. cbn [length]. lia.
        -- rewrite length_drop, length_app. cbn [length]. lia.
      * split_and!; [done|apply last_snoc| |done].
        rewrite length_app. cbn [length]. lia.
    + rewrite bool_decide_false; [done|].
      intros Hin%dict_get_is_Some. rewrite Hget in Hin. by destruct Hin.
Qed.

Lemma historical_data_keeps_the_last_1000_witness :
  let self := PredictiveModels.__init__ (7 # 10) in
  let now := "2024-01-01T00:00:00" in
  let r := PredictiveCycle._update_historical_data now Samples.polluted_data self in
  attrs self !! "historical_data" = Some (VList []) ∧
  r = (Returned (),
       set_attr "historical_data"
         (VList [VDict [("timestamp", VStr now); ("data", VList [])]]) self).
Proof.
  intros self now r. split; [reflexivity|].
  destruct (historical_data_keeps_the_last_1000 now Samples.polluted_data self []
              eq_refl) as (history' & Hr & _ & _ & _ & Hshort).
  fold r in Hr. rewrite Hr, Hshort; [reflexivity|simpl; lia].
Defined.

(** ** The accuracy of the models *)

Lemma update_model_spec (now : timestamp) (model_name : string)
    (models models' : pydict) :
  PredictiveModels.update_model now model_name models = Returned models' →
  dict_keys models' = dict_keys models ∧
  (∀ k, k ≠ model_name → dict_get models' k = dict_get models k) ∧
  ∃ model q,
    dict_get models' model_name = Some model ∧
    py_getitem model "accuracy" = Returned (VFloat q) ∧ (q <= 95 # 100)%Q.
Proof.
  unfold PredictiveModels.update_model, and_then. simpl.
  destruct (dict_get models model_name) as [model|] eqn:Hget; [|done].
  assert (model_name ∈ dict_keys models) as Hin.
  { apply dict_get_is_Some. by eexists. }
  destruct model as [| | | | | |model|]; try done. simpl.
  destruct (dict_get model "accuracy") as [current|] eqn:Hacc; [|done].
  unfold py_add_float. destruct (py_num current) as [x|]; [|done]. simpl.
  rewrite dict_get_set_eq.
  set (new := if negb (Qle_bool (95 # 100)%Q (x + (1 # 1000))%Q) then _ else _).
  intros [= <-].
  assert (∃ q, new = VFloat q ∧ (q <= 95 # 100)%Q) as (q & Hnew & Hq).
  { unfold new. destruct (Qle_bool (95 # 100)%Q (x + (1 # 1000))%Q) eqn:Hle; simpl.
    - eexists. split; [done|]. apply Qle_refl.
    - eexists. split; [done|]. apply Qlt_le_weak, Qnot_le_lt.
      intros Hc%Qle_bool_iff. congruence. }
  split_and!.
  - assert (model_name ∈ dict_keys
              (dict_set models model_name (VDict (dict_set model "accuracy" new))))
      as Hin'.
    { by rewrite dict_keys_set_present. }
    rewrite dict_keys_set_present by done. by rewrite dict_keys_set_present.
  - intros k Hk. by rewrite !dict_get_set_ne.
  - eexists _, q. rewrite dict_get_set_eq. split; [done|]. split; [|done].
    simpl. rewrite dict_get_set_ne by done. by rewrite dict_get_set_eq, Hnew.
Qed.

Lemma update_models_loop_spec (now : timestamp) (names : list string)
    (models models' : pydict) :
  PredictiveModels.update_models_loop now names models = (Returned (), models') →
  dict_keys models' = dict_keys models ∧
  (∀ k, k ∉ names → dict_get models' k = dict_get models k) ∧
  ∀ k, k ∈ names →
    ∃ model q,
      dict_get models' k = Some model ∧
      py_getitem model "accuracy" = Returned (VFloat q) ∧ (q <= 95 # 100)%Q.
Proof.
  revert models. induction names as [|name names IH]; intros models; simpl.
  - intros [= <-]. split_and!; [done|done|]. by intros k ?%elem_of_nil.
  - destruct (PredictiveModels.update_model now name models) as [models1|] eqn:H1;
      [|done].
    intros Hloop. destruct (IH _ Hloop) as (Hkeys & Hother & Hcapped).
    destruct (update_model_spec _ _ _ _ H1) as (Hkeys1 & Hother1 & Hcapped1).
    split_and!.
    + congruence.
    + intros k [Hk Hks]%not_elem_of_cons. rewrite Hother by done. by apply Hother1.
    + intros k Hk. destruct (decide (k ∈ names)) as [Hin|Hnin]; [by apply Hcapped|].
      apply elem_of_cons in Hk as [->|?]; [|done].
      by rewrite Hother.
Qed.

(** X18. When [_update_models] returns, the agent has the same models as
    before and each of them has an accuracy of at most 0.95, whatever the
    accuracies were. *)
Theorem updated_models_are_capped (now : timestamp) (monitoring_data : pyval)
    (self : AgentData) (models : pydict) :
  attrs self !! "prediction_models" = Some (VDict models) →
  let r := PredictiveModels._update_models now monitoring_data self in
  r.1 = Returned () →
  ∃ models',
    attrs r.2 !! "prediction_models" = Some (VDict models') ∧
    dict_keys models' = dict_keys models ∧
    accuracies_capped models'.
Proof.
  intros Hattr. unfold PredictiveModels._update_models, attribute.
  rewrite Hattr. simpl.
  destruct (PredictiveModels.update_models_loop now (dict_keys models) models)
    as [res models'] eqn:Hloop.
  simpl. intros ->. exists models'. rewrite lookup_insert_eq. split; [done|].
  destruct (update_models_loop_spec _ _ _ _ Hloop) as (Hkeys & _ & Hcapped).
  split; [done|]. intros k model Hget.
  destruct (Hcapped k) as (model' & q & Hget' & Hacc & Hq).
  { rewrite <- Hkeys. apply dict_get_is_Some. by eexists. }
  exists q. by simplify_eq.
Qed.

Lemma updated_models_are_capped_witness :
  ∃ models',
    attrs (PredictiveModels._update_models "2024-01-01T00:10:00"
             Samples.polluted_data Samples.trained_predictor).2
      !! "prediction_models" = Some (VDict models') ∧
    dict_keys models' = ["air_quality"; "weather_patterns"; "pollution_events"] ∧
    accuracies_capped models'.
Proof.
  exact (updated_models_are_capped "2024-01-01T00:10:00" Samples.polluted_data
           Samples.trained_predictor _ eq_refl eq_refl).
Defined.

(** X19. A threshold of 0.95 or more, which [update_threshold] accepts,
    silences the agent: on a prediction whose confidence is at most 0.95,
    as the capped accuracies are, [_should_take_action] never answers
    yes. *)
Theorem threshold_at_the_cap_silences_the_agent (self : AgentData)
    (prediction : pydict) (confidence threshold : pyval) (c t : Q) :
  attrs self !! "prediction_threshold" = Some threshold →
  py_num threshold = Some t →
  (95 # 100 <= t)%Q →
  dict_get prediction "confidence" = Some confidence →
  py_num confidence = Some c →
  (c <= 95 # 100)%Q →
  PredictiveCycle._should_take_action (VDict prediction) self ≠ Returned true.
Proof.
  intros Hthr Ht Hcap Hconf Hc Hle.
  assert (Qle_bool c t = true) as Hct.
  { apply Qle_bool_iff. by eapply Qle_trans. }
  unfold PredictiveCycle._should_take_action, py_get, py_getitem, attribute,
    py_gt, and_then.
  rewrite Hconf, Hthr. simpl. rewrite Hc, Ht, Hct. simpl.
  destruct (dict_get prediction "type") as [kind|]; [|done].
  repeat (case_match; try done).
Qed.

Lemma threshold_at_the_cap_silences_the_agent_witness :
  PredictiveCycle._should_take_action
    (VDict [("type", VStr "air_quality"); ("predicted_value", VFloat (400 # 1));
            ("confidence", VFloat (95 # 100)); ("risk_level", VStr "hazardous")])
    (set_attr "prediction_threshold" (VInt 1) Samples.trained_predictor)
  ≠ Returned true.
Proof.
  assert (95 # 100 <= inject_Z 1)%Q as Hcap by (by apply Qle_bool_iff).
  assert (95 # 100 <= 95 # 100)%Q as Hle by apply Qle_refl.
  exact (threshold_at_the_cap_silences_the_agent
           (set_attr "prediction_threshold" (VInt 1) Samples.trained_predictor)
           [("type", VStr "air_quality"); ("predicted_value", VFloat (400 # 1));
            ("confidence", VFloat (95 # 100)); ("risk_level", VStr "hazardous")]
           (VFloat (95 # 100)) (VInt 1) (95 # 100) (inject_Z 1)
           eq_refl eq_refl Hcap eq_refl eq_refl Hle).
Defined.

(** * More properties of the monitoring agent *)

Section monitoring.

Variable readings : nat → pyval * pyval.
Variable now : timestamp.
Variable format_1f : Q → string.
Variable str : pyval → string.

Lemma check_for_alerts_raised (analysis : pyval) (self : AgentData) e :
  (MonitoringCycle._check_for_alerts now format_1f str analysis self).1 = Raised e →
  (MonitoringCycle._check_for_alerts now format_1f str analysis self).2 = self.
Proof.
  unfold MonitoringCycle._check_for_alerts.
  by destruct (and_then _ _) as [alerts|e'].
Qed.

Lemma cycle_body_cases (self : AgentData) :
  let r := MonitoringCycle.cycle_body readings now format_1f str self in
  (∃ e, r = (Raised e, self)) ∨
  ∃ environmental_data analysis alerts,
    MonitoringCycle._collect_environmental_data readings now self
      = Returned environmental_data ∧
    MonitoringCycle._analyze_data environmental_data = Returned analysis ∧
    (MonitoringCycle._check_for_alerts now format_1f str (VDict analysis) self).1
      = Returned alerts ∧
    r = (Returned [("environmental_data", VList environmental_data);
                   ("analysis", VDict analysis);
                   ("alerts", VList alerts);
                   ("timestamp", VStr now)],
         _record_action now
           (MonitoringCycle._check_for_alerts now format_1f str
              (VDict analysis) self).2).
Proof.
  unfold MonitoringCycle.cycle_body.
  destruct (MonitoringCycle._collect_environmental_data _ _ _) as [data|e];
    [|left; by eexists].
  destruct (MonitoringCycle._analyze_data data) as [analysis|e] eqn:Hanalysis;
    [|left; by eexists].
  pose proof (check_for_alerts_raised (VDict analysis) self) as Hraised.
  destruct (MonitoringCycle._check_for_alerts now format_1f str (VDict analysis) self)
    as [[alerts|e] self'] eqn:Hcheck.
  - right. exists data, analysis, alerts. by rewrite Hcheck.
  - left. exists e. simpl in Hraised. by rewrite (Hraised e).
Qed.

Lemma check_for_alerts_state (analysis : pyval) (self : AgentData) :
  let self' :=
    (MonitoringCycle._check_for_alerts now format_1f str analysis self).2 in
  attrs self' = attrs self ∧
  cycle_interval self' = cycle_interval self ∧
  action_count self' = action_count self.
Proof.
  unfold MonitoringCycle._check_for_alerts.
  by destruct (and_then _ _) as [[|alert alerts]|e].
Qed.

(** X20. [execute_cycle] of the monitoring agent never raises.  It returns
    a dictionary with the key ["error"] alone, and then the agent is as it
    was, or one with the four keys of a report, and then one more action is
    recorded.  Neither has the key ["pollution_alert"], and the locations
    and the interval stay as they were. *)
Theorem monitoring_cycle_never_signals_an_alert (sm : gmap string pyval)
    (self : AgentData) :
  let r := MonitoringCycle.execute_cycle readings now format_1f str sm self in
  ∃ result,
    r.1 = Returned (VDict result) ∧
    dict_get result "pollution_alert" = None ∧
    attrs r.2 = attrs self ∧
    cycle_interval r.2 = cycle_interval self ∧
    ((dict_keys result = ["error"] ∧ r.2 = self) ∨
     (dict_keys result = ["environmental_data"; "analysis"; "alerts"; "timestamp"] ∧
      action_count r.2 = action_count self + 1)%Z).
Proof.
  unfold MonitoringCycle.execute_cycle.
  destruct (cycle_body_cases self)
    as [[e ->]|(data & analysis & alerts & _ & _ & _ & ->)]; simpl.
  - eexists. split; [done|]. split; [done|]. split; [done|]. split; [done|].
    by left.
  - destruct (check_for_alerts_state (VDict analysis) self) as (Hattrs & Hint & Hcount).
    eexists. split; [done|]. split; [done|]. split; [done|]. split; [done|].
    right. split; [done|]. by rewrite Hcount.
Qed.

Lemma collect_loop_without_name (location : pyval) (e : exn) (locations : list pyval) :
  location ∈ locations →
  py_getitem location "name" = Raised e →
  ∀ i data, ∃ e',
    MonitoringCycle.collect_loop readings now i locations data = Raised e'.
Proof.
  intros Hin Hname. induction locations as [|l locations IH]; [by apply elem_of_nil in Hin|].
  intros i data. simpl.
  destruct (MonitoringCycle.location_data now l _ _) as [d|e1] eqn:Hd.
  - apply elem_of_cons in Hin as [<-|Hin]; [|by apply IH].
    unfold MonitoringCycle.location_data in Hd. by rewrite Hname in Hd.
  - destruct (py_getitem l "name") as [nm|e2] eqn:Hl; simpl; [|by eexists].
    apply elem_of_cons in Hin as [<-|Hin]; [congruence|by apply IH].
Qed.

Lemma cycle_with_nameless_location (sm : gmap string pyval)
    (self : AgentData) (locations : list pyval) (location : pyval) (e : exn) :
  attrs self !! "monitoring_locations" = Some (VList locations) →
  location ∈ locations →
  py_getitem location "name" = Raised e →
  ∃ msg,
    MonitoringCycle.execute_cycle readings now format_1f str sm self
      = (Returned (VDict [("error", VStr msg)]), self).
Proof.
  intros Hattr Hin Hname.
  destruct (collect_loop_without_name location e locations Hin Hname 0 []) as [e' He'].
  unfold MonitoringCycle.execute_cycle, MonitoringCycle.cycle_body,
    MonitoringCycle._collect_environmental_data, attribute.
  rewrite Hattr. simpl. rewrite He'. by eexists.
Qed.

Lemma collect_loop_with_names (locations : list pyval) :
  Forall (λ l, has_item "name" l = true) locations →
  ∀ i data, ∃ new,
    MonitoringCycle.collect_loop readings now i locations data
      = Returned (data ++ new) ∧
    (λ d, py_getitem d "location") <$> new
      = (λ l, py_getitem l "name")
          <$> filter (λ l, has_item "lat" l && has_item "lon" l = true) locations.
Proof.
  induction 1 as [|l locations Hl Hall IH]; intros i data; simpl.
  - exists []. by rewrite app_nil_r.
  - unfold MonitoringCycle.location_data. unfold has_item in Hl.
    destruct (py_getitem l "name") as [name|] eqn:Hname; [|done]. simpl.
    destruct (py_getitem l "lat") as [lat|] eqn:Hlat; simpl.
    + destruct (py_getitem l "lon") as [lon|] eqn:Hlon; simpl.
      * rewrite filter_cons_True by (unfold has_item; by rewrite Hlat, Hlon).
        destruct (IH (S i) (data ++ [VDict
                   [("location", name);
                    ("coordinates", VDict [("lat", lat); ("lon", lon)]);
                    ("weather", (readings i).1);
                    ("air_quality", (readings i).2);
                    ("timestamp", VStr now)]])) as (new & -> & Hnew).
        eexists (_ :: new). rewrite <- app_assoc. split; [done|].
        rewrite !fmap_cons, Hnew, Hname. done.
      * rewrite filter_cons_False; [apply IH|].
        unfold has_item. rewrite Hlat, Hlon. done.
    + rewrite filter_cons_False; [apply IH|].
      unfold has_item. rewrite Hlat. done.
Qed.

(** X21. [_collect_environmental_data] skips a location that has a name
    but not both coordinates, and is failed by one that cannot give its
    ["name"].  When every location has a name it returns one entry for
    each location with both coordinates, in the order of the locations;
    when one has none, [execute_cycle] reports an error, whatever the
    other locations and the sensors are, and nothing is collected,
    analysed or recorded. *)
Theorem collection_skips_or_fails (sm : gmap string pyval) (self : AgentData)
    (locations : list pyval) :
  attrs self !! "monitoring_locations" = Some (VList locations) →
  (Forall (λ l, has_item "name" l = true) locations →
   ∃ data,
     MonitoringCycle._collect_environmental_data readings now self = Returned data ∧
     (λ d, py_getitem d "location") <$> data
       = (λ l, py_getitem l "name")
           <$> filter (λ l, has_item "lat" l && has_item "lon" l = true) locations) ∧
  (∀ location,
     location ∈ locations → has_item "name" location = false →
     ∃ msg,
       MonitoringCycle.execute_cycle readings now format_1f str sm self
         = (Returned (VDict [("error", VStr msg)]), self)).
Proof.
  intros Hattr. split.
  - intros Hall. unfold MonitoringCycle._collect_environmental_data, attribute.
    rewrite Hattr. simpl. apply (collect_loop_with_names locations Hall 0 []).
  - intros location Hin Hname. unfold has_item in Hname.
    destruct (py_getitem location "name") as [|e] eqn:He; [done|].
    by eapply cycle_with_nameless_location.
Qed.

(** X22. [set_monitoring_location] takes any location that is not falsy.
    After it has added one that cannot give its ["name"], such as a string
    or a dictionary without the key, the message is answered with success
    and every cycle of the agent reports an error. *)
Theorem nameless_location_is_accepted_and_breaks_the_cycle (message : pydict)
    (self : AgentData) (locations : list pyval) (location : pyval) (e : exn)
    (sm : gmap string pyval) :
  dict_get message "type" = Some (VStr "set_monitoring_location") →
  dict_get message "location" = Some location →
  truthy location = true →
  py_getitem location "name" = Raised e →
  attrs self !! "monitoring_locations" = Some (VList locations) →
  let r := EnvironmentalMonitoringAgent._process_message message self in
  r.1 = Returned (VDict [("status", VStr "success");
                         ("message", VStr "Location added")]) ∧
  ∃ msg,
    MonitoringCycle.execute_cycle readings now format_1f str sm r.2
      = (Returned (VDict [("error", VStr msg)]), r.2).
Proof.
  intros Htype Hloc Htruthy Hname Hattr.
  unfold EnvironmentalMonitoringAgent._process_message,
    EnvironmentalMonitoringAgent.append_location, message_get.
  rewrite Htype, Hloc. simpl. rewrite Htruthy, Hattr. simpl. split; [done|].
  eapply (cycle_with_nameless_location sm _ (locations ++ [location])
            location e).
  - apply lookup_insert_eq.
  - apply elem_of_app. right. by apply list_elem_of_singleton.
  - done.
Qed.

(** ** The cycle with the simulated sensors *)

Lemma collect_loop_samples (locations : list pyval) :
  simulated readings →
  ∀ i data data',
    Forall sample data →
    MonitoringCycle.collect_loop readings now i locations data = Returned data' →
    Forall sample data'.
Proof.
  intros Hsim. induction locations as [|l locations IH]; intros i data data' Hdata; simpl.
  - by intros [= <-].
  - destruct (MonitoringCycle.location_data now l _ _) as [d|e] eqn:Hd.
    + apply IH. apply Forall_app. split; [done|]. apply Forall_singleton.
      destruct (Hsim i) as (weather & air & aqi & t & Hr & Haqi & Hrange & Ht).
      rewrite Hr in Hd. unfold MonitoringCycle.location_data, and_then in Hd.
      destruct (py_getitem l "name") as [name|]; [|done].
      destruct (py_getitem l "lat") as [lat|]; [|done].
      destruct (py_getitem l "lon") as [lon|]; [|done].
      injection Hd as <-. exists name, aqi, t.
      unfold MonitoringCycle.aqi_of, MonitoringCycle.temperature_of. simpl.
      by rewrite Haqi, Ht.
    + destruct (py_getitem l "name"); simpl; [by apply IH|done].
Qed.

Lemma sum_aqi_samples (data : list pyval) :
  Forall sample data →
  ∀ z, ∃ total,
    MonitoringCycle.sum_aqi (NInt z) data = Returned (NInt total) ∧
    (z + 20 * Z.of_nat (length data) ≤ total ≤ z + 150 * Z.of_nat (length data))%Z.
Proof.
  induction 1 as [|d data (location & aqi & t & _ & Haqi & Hrange & _) _ IH];
    intros z; simpl.
  - exists z. split; [done|lia].
  - rewrite Haqi. simpl. destruct (IH (z + aqi)%Z) as (total & -> & Htotal).
    exists total. split; [done|lia].
Qed.

Lemma pollution_hotspots_samples (data : list pyval) :
  Forall sample data →
  ∀ found, ∃ new,
    MonitoringCycle.pollution_hotspots data found = Returned (found ++ new) ∧
    Forall (λ h, moderate h ∧ is_returned (py_getitem h "location") = true
                 ∧ is_returned (py_getitem h "aqi") = true) new.
Proof.
  induction 1 as [|d data (location & aqi & t & Hloc & Haqi & Hrange & _) _ IH];
    intros found; simpl.
  - exists []. by rewrite app_nil_r.
  - rewrite Haqi. simpl.
    destruct (Qle_bool (inject_Z aqi) (inject_Z 100)); simpl; [apply IH|].
    rewrite Hloc. simpl.
    assert (Qle_bool (inject_Z aqi) (inject_Z 150) = true) as ->.
    { apply Qle_bool_iff. rewrite <- Zle_Qle. lia. }
    simpl. destruct (IH (found ++ [VDict [("location", location);
                                           ("aqi", VInt aqi);
                                           ("severity", VStr "moderate")]]))
      as (new & -> & Hnew).
    eexists (_ :: new). rewrite <- app_assoc. split; [done|].
    by constructor.
Qed.

Lemma temperatures_samples (data : list pyval) :
  Forall sample data →
  ∃ temps,
    comprehension MonitoringCycle.temperature_of data = Returned temps ∧
    length temps = length data ∧
    Forall (λ t, ∃ q, t = VFloat q) temps.
Proof.
  induction 1 as [|d data (location & aqi & t & _ & _ & _ & Ht) _ (temps & IH & Hlen & Hfl)];
    simpl.
  - by exists [].
  - rewrite Ht, IH. simpl. exists (VFloat t :: temps). split; [done|].
    split; [simpl; by rewrite Hlen|]. constructor; [by eexists|done].
Qed.

Lemma py_sum_floats (temps : list pyval) :
  Forall (λ t, ∃ q, t = VFloat q) temps →
  ∀ acc, is_returned (py_sum acc temps) = true.
Proof.
  induction 1 as [|t temps [q ->] _ IH]; intros acc; simpl; [done|apply IH].
Qed.

Lemma weather_patterns_floats (temps : list pyval) :
  temps ≠ [] →
  Forall (λ t, ∃ q, t = VFloat q) temps →
  is_returned (MonitoringCycle.weather_patterns temps) = true.
Proof.
  intros Hne Hfl. unfold MonitoringCycle.weather_patterns.
  pose proof (py_sum_floats temps Hfl (NInt 0)) as Hsum.
  destruct (py_sum (NInt 0) temps); [|done]. simpl.
  destruct Hfl as [|t temps [q ->] _]; [done|]. done.
Qed.

Lemma hotspot_alerts_moderate (hotspots : list pyval) :
  Forall (λ h, moderate h ∧ is_returned (py_getitem h "location") = true
               ∧ is_returned (py_getitem h "aqi") = true) hotspots →
  ∃ alerts,
    comprehension (MonitoringCycle.hotspot_alert now str) hotspots = Returned alerts ∧
    length alerts = length hotspots ∧
    Forall moderate alerts.
Proof.
  induction 1 as [|h hotspots (Hsev & Hloc & Haqi) _ (alerts & IH & Hlen & Hmod)]; simpl.
  - by exists [].
  - unfold MonitoringCycle.hotspot_alert at 1. unfold moderate in Hsev.
    rewrite Hsev. simpl.
    destruct (py_getitem h "location"); [|done].
    destruct (py_getitem h "aqi"); [|done]. simpl.
    rewrite IH. simpl. eexists (_ :: alerts). split; [done|].
    split; [simpl; by rewrite Hlen|]. by constructor.
Qed.

Lemma average_of_samples (total : Z) (n : nat) :
  (total ≤ 150 * Z.of_nat n)%Z → n ≠ 0 →
  (inject_Z total / inject_Z (Z.of_nat n) <= inject_Z 150)%Q.
Proof.
  intros Htotal Hn. apply Qle_shift_div_r.
  - change 0%Q with (inject_Z 0). rewrite <- Zlt_Qlt. lia.
  - rewrite <- inject_Z_mult, <- Zle_Qle. lia.
Qed.

Lemma analyze_samples (data : list pyval) :
  Forall sample data →
  ∃ analysis average hotspots,
    MonitoringCycle._analyze_data data = Returned analysis ∧
    dict_get analysis "average_aqi" = Some average ∧
    (∃ q, py_num average = Some q ∧ (q <= inject_Z 150)%Q) ∧
    dict_get analysis "pollution_hotspots" = Some (VList hotspots) ∧
    Forall (λ h, moderate h ∧ is_returned (py_getitem h "location") = true
                 ∧ is_returned (py_getitem h "aqi") = true) hotspots.
Proof.
  intros Hdata. unfold MonitoringCycle._analyze_data.
  destruct (decide (data = [])) as [->|Hne].
  { eexists _, _, []. split; [done|]. split; [done|].
    split; [by exists (inject_Z 0)|]. split; [done|constructor]. }
  assert (length data ≠ 0) as Hlen by (by destruct data).
  destruct (sum_aqi_samples data Hdata 0) as (total & Hsum & Htotal).
  destruct (pollution_hotspots_samples data Hdata []) as (hotspots & Hspots & Hhot).
  destruct (temperatures_samples data Hdata) as (temps & Htemp & Htemps & Hfl).
  pose proof (weather_patterns_floats temps) as Hw.
  rewrite Hsum, Hspots, Htemp.
  remember (length data) as n eqn:Hn.
  destruct data as [|d rest]; [done|]. simpl.
  destruct (MonitoringCycle.weather_patterns temps) as [patterns|e].
  - simpl. eexists _, _, hotspots. split; [done|]. split; [done|].
    split; [|by split]. eexists. split; [done|].
    apply average_of_samples; [lia|done].
  - exfalso. apply (Bool.diff_false_true). apply Hw; [|done].
    intros ->. simpl in Htemps. lia.
Qed.

Lemma check_for_alerts_samples (analysis : pydict) (average : pyval)
    (hotspots : list pyval) (self : AgentData) :
  dict_get analysis "average_aqi" = Some average →
  (∃ q, py_num average = Some q ∧ (q <= inject_Z 150)%Q) →
  dict_get analysis "pollution_hotspots" = Some (VList hotspots) →
  Forall (λ h, moderate h ∧ is_returned (py_getitem h "location") = true
               ∧ is_returned (py_getitem h "aqi") = true) hotspots →
  ∃ alerts,
    (MonitoringCycle._check_for_alerts now format_1f str (VDict analysis) self).1
      = Returned alerts ∧
    length hotspots ≤ length alerts ≤ length hotspots + 1 ∧
    Forall moderate alerts.
Proof.
  intros Havg (q & Hq & Hle) Hhot Hall.
  unfold MonitoringCycle._check_for_alerts.
  assert (∃ average_alerts,
            MonitoringCycle.average_alert now format_1f (VDict analysis)
              = Returned average_alerts ∧
            length average_alerts ≤ 1 ∧ Forall moderate average_alerts)
    as (average_alerts & -> & Hlen & Hmod).
  { unfold MonitoringCycle.average_alert, py_gt. simpl. rewrite Havg. simpl.
    rewrite Hq. simpl.
    destruct (Qle_bool q (inject_Z 100)); simpl.
    - exists []. split; [done|]. split; [simpl; lia|constructor].
    - apply Qle_bool_iff in Hle. rewrite Hle. simpl.
      eexists [_]. split; [done|]. split; [simpl; lia|]. by constructor. }
  simpl. rewrite Hhot. simpl.
  destruct (hotspot_alerts_moderate hotspots Hall) as (alerts & -> & Hlen' & Hmod').
  simpl. exists (average_alerts ++ alerts).
  split; [done|]. rewrite length_app. split; [lia|]. by apply Forall_app.
Qed.

(** X23. With the simulated sensors, and locations that all have a name,
    [execute_cycle] always gives a report: one entry for each location
    with both coordinates, one alert for each hotspot and at most one for
    the average.  No alert is of ["high"] severity, the index never being
    above 150.  With no location at all the report is empty: there is no
    division by zero. *)
Theorem simulated_cycle_reports_moderate_alerts (sm : gmap string pyval)
    (self : AgentData) (locations : list pyval) :
  simulated readings →
  attrs self !! "monitoring_locations" = Some (VList locations) →
  Forall (λ l, has_item "name" l = true) locations →
  ∃ data analysis hotspots alerts,
    (MonitoringCycle.execute_cycle readings now format_1f str sm self).1
      = Returned (VDict [("environmental_data", VList data);
                         ("analysis", VDict analysis);
                         ("alerts", VList alerts);
                         ("timestamp", VStr now)]) ∧
    length data
      = length (filter (λ l, has_item "lat" l && has_item "lon" l = true) locations) ∧
    dict_get analysis "pollution_hotspots" = Some (VList hotspots) ∧
    length hotspots ≤ length alerts ≤ length hotspots + 1 ∧
    Forall moderate alerts.
Proof.
  intros Hsim Hattr Hnames.
  destruct (collect_loop_with_names locations Hnames 0 []) as (data & Hcollect & Hdata).
  simpl in Hcollect.
  pose proof (collect_loop_samples locations Hsim 0 [] data (Forall_nil_2 _) Hcollect)
    as Hsamples.
  destruct (analyze_samples data Hsamples)
    as (analysis & average & hotspots & Hanalysis & Havg & Hq & Hhot & Hall).
  destruct (check_for_alerts_samples analysis average hotspots self Havg Hq Hhot Hall)
    as (alerts & Hcheck & Hlen & Hmod).
  exists data, analysis, hotspots, alerts.
  split; [|split; [|split; [exact Hhot|split; [exact Hlen|exact Hmod]]]].
  - unfold MonitoringCycle.execute_cycle, MonitoringCycle.cycle_body,
      MonitoringCycle._collect_environmental_data, attribute.
    rewrite Hattr. simpl. rewrite Hcollect, Hanalysis.
    destruct (MonitoringCycle._check_for_alerts now format_1f str (VDict analysis) self)
      as [r self']. simpl in Hcheck. by rewrite Hcheck.
  - apply (f_equal length) in Hdata. by rewrite !length_fmap in Hdata.
Qed.

End monitoring.

Lemma monitor_data_locations :
  attrs Samples.monitor_data !! "monitoring_locations"
  = Some (VList [VDict [("name", VStr "City Center");
                        ("lat", VFloat (407128 # 10000));
                        ("lon", VFloat (-740060 # 10000))];
                 VDict [("name", VStr "Industrial Zone");
                        ("lat", VFloat (407589 # 10000));
                        ("lon", VFloat (-739851 # 10000))];
                 VDict [("name", VStr "Residential Area");
                        ("lat", VFloat (406892 # 10000));
                        ("lon", VFloat (-740445 # 10000))]]).
Proof. reflexivity. Qed.

Lemma steady_readings_simulated : simulated Samples.steady_readings.
Proof.
  intros i. eexists _, _, 120%Z, _. split; [reflexivity|].
  split; [reflexivity|]. split; [lia|reflexivity].
Defined.

Lemma collection_skips_or_fails_witness :
  ∃ msg,
    MonitoringCycle.execute_cycle Samples.steady_readings "2024-01-01T00:00:00"
      Samples.plain_format Samples.plain_str ∅
      (set_attr "monitoring_locations"
         (VList [VDict [("name", VStr "City Center")]; VStr "Harbour"])
         Samples.monitor_data)
    = (Returned (VDict [("error", VStr msg)]),
       set_attr "monitoring_locations"
         (VList [VDict [("name", VStr "City Center")]; VStr "Harbour"])
         Samples.monitor_data).
Proof.
  destruct (collection_skips_or_fails Samples.steady_readings "2024-01-01T00:00:00"
              Samples.plain_format Samples.plain_str ∅
              (set_attr "monitoring_locations"
                 (VList [VDict [("name", VStr "City Center")]; VStr "Harbour"])
                 Samples.monitor_data)
              [VDict [("name", VStr "City Center")]; VStr "Harbour"] eq_refl)
    as [_ Hfails].
  apply (Hfails (VStr "Harbour")); [|reflexivity].
  apply elem_of_cons. right. apply elem_of_cons. by left.
Defined.

Lemma nameless_location_is_accepted_and_breaks_the_cycle_witness :
  let message := [("type", VStr "set_monitoring_location");
                  ("location", VStr "Harbour")] in
  let r := EnvironmentalMonitoringAgent._process_message message Samples.monitor_data in
  r.1 = Returned (VDict [("status", VStr "success");
                         ("message", VStr "Location added")]) ∧
  ∃ msg,
    MonitoringCycle.execute_cycle Samples.steady_readings "2024-01-01T00:00:00"
      Samples.plain_format Samples.plain_str ∅ r.2
    = (Returned (VDict [("error", VStr msg)]), r.2).
Proof.
  exact (nameless_location_is_accepted_and_breaks_the_cycle
           Samples.steady_readings "2024-01-01T00:00:00"
           Samples.plain_format Samples.plain_str
           [("type", VStr "set_monitoring_location"); ("location", VStr "Harbour")]
           Samples.monitor_data _ (VStr "Harbour") _ ∅
           eq_refl eq_refl eq_refl eq_refl monitor_data_locations).
Defined.

Lemma simulated_cycle_reports_moderate_alerts_witness :
  ∃ data analysis hotspots alerts,
    (MonitoringCycle.execute_cycle Samples.steady_readings "2024-01-01T00:00:00"
       Samples.plain_format Samples.plain_str ∅ Samples.monitor_data).1
      = Returned (VDict [("environmental_data", VList data);
                         ("analysis", VDict analysis);
                         ("alerts", VList alerts);
                         ("timestamp", VStr "2024-01-01T00:00:00")]) ∧
    length data = 3 ∧
    dict_get analysis "pollution_hotspots" = Some (VList hotspots) ∧
    length hotspots ≤ length alerts ≤ length hotspots + 1 ∧
    Forall moderate alerts.
Proof.
  assert (Forall (λ l, has_item "name" l = true)
            [VDict [("name", VStr "City Center");
                    ("lat", VFloat (407128 # 10000));
                    ("lon", VFloat (-740060 # 10000))];
             VDict [("name", VStr "Industrial Zone");
                    ("lat", VFloat (407589 # 10000));
                    ("lon", VFloat (-739851 # 10000))];
             VDict [("name", VStr "Residential Area");
                    ("lat", VFloat (406892 # 10000));
                    ("lon", VFloat (-740445 # 10000))]]) as Hnames.
  { repeat constructor. }
  exact (simulated_cycle_reports_moderate_alerts Samples.steady_readings
           "2024-01-01T00:00:00" Samples.plain_format Samples.plain_str ∅
           Samples.monitor_data _ steady_readings_simulated
           monitor_data_locations Hnames).
Defined.

(** * The coordination rule and the monitoring agent *)

(** ** The classes of the agents never change *)















(** ** Without an alert the rule calls no one *)













(** * The monitoring interval after alerts *)

Lemma handle_alerts_resets (alerts : list (timestamp * pyval))
    (m : MonitoringAlerts.Monitor) :
  let m' := handle_alerts alerts m in
  MonitoringAlerts.resets m' =
    MonitoringAlerts.resets m ++
      match alerts with
      | [] => []
      | _ :: rest => interval m :: replicate (length rest) 60%Z
      end ∧
  interval m' = match alerts with [] => interval m | _ :: _ => 60%Z end.
Proof.
  revert m. induction alerts as [|a alerts IH]; intros m; simpl.
  - by rewrite app_nil_r.
  - destruct (IH (MonitoringAlerts.handle_pollution_alert a.1 a.2 m)) as [Hr Hi].
    unfold handle_alerts in *. rewrite Hr, Hi. simpl. rewrite <- app_assoc. simpl.
    by destruct alerts.
Qed.

Lemma wake_all (l : list Z) (m : MonitoringAlerts.Monitor) :
  MonitoringAlerts.resets m = l →
  MonitoringAlerts.resets (wake (length l) m) = [] ∧
  interval (wake (length l) m) = default (interval m) (last l).
Proof.
  revert m. induction l as [|z l IH]; intros m Hm; [done|].
  unfold wake in *. cbn [length]. rewrite Nat.iter_succ_r.
  assert (MonitoringAlerts.resets (MonitoringAlerts._reset_monitoring_interval m) = l
          ∧ interval (MonitoringAlerts._reset_monitoring_interval m) = z) as [Hr Hi].
  { unfold MonitoringAlerts._reset_monitoring_interval. by rewrite Hm. }
  destruct (IH _ Hr) as [-> ->]. split; [done|]. rewrite Hi.
  destruct l as [|z' l]; [done|]. rewrite !last_cons. by destruct (last l).
Qed.

(** X25. [handle_pollution_alert] of the monitoring agent sets the interval
    to 60 seconds and leaves a task that restores the interval it found.
    After one alert the task restores the interval of before.  After two
    or more alerts handled before the first task wakes, the tasks of the
    later alerts restore the 60 seconds they found: when all have woken,
    the agent monitors every minute for good. *)
Theorem overlapping_alerts_keep_the_fast_interval
    (alerts : list (timestamp * pyval)) (m : MonitoringAlerts.Monitor) :
  MonitoringAlerts.resets m = [] →
  let m' := wake (length alerts) (handle_alerts alerts m) in
  MonitoringAlerts.resets m' = [] ∧
  interval m' = if decide (length alerts ≤ 1) then interval m else 60%Z.
Proof.
  intros Hm. destruct (handle_alerts_resets alerts m) as [Hr _].
  rewrite Hm in Hr. simpl in Hr.
  destruct alerts as [|a rest]; [done|].
  assert (length (a :: rest) = length (interval m :: replicate (length rest) 60%Z))
    as Hlen by (simpl; by rewrite length_replicate).
  cbv zeta. rewrite Hlen at 1 2.
  destruct (wake_all _ _ Hr) as [-> ->]. split; [done|].
  destruct rest as [|b rest]; [done|].
  rewrite decide_False by (simpl; lia).
  cbn [length]. rewrite replicate_S, last_cons_cons.
  generalize (interval (handle_alerts (a :: b :: rest) m)).
  generalize (length rest). clear.
  intros n d. induction n as [|n IH]; [done|].
  by rewrite replicate_S, last_cons_cons.
Qed.

Lemma overlapping_alerts_keep_the_fast_interval_witness :
  let m := MonitoringAlerts.mkMonitor Samples.monitor_data [] in
  interval m = 300%Z ∧
  interval (wake 2 (handle_alerts [("2024-01-01T00:00:00", VDict []);
                                   ("2024-01-01T00:10:00", VDict [])] m)) = 60%Z.
Proof.
  split; [reflexivity|].
  exact (proj2 (overlapping_alerts_keep_the_fast_interval
                  [("2024-01-01T00:00:00", VDict []); ("2024-01-01T00:10:00", VDict [])]
                  (MonitoringAlerts.mkMonitor Samples.monitor_data []) eq_refl)).
Defined.

(** * The community agent *)

Lemma dict_set_set {A} (d : list (string * A)) k v1 v2 :
  dict_set (dict_set d k v1) k v2 = dict_set d k v2.
Proof.
  induction d as [|[k' v] d IH]; simpl.
  - by rewrite decide_True.
  - destruct (decide (k' = k)) as [->|Hne]; simpl.
    + by rewrite decide_True.
    + rewrite decide_False by done. by rewrite IH.
Qed.

Lemma dict_set_same {A} (d : list (string * A)) k v :
  dict_get d k = Some v → dict_set d k v = d.
Proof.
  induction d as [|[k' v'] d IH]; [done|]. cbn [dict_get dict_set].
  destruct (decide (k' = k)) as [->|Hne].
  - by intros [= ->].
  - intros Hget. by rewrite IH.
Qed.

Section community.

Variables (now deadline : timestamp).
Variable campaign_stamp : string.
Variable action_stamp : nat → string.
Variable str : pyval → string.

Lemma filter_comprehension_members (members : list pyval) :
  Forall member_ok members →
  filter_comprehension CommunityAgent.high_engagement members
    = Returned (filter (λ m, engaged m = true) members).
Proof.
  induction 1 as [|m members (Hm & _ & _) _ IH]; simpl; [done|].
  unfold engaged. destruct (CommunityAgent.high_engagement m) as [b|] eqn:Hb; [|done].
  simpl. rewrite IH. simpl. destruct b.
  - by rewrite filter_cons_True by (by rewrite Hb).
  - by rewrite filter_cons_False by (by rewrite Hb).
Qed.

Lemma recruit_loop_members (members : list pyval) :
  Forall member_ok members →
  ∀ campaign current participants,
    dict_get campaign "current_participants" = Some (VList current) →
    ∃ new,
      CommunityAgent.recruit_loop now members campaign participants
        = (Returned (participants ++ new),
           dict_set campaign "current_participants" (VList (current ++ new))) ∧
      (λ p, py_getitem p "user_id") <$> new = (λ m, py_getitem m "id") <$> members.
Proof.
  induction 1 as [|m members (_ & Hid & Hname) _ IH];
    intros campaign current participants Hcur; simpl.
  - exists []. rewrite !app_nil_r. split; [|done]. by rewrite dict_set_same.
  - unfold CommunityAgent.emergency_participant, CommunityAgent.add_participant.
    destruct (py_getitem m "id") as [id|] eqn:Hmid; [|done].
    destruct (py_getitem m "name") as [name|]; [|done].
    unfold py_getitem at 1. rewrite Hcur. cbn [and_then].
    set (p := VDict [("user_id", id); ("name", name); ("joined_at", VStr now);
                     ("assigned_actions", VList []); ("completed_actions", VList []);
                     ("emergency_participant", VBool true)]).
    destruct (IH (dict_set campaign "current_participants" (VList (current ++ [p])))
                (current ++ [p]) (participants ++ [p])) as (new & -> & Hnew).
    { apply dict_get_set_eq. }
    exists (p :: new). rewrite <- !app_assoc, dict_set_set. split; [done|].
    rewrite !fmap_cons, Hnew. reflexivity.
Qed.

Lemma create_emergency_campaign (pollution_data location : pyval)
    (self : AgentData) (campaigns members : list pyval) (n : Z) :
  attrs self !! "active_campaigns" = Some (VList campaigns) →
  attrs self !! "community_members" = Some (VList members) →
  _get_memory "campaigns_created" self = Returned (VInt n) →
  ∃ campaign,
    CommunityAgent._create_campaign now deadline campaign_stamp action_stamp str
      [("type", VStr "pollution_emergency");
       ("priority", VStr "high");
       ("location", location);
       ("description", VStr "Emergency community response to pollution event");
       ("source", VStr "pollution_alert");
       ("data", pollution_data)] self
    = (Returned campaign,
       _store_memory "campaigns_created" (VInt (n + 1)) now self) ∧
    truthy (VDict campaign) = true ∧
    dict_get campaign "current_participants" = Some (VList []) ∧
    dict_get campaign "target_participants"
      = Some (VInt (Z.min (if py_eq location (VStr "general") then 30 else 15)
                      (Z.of_nat (length members)))).
Proof.
  intros Hcampaigns Hmembers Hmemory.
  unfold CommunityAgent._create_campaign, CommunityAgent.active_campaigns,
    CommunityAgent._calculate_target_participants, CommunityAgent.community_members,
    attribute.
  rewrite Hcampaigns, Hmembers, Hmemory.
  set (need := [("type", VStr "pollution_emergency"); ("priority", VStr "high");
                ("location", location);
                ("description", VStr "Emergency community response to pollution event");
                ("source", VStr "pollution_alert"); ("data", pollution_data)]).
  assert (CommunityAgent._generate_campaign_title str need
          = Returned (VStr ("Environmental Action Needed in " +:+ str location)))
    as -> by reflexivity.
  cbn [and_then py_len].
  assert (py_add_int (py_or (VInt n) (VInt 0)) 1 = Returned (VInt (n + 1))) as ->.
  { unfold py_or. simpl. destruct (n =? 0)%Z eqn:Hn; simpl; [|done].
    apply Z.eqb_eq in Hn. by subst. }
  cbn [and_then].
  eexists. split; [reflexivity|]. split; [done|]. split; [done|].
  cbn [dict_get]. rewrite !decide_False by done. rewrite decide_True by done.
  do 2 f_equal. unfold need, message_get. simpl.
  by destruct (py_eq location (VStr "general")).
Qed.

(** X26. [coordinate_pollution_response] creates a campaign on every
    call, whatever campaigns are active: it appends one to
    [active_campaigns], counts it in the memory and records one action.
    The campaign starts with the first ten members whose engagement score
    is above 70, in the order of the members, and they are never more than
    the target of the campaign. *)
Theorem emergency_response_adds_a_campaign (pollution_data : pyval)
    (self : AgentData) (campaigns members : list pyval) (n : Z) :
  is_returned (py_get pollution_data "location" (VStr "general")) = true →
  attrs self !! "active_campaigns" = Some (VList campaigns) →
  attrs self !! "community_members" = Some (VList members) →
  Forall member_ok members →
  _get_memory "campaigns_created" self = Returned (VInt n) →
  let r := CommunityAgent.coordinate_pollution_response now deadline campaign_stamp
             action_stamp str pollution_data self in
  ∃ campaign participants target,
    r.1 = Returned (VDict [("campaign", VDict campaign);
                           ("participants", VList participants);
                           ("status", VStr "coordinated")]) ∧
    attrs r.2 !! "active_campaigns" = Some (VList (campaigns ++ [VDict campaign])) ∧
    _get_memory "campaigns_created" r.2 = Returned (VInt (n + 1)) ∧
    action_count r.2 = (action_count self + 1)%Z ∧
    dict_get campaign "current_participants" = Some (VList participants) ∧
    dict_get campaign "target_participants" = Some (VInt target) ∧
    (λ p, py_getitem p "user_id") <$> participants
      = (λ m, py_getitem m "id") <$> take 10 (filter (λ m, engaged m = true) members) ∧
    (Z.of_nat (length participants) ≤ target)%Z.
Proof.
  intros Hdata Hcampaigns Hmembers Hok Hmemory.
  unfold CommunityAgent.coordinate_pollution_response.
  destruct (py_get pollution_data "location" (VStr "general")) as [location|]; [|done].
  destruct (create_emergency_campaign pollution_data location self campaigns members n
              Hcampaigns Hmembers Hmemory) as (campaign & -> & Htruthy & Hcur & Htarget).
  rewrite Htruthy.
  unfold CommunityAgent._recruit_emergency_participants,
    CommunityAgent.active_campaigns, CommunityAgent.community_members, attribute.
  cbn [attrs _store_memory]. rewrite Hcampaigns, Hmembers. cbn [and_then py_iter].
  rewrite (filter_comprehension_members members Hok).
  set (recruits := take 10 (filter (λ m, engaged m = true) members)).
  assert (Forall member_ok recruits) as Hrecruits.
  { apply Forall_take, Forall_forall. intros m [_ Hin]%list_elem_of_filter.
    by eapply Forall_forall in Hok. }
  destruct (recruit_loop_members recruits Hrecruits campaign [] [] Hcur)
    as (new & -> & Hnew).
  cbn [app]. eexists _, new, _. split; [reflexivity|].
  split; [apply lookup_insert_eq|]. split.
  { unfold _get_memory. simpl. by rewrite lookup_insert_eq. }
  split; [done|]. split; [apply dict_get_set_eq|].
  split; [by rewrite dict_get_set_ne|]. split; [done|].
  apply (f_equal length) in Hnew. rewrite !length_fmap in Hnew. rewrite Hnew.
  unfold recruits. rewrite length_take.
  pose proof (length_filter (λ m, engaged m = true) members).
  destruct (py_eq location (VStr "general")); lia.
Qed.

(** ** The ids of the actions *)

Lemma action_entry_id (n i : nat) (base : string * Z * string) :
  py_getitem (CommunityAgent.action_entry action_stamp n i base) "id"
    = Returned (VStr ("action_" +:+ pretty n +:+ "_" +:+ action_stamp i)).
Proof. by destruct base as [[action points] difficulty]. Qed.

Lemma actions_by_id (need : pydict) (i : nat) (action : pyval) :
  let actions := CommunityAgent._generate_campaign_actions action_stamp need in
  actions !! i = Some action →
  py_getitem action "id"
    = Returned (VStr ("action_" +:+ pretty (length actions) +:+ "_" +:+ action_stamp i)) ∧
  ((∀ j, action_stamp j = action_stamp 0) →
   ∃ base,
     actions !! 0
       = Some (CommunityAgent.action_entry action_stamp (length actions) 0 base) ∧
     find_first
       (CommunityAgent.has_id
          (VStr ("action_" +:+ pretty (length actions) +:+ "_" +:+ action_stamp i)))
       0 actions
     = Returned (Some (0, CommunityAgent.action_entry action_stamp (length actions)
                            0 base))).
Proof.
  unfold CommunityAgent._generate_campaign_actions. cbv zeta.
  generalize (if py_eq (message_get need "type" VNone) (VStr "alert_response")
              then [("report_environmental_conditions", 10%Z, "easy");
                    ("share_safety_information", 15%Z, "easy");
                    ("organize_local_cleanup", 50%Z, "hard");
                    ("contact_local_authorities", 25%Z, "medium")]
              else if py_eq (message_get need "type" VNone)
                        (VStr "air_quality_improvement")
              then [("use_public_transportation", 20%Z, "easy");
                    ("plant_air_purifying_plants", 30%Z, "medium");
                    ("organize_car_free_day", 100%Z, "hard");
                    ("install_air_quality_monitor", 40%Z, "medium")]
              else [("environmental_monitoring", 15%Z, "easy");
                    ("community_education", 25%Z, "medium");
                    ("organize_group_action", 75%Z, "hard")]).
  intros bases. rewrite list_lookup_imap, length_imap.
  destruct (bases !! i) as [base|] eqn:Hbase; [|done]. intros [= <-].
  split; [apply action_entry_id|]. intros Hstamp.
  destruct bases as [|first rest]; [done|].
  exists first. split; [done|].
  rewrite imap_cons. cbn [find_first]. unfold CommunityAgent.has_id.
  rewrite action_entry_id. cbn [and_then py_eq].
  by rewrite (Hstamp i), bool_decide_true.
Qed.

(** X27. The id of a campaign action is built from the number of actions
    of the campaign and the second in which it is made, not from the
    action: actions made within one second share their id, and the lookup
    by id that [_handle_action_completion] does finds the first action of
    the campaign for the id of any of them. *)
Theorem campaign_actions_share_their_id (need : pydict) (i : nat) (action : pyval) :
  let actions := CommunityAgent._generate_campaign_actions action_stamp need in
  actions !! i = Some action →
  py_getitem action "id"
    = Returned (VStr ("action_" +:+ pretty (length actions) +:+ "_" +:+ action_stamp i)) ∧
  ((∀ j, action_stamp j = action_stamp 0) →
   ∃ id first,
     py_getitem action "id" = Returned id ∧
     actions !! 0 = Some first ∧
     find_first (CommunityAgent.has_id id) 0 actions = Returned (Some (0, first))).
Proof.
  intros actions Hi. destruct (actions_by_id need i action Hi) as [Hid Hfirst].
  split; [done|]. intros Hstamp. destruct (Hfirst Hstamp) as (base & H0 & Hfind).
  by eexists _, _.
Qed.

(** ** Joining a campaign *)

Lemma find_first_found (test : pyval → outcome bool) (l : list pyval) k i x :
  find_first test k l = Returned (Some (i, x)) →
  k ≤ i ∧ l !! (i - k) = Some x ∧ test x = Returned true.
Proof.
  revert k. induction l as [|y l IH]; intros k; simpl; [done|].
  destruct (test y) as [[|]|] eqn:Hy; simpl; [| |done].
  - intros [= <- <-]. by rewrite Nat.sub_diag.
  - intros (Hk & Hl & Hx)%IH. split; [lia|]. split; [|done].
    replace (i - k) with (S (i - S k)) by lia. done.
Qed.

Lemma find_first_insert (test : pyval → outcome bool) (l : list pyval) k i x x' :
  find_first test k l = Returned (Some (i, x)) →
  test x' = Returned true →
  find_first test k (<[i - k := x']> l) = Returned (Some (i, x')).
Proof.
  intros Hfind Hx'. revert k Hfind.
  induction l as [|y l IH]; intros k; simpl; [done|].
  destruct (test y) as [[|]|] eqn:Hy; simpl; [| |done].
  - intros [= <- <-]. rewrite Nat.sub_diag. simpl. by rewrite Hx'.
  - intros Hfind. destruct (find_first_found _ _ _ _ _ Hfind) as (Hk & _ & _).
    replace (i - k) with (S (i - S k)) by lia. simpl. rewrite Hy. simpl.
    by apply IH.
Qed.

Lemma py_any_snoc (test : pyval → outcome bool) (l : list pyval) x :
  py_any test l = Returned false →
  py_any test (l ++ [x]) = and_then (test x) (λ found, Returned found).
Proof.
  induction l as [|y l IH]; simpl.
  - intros _. by destruct (test x) as [[|]|].
  - destruct (test y) as [[|]|]; simpl; [done|exact IH|done].
Qed.

Lemma truthy_dict_set (d : pydict) k v : truthy (VDict (dict_set d k v)) = true.
Proof. destruct d as [|[k' v'] d]; simpl; [done|]. by destruct (decide (k' = k)). Qed.

Lemma has_id_joined (campaign_id : pyval) (campaign : pydict) (v : pyval) :
  CommunityAgent.has_id campaign_id
    (VDict (dict_set campaign "current_participants" v))
  = CommunityAgent.has_id campaign_id (VDict campaign).
Proof.
  unfold CommunityAgent.has_id, py_getitem. by rewrite dict_get_set_ne.
Qed.

(** X28. [_handle_campaign_join] adds a user to the first active campaign
    with the id, at the end of its participants, and answers with success;
    the other campaigns stay as they are.  The same user joining again is
    turned away, and the agent stays as it is. *)
Theorem joining_twice_is_rejected (campaign_id : pyval) (user_info : pydict)
    (uid : string) (self : AgentData) (campaigns : list pyval) (i : nat)
    (campaign : pydict) (current : list pyval) :
  attrs self !! "active_campaigns" = Some (VList campaigns) →
  find_first (CommunityAgent.has_id campaign_id) 0 campaigns
    = Returned (Some (i, VDict campaign)) →
  dict_get campaign "current_participants" = Some (VList current) →
  py_any (CommunityAgent.is_user (Returned (VStr uid))) current = Returned false →
  dict_get user_info "id" = Some (VStr uid) →
  let join := CommunityAgent._handle_campaign_join now campaign_id (VDict user_info) in
  let participant :=
    VDict [("user_id", VStr uid);
           ("name", message_get user_info "name" (VStr "Anonymous"));
           ("joined_at", VStr now);
           ("assigned_actions", VList []);
           ("completed_actions", VList [])] in
  let joined :=
    dict_set campaign "current_participants" (VList (current ++ [participant])) in
  let self' := CommunityAgent.put_campaign i joined campaigns self in
  join self
    = (Returned (VDict [("status", VStr "success");
                        ("message", VStr "Successfully joined campaign")]), self') ∧
  join self'
    = (Returned (VDict [("status", VStr "error");
                        ("message", VStr "User already participating")]), self').
Proof.
  intros Hattr Hfind Hcur Hany Hid join participant joined self'.
  assert (truthy (VDict campaign) = true) as Htruthy by (by destruct campaign).
  destruct (find_first_found _ _ _ _ _ Hfind) as (_ & _ & Hhas).
  assert (py_get (VDict user_info) "id" VNone = Returned (VStr uid)) as Hget
    by (unfold py_get; by rewrite Hid).
  assert (py_getitem (VDict user_info) "id" = Returned (VStr uid)) as Hitem
    by (unfold py_getitem; by rewrite Hid).
  assert (py_get (VDict campaign) "current_participants" (VList [])
          = Returned (VList current)) as Hcp
    by (unfold py_get; by rewrite Hcur).
  assert (py_get (VDict joined) "current_participants" (VList [])
          = Returned (VList (current ++ [participant]))) as Hcp'
    by (unfold py_get, joined; by rewrite dict_get_set_eq).
  split.
  - unfold join, CommunityAgent._handle_campaign_join,
      CommunityAgent.active_campaigns, attribute.
    rewrite Hattr. cbn [and_then py_iter]. rewrite Hfind. cbn [and_then].
    rewrite Htruthy, Hcp. cbn [and_then py_iter]. rewrite Hget, Hany.
    cbn [and_then]. rewrite Hitem. cbn [and_then].
    unfold CommunityAgent.add_participant, py_getitem. rewrite Hcur. done.
  - unfold join, CommunityAgent._handle_campaign_join,
      CommunityAgent.active_campaigns, attribute.
    unfold self' at 1 2. unfold CommunityAgent.put_campaign at 1 2.
    cbn [attrs set_attr]. rewrite lookup_insert_eq. cbn [and_then py_iter].
    pose proof (find_first_insert _ campaigns 0 i _ (VDict joined) Hfind) as Hfind'.
    rewrite Nat.sub_0_r in Hfind'. rewrite Hfind'.
    2:{ unfold joined. by rewrite has_id_joined. }
    cbn [and_then]. unfold joined at 1. rewrite truthy_dict_set.
    fold joined. rewrite Hcp'. cbn [and_then py_iter]. rewrite Hget.
    rewrite (py_any_snoc _ _ _ Hany).
    unfold CommunityAgent.is_user at 1, participant. simpl.
    by rewrite bool_decide_true.
Qed.

(** X29. A ["join_campaign"] message without ["user_info"] is not answered
    with an error status.  When no active campaign has the id it is
    answered as not found; when one has, the handler raises, a [TypeError]
    if the campaign has no participant yet and an [AttributeError]
    otherwise, and the agent stays as it is. *)
Theorem join_without_user_info_raises (message : pydict) (self : AgentData)
    (campaigns : list pyval) :
  dict_get message "type" = Some (VStr "join_campaign") →
  dict_get message "user_info" = None →
  attrs self !! "active_campaigns" = Some (VList campaigns) →
  let campaign_id := message_get message "campaign_id" VNone in
  let r := CommunityAgent._process_message now message self in
  (find_first (CommunityAgent.has_id campaign_id) 0 campaigns = Returned None →
   r = (Returned (CommunityAgent.not_found "Campaign"), self)) ∧
  (∀ i campaign current,
     find_first (CommunityAgent.has_id campaign_id) 0 campaigns
       = Returned (Some (i, VDict campaign)) →
     dict_get campaign "current_participants" = Some (VList current) →
     ∃ e, r = (Raised e, self) ∧
          exn_class e = match current with
                        | [] => "TypeError"
                        | _ :: _ => "AttributeError"
                        end).
Proof.
  intros Htype Hinfo Hattr campaign_id r.
  assert (r = CommunityAgent._handle_campaign_join now campaign_id VNone self) as ->.
  { unfold r, CommunityAgent._process_message, message_get.
    by rewrite Htype, Hinfo. }
  unfold CommunityAgent._handle_campaign_join, CommunityAgent.active_campaigns,
    attribute.
  rewrite Hattr. cbn [and_then py_iter]. split.
  - by intros ->.
  - intros i campaign current -> Hcur. cbn [and_then].
    assert (truthy (VDict campaign) = true) as -> by (by destruct campaign).
    unfold py_get at 1. rewrite Hcur.
    destruct current as [|p rest]; [by eexists|].
    simpl. unfold CommunityAgent.is_user.
    destruct (py_get p "user_id" VNone) as [pid|e] eqn:Hp; simpl.
    + eexists. split; reflexivity.
    + exists e. split; [done|]. destruct p; simpl in Hp; by simplify_eq.
Qed.

(** ** Completing an action *)

(** X30. In a campaign whose actions were made within one second, a
    completion is counted for the first action, whichever action it names:
    [_handle_action_completion] answers with the points of the first
    action and raises the count of the first action to one. *)
Theorem completion_is_counted_for_the_first_action (campaign_id user_id : pyval)
    (need : pydict) (k : nat) (action : pyval) (self : AgentData)
    (campaigns : list pyval) (i : nat) (campaign : pydict)
    (participants : list pyval) (j : nat) (participant : pydict)
    (completed : list pyval) :
  attrs self !! "active_campaigns" = Some (VList campaigns) →
  find_first (CommunityAgent.has_id campaign_id) 0 campaigns
    = Returned (Some (i, VDict campaign)) →
  dict_get campaign "current_participants" = Some (VList participants) →
  find_first (CommunityAgent.is_user (Returned user_id)) 0 participants
    = Returned (Some (j, VDict participant)) →
  dict_get participant "completed_actions" = Some (VList completed) →
  let actions := CommunityAgent._generate_campaign_actions action_stamp need in
  dict_get campaign "actions" = Some (VList actions) →
  (∀ n, action_stamp n = action_stamp 0) →
  actions !! k = Some action →
  ∃ action_id first points,
    py_getitem action "id" = Returned action_id ∧
    actions !! 0 = Some (VDict first) ∧
    dict_get first "points" = Some points ∧
    let r := CommunityAgent._handle_action_completion now campaign_id action_id
               user_id self in
    r.1 = Returned (VDict [("status", VStr "success"); ("points_earned", points)]) ∧
    ∃ campaign',
      attrs r.2 !! "active_campaigns"
        = Some (VList (<[i := VDict campaign']> campaigns)) ∧
      dict_get campaign' "actions"
        = Some (VList (<[0 := VDict (dict_set first "completed_count" (VInt 1))]>
                         actions)).
Proof.
  intros Hattr Hfind Hcp Huser Hdone actions Hactions Hstamp Hk.
  destruct (actions_by_id need k action Hk) as [Hid Hfirst].
  destruct (Hfirst Hstamp) as ([[name points] difficulty] & H0 & Hfound).
  fold actions in Hid, H0, Hfound.
  set (first := [("action", VStr name); ("points", VInt points);
                 ("difficulty", VStr difficulty);
                 ("id", VStr ("action_" +:+ pretty (length actions) +:+ "_"
                                +:+ action_stamp 0));
                 ("participants", VList []); ("completed_count", VInt 0);
                 ("impact_estimate", VInt (points * 2))]).
  change (CommunityAgent.action_entry action_stamp (length actions) 0
            (name, points, difficulty)) with (VDict first) in H0, Hfound.
  assert (py_get (VDict first) "points" (VInt 0) = Returned (VInt points)) as Hpoints
    by reflexivity.
  assert (CommunityAgent.count_completion (VDict first)
          = Returned (VDict (dict_set first "completed_count" (VInt 1)))) as Hcount
    by reflexivity.
  assert (py_get (VDict (dict_set first "completed_count" (VInt 1))) "points" (VInt 0)
          = Returned (VInt points)) as Hpoints'
    by reflexivity.
  exists (VStr ("action_" +:+ pretty (length actions) +:+ "_" +:+ action_stamp k)),
    first, (VInt points).
  split; [exact Hid|]. split; [exact H0|]. split; [reflexivity|]. cbv zeta.
  unfold CommunityAgent._handle_action_completion, CommunityAgent.active_campaigns,
    attribute.
  rewrite Hattr. cbn [and_then py_iter]. rewrite Hfind. cbn [and_then].
  assert (py_get (VDict campaign) "current_participants" (VList [])
          = Returned (VList participants)) as ->
    by (unfold py_get; by rewrite Hcp).
  cbn [and_then py_iter]. rewrite Huser. cbn [and_then].
  assert (truthy (VDict participant) = true) as -> by (by destruct participant).
  assert (py_get (VDict campaign) "actions" (VList []) = Returned (VList actions))
    as -> by (unfold py_get; by rewrite Hactions).
  cbn [and_then py_iter]. rewrite Hfound. cbn [and_then].
  assert (truthy (VDict first) = true) as -> by reflexivity.
  rewrite Hpoints. cbn [and_then].
  unfold CommunityAgent.add_completion, py_getitem. rewrite Hdone. cbn [and_then].
  rewrite Hcount. cbn [and_then]. rewrite Hpoints'. cbn [and_then].
  unfold CommunityAgent.put_participant, CommunityAgent.put_action.
  rewrite Hcp. rewrite dict_get_set_ne by done. rewrite Hactions.
  split; [reflexivity|]. eexists. split; [apply lookup_insert_eq|].
  by rewrite dict_get_set_eq.
Qed.

End community.

Lemma mock_members_ok : Forall member_ok CommunityAgent.mock_members.
Proof. by repeat constructor. Qed.

Lemma emergency_response_adds_a_campaign_witness :
  let r := CommunityAgent.coordinate_pollution_response "2024-01-01T00:05:00"
             "2024-01-08T00:05:00" "20240101_000500" Samples.one_second Samples.show
             Samples.polluted_data Samples.community_data in
  ∃ campaign participants target,
    r.1 = Returned (VDict [("campaign", VDict campaign);
                           ("participants", VList participants);
                           ("status", VStr "coordinated")]) ∧
    attrs r.2 !! "active_campaigns" = Some (VList ([] ++ [VDict campaign])) ∧
    _get_memory "campaigns_created" r.2 = Returned (VInt (0 + 1)) ∧
    action_count r.2 = (action_count Samples.community_data + 1)%Z ∧
    dict_get campaign "current_participants" = Some (VList participants) ∧
    dict_get campaign "target_participants" = Some (VInt target) ∧
    (λ p, py_getitem p "user_id") <$> participants
      = (λ m, py_getitem m "id")
          <$> take 10 (filter (λ m, engaged m = true) CommunityAgent.mock_members) ∧
    (Z.of_nat (length participants) ≤ target)%Z.
Proof.
  exact (emergency_response_adds_a_campaign "2024-01-01T00:05:00"
           "2024-01-08T00:05:00" "20240101_000500" Samples.one_second Samples.show
           Samples.polluted_data Samples.community_data [] CommunityAgent.mock_members 0
           eq_refl eq_refl eq_refl mock_members_ok eq_refl).
Defined.

Lemma campaign_actions_share_their_id_witness :
  let actions :=
    CommunityAgent._generate_campaign_actions Samples.one_second
      [("type", VStr "pollution_emergency")] in
  ∃ action,
    actions !! 2 = Some action ∧
    py_getitem action "id" = Returned (VStr "action_3_000500") ∧
    ∃ first,
      actions !! 0 = Some first ∧
      find_first (CommunityAgent.has_id (VStr "action_3_000500")) 0 actions
        = Returned (Some (0, first)).
Proof.
  intros actions. eexists. split; [reflexivity|].
  destruct (campaign_actions_share_their_id Samples.one_second
              [("type", VStr "pollution_emergency")] 2 _ eq_refl) as [Hid Hshared].
  split; [exact Hid|].
  destruct (Hshared (λ _, eq_refl)) as (id & first & Hid' & Hfirst & Hfind).
  rewrite Hid in Hid'. injection Hid' as <-. by exists first.
Defined.

Lemma joining_twice_is_rejected_witness :
  let user_info := [("id", VStr "user_002"); ("name", VStr "Bob Smith")] in
  let join :=
    CommunityAgent._handle_campaign_join "2024-01-01T00:06:00"
      (VStr "campaign_1_20240101_000500") (VDict user_info) in
  (join Samples.community_with_campaign).1
    = Returned (VDict [("status", VStr "success");
                       ("message", VStr "Successfully joined campaign")]) ∧
  (join (join Samples.community_with_campaign).2).1
    = Returned (VDict [("status", VStr "error");
                       ("message", VStr "User already participating")]).
Proof.
  intros user_info join.
  destruct (joining_twice_is_rejected "2024-01-01T00:06:00"
              (VStr "campaign_1_20240101_000500") user_info "user_002"
              Samples.community_with_campaign [VDict Samples.small_campaign] 0
              Samples.small_campaign _ eq_refl eq_refl eq_refl eq_refl eq_refl)
    as [Hfirst Hsecond].
  fold join in Hfirst, Hsecond. rewrite Hfirst. cbn [fst snd].
  split; [reflexivity|]. by rewrite Hsecond.
Defined.

Lemma join_without_user_info_raises_witness :
  ∃ e,
    CommunityAgent._process_message "2024-01-01T00:06:00"
      [("type", VStr "join_campaign");
       ("campaign_id", VStr "campaign_1_20240101_000500")]
      Samples.community_with_campaign
    = (Raised e, Samples.community_with_campaign) ∧
    exn_class e = "AttributeError".
Proof.
  destruct (join_without_user_info_raises "2024-01-01T00:06:00"
              [("type", VStr "join_campaign");
               ("campaign_id", VStr "campaign_1_20240101_000500")]
              Samples.community_with_campaign [VDict Samples.small_campaign]
              eq_refl eq_refl eq_refl) as [_ Hraises].
  exact (Hraises 0 Samples.small_campaign _ eq_refl eq_refl).
Defined.

Lemma completion_is_counted_for_the_first_action_witness :
  ∃ r,
    CommunityAgent._handle_action_completion "2024-01-01T00:07:00"
      (VStr "campaign_1_20240101_000500") (VStr "action_3_000500") (VStr "user_001")
      Samples.community_with_campaign = r ∧
    r.1 = Returned (VDict [("status", VStr "success"); ("points_earned", VInt 15)]).
Proof.
  eexists. split; [reflexivity|].
  destruct (completion_is_counted_for_the_first_action "2024-01-01T00:07:00"
              Samples.one_second
              (VStr "campaign_1_20240101_000500") (VStr "user_001")
              [("type", VStr "pollution_emergency")] 2 _
              Samples.community_with_campaign [VDict Samples.small_campaign] 0
              Samples.small_campaign _ 0 _ []
              eq_refl eq_refl eq_refl eq_refl eq_refl eq_refl (λ _, eq_refl) eq_refl)
    as (action_id & first & points & Hid & Hfirst & Hpoints & Hr & _).
  injection Hid as <-. injection Hfirst as <-. injection Hpoints as <-.
  exact Hr.
Defined.
